(** * oksidit: plume / diffusion / powder simulation

    A shallow embedding of [src/lib/diffusion.js] and [src/lib/powder.js].

    Numbers.  JavaScript numbers (and the [Float32Array] slots of the
    particle pools) are idealised as real numbers: every arithmetic
    operation is exact, there is no NaN and no infinity (the one place
    where the code stores [Infinity], the powder batch's [waterSurfaceY],
    is an [option]).  [Math.random()] reads the next cell of a tape that
    is part of the modelled state, so every theorem holds for every
    sequence of random draws.

    Pools.  The source keeps particles in parallel typed arrays indexed
    by slot ([positions], [velocities], [life], ...).  Here slot [i] of
    all the arrays is one record and the pool is the list of slots. *)

From Stdlib Require Import Reals Lra Lia List ZArith Bool Arith.
Import ListNotations.
Open Scope R_scope.

(** ** JavaScript primitives *)

Definition Rltb (x y : R) : bool := if Rlt_dec x y then true else false.
Definition Rleb (x y : R) : bool := if Rle_dec x y then true else false.

(** [a > b] and [a >= b] of the source are [Rltb b a] and [Rleb b a]. *)
Definition Rgtb (x y : R) : bool := Rltb y x.
Definition Rgeb (x y : R) : bool := Rleb y x.

Definition Math_floor (x : R) : Z := Int_part x.
Definition Math_ceil (x : R) : Z := (- Int_part (- x))%Z.
Definition Math_max (x y : R) : R := Rmax x y.
Definition Math_min (x y : R) : R := Rmin x y.
Definition Math_hypot (x z : R) : R := sqrt (x * x + z * z).
(** Only ever called with a positive base (see [integrateParticle]). *)
Definition Math_pow (b e : R) : R := Rpower b e.

(** [l] with slot [i] overwritten (typed arrays ignore out-of-range writes). *)
Fixpoint setNth {A} (i : nat) (x : A) (l : list A) : list A :=
  match l, i with
  | [], _ => []
  | _ :: t, O => x :: t
  | h :: t, S j => h :: setNth j x t
  end.

(** [Array.prototype.splice(i, 1)]. *)
Fixpoint splice1 {A} (i : nat) (l : list A) : list A :=
  match l, i with
  | [], _ => []
  | _ :: t, O => t
  | h :: t, S j => h :: splice1 j t
  end.

Module Diffusion.

(** ** Data model of [createDiffusionManager] *)

Definition RGB : Type := (R * R * R)%type.

(** The destructured argument of [createDiffusionManager] together with
    the two library operations the manager relies on: the constructor
    [THREE.Color(hex)] (hex colour to linear RGB) and the canvas
    compositing done by the browser in [step] (three blurred copies
    drawn back with the given [globalAlpha]). *)
Record Env := mkEnv {
  beakerRadius : R;
  waterSurfaceY : R;
  waterHeight : R;
  THREE_Color : Z -> RGB;
  canvasBlurBlend : R -> list nat -> list nat
}.

(** The part of the shared water uniforms the manager reads or writes. *)
Record WaterUniforms := mkWater {
  uGlobalConc : R;
  uIndicatorEnabled : option R
}.

(** Uniforms of the plume material that the JavaScript side touches.
    [uOverrideColor] is kept as the hex value it was last set from. *)
Record Uniforms := mkUniforms {
  uRequireIndicator : R;
  uOpacity : R;
  uSaturation : R;
  uBrightness : R;
  uEdgeSoftness : R;
  uLifePow : R;
  uAlphaPow : R;
  uMinAlpha : R;
  uOverrideColor : Z;
  uUseOverride : R
}.

Record PlumeConfig := mkConfig {
  spawnRate : R;
  spawnRateMultiplier : R;
  lifeSeconds : R;
  maxActive : R;
  alphaCurveExp : R;
  sizeCurveExp : R;
  minAlpha : R;
  enabled : bool;
  baselineEmissionRate : R;
  ageSpreadStrength : R;
  cellSize : R;
  maxPerCell : R;
  suppressionProbability : R
}.

(** One slot of the pool: [positions], [velocities], [life], [drifts],
    [expandDirs], [colors], [gate], [fadeTimers], [fadeDurations]. *)
Record Particle := mkParticle {
  posX : R; posY : R; posZ : R;
  velX : R; velY : R; velZ : R;
  life : R;
  driftX : R; driftZ : R;
  expandX : R; expandZ : R;
  color : RGB;
  gate : R;
  fadeTimer : R;
  fadeDuration : R
}.

(** [style] of a bottom request: [{ ignoreIndicator, saturation, opacity,
    brightness }] (the object never carries a [color] field). *)
Record Style := mkStyle {
  ignoreIndicator : bool;
  saturation : R;
  opacity : R;
  brightness : R
}.

(** A spawn queue entry [{ x, z, count, bottom, style?, rgb }]. *)
Record Request := mkRequest {
  reqX : R;
  reqZ : R;
  reqCount : Z;
  bottom : bool;
  style : option Style;
  rgb : option RGB
}.

Definition maxParticles : nat := 1000.
Definition indicatorSize : nat := 256.

Record Manager := mkManager {
  env : Env;
  waterUniforms : option WaterUniforms;
  (* indicator field *)
  indicatorCanvas : list nat;          (* RGBA bytes of the canvas *)
  _diffuseAccum : R;
  _concAccum : R;
  _lastMean : R;
  (* plume *)
  pool : list Particle;
  points : option Uniforms;
  plumeConfig : PlumeConfig;
  _bottomInjecting : bool;
  spawnQueue : list Request;
  _bottomPlumeDisabled : bool;
  bottomPlumeOffset : R * R;
  _debugForce : bool;
  _debugT : R;
  _spawnAccum : R;
  (* Math.random *)
  randomTape : nat -> R;
  randomPos : nat
}.

(** Field updates of the manager's closure variables. *)
Definition set_waterUniforms (v : option WaterUniforms) (m : Manager) : Manager :=
  mkManager (env m) v (indicatorCanvas m) (_diffuseAccum m) (_concAccum m)
    (_lastMean m) (pool m) (points m) (plumeConfig m) (_bottomInjecting m)
    (spawnQueue m) (_bottomPlumeDisabled m) (bottomPlumeOffset m) (_debugForce m)
    (_debugT m) (_spawnAccum m) (randomTape m) (randomPos m).
Definition set_indicatorCanvas (v : list nat) (m : Manager) : Manager :=
  mkManager (env m) (waterUniforms m) v (_diffuseAccum m) (_concAccum m) (_lastMean m)
    (pool m) (points m) (plumeConfig m) (_bottomInjecting m) (spawnQueue m)
    (_bottomPlumeDisabled m) (bottomPlumeOffset m) (_debugForce m) (_debugT m)
    (_spawnAccum m) (randomTape m) (randomPos m).
Definition set_diffuseAccum (v : R) (m : Manager) : Manager :=
  mkManager (env m) (waterUniforms m) (indicatorCanvas m) v (_concAccum m)
    (_lastMean m) (pool m) (points m) (plumeConfig m) (_bottomInjecting m)
    (spawnQueue m) (_bottomPlumeDisabled m) (bottomPlumeOffset m) (_debugForce m)
    (_debugT m) (_spawnAccum m) (randomTape m) (randomPos m).
Definition set_concAccum (v : R) (m : Manager) : Manager :=
  mkManager (env m) (waterUniforms m) (indicatorCanvas m) (_diffuseAccum m) v
    (_lastMean m) (pool m) (points m) (plumeConfig m) (_bottomInjecting m)
    (spawnQueue m) (_bottomPlumeDisabled m) (bottomPlumeOffset m) (_debugForce m)
    (_debugT m) (_spawnAccum m) (randomTape m) (randomPos m).
Definition set_lastMean (v : R) (m : Manager) : Manager :=
  mkManager (env m) (waterUniforms m) (indicatorCanvas m) (_diffuseAccum m)
    (_concAccum m) v (pool m) (points m) (plumeConfig m) (_bottomInjecting m)
    (spawnQueue m) (_bottomPlumeDisabled m) (bottomPlumeOffset m) (_debugForce m)
    (_debugT m) (_spawnAccum m) (randomTape m) (randomPos m).
Definition set_pool (v : list Particle) (m : Manager) : Manager :=
  mkManager (env m) (waterUniforms m) (indicatorCanvas m) (_diffuseAccum m)
    (_concAccum m) (_lastMean m) v (points m) (plumeConfig m) (_bottomInjecting m)
    (spawnQueue m) (_bottomPlumeDisabled m) (bottomPlumeOffset m) (_debugForce m)
    (_debugT m) (_spawnAccum m) (randomTape m) (randomPos m).
Definition set_points (v : option Uniforms) (m : Manager) : Manager :=
  mkManager (env m) (waterUniforms m) (indicatorCanvas m) (_diffuseAccum m)
    (_concAccum m) (_lastMean m) (pool m) v (plumeConfig m) (_bottomInjecting m)
    (spawnQueue m) (_bottomPlumeDisabled m) (bottomPlumeOffset m) (_debugForce m)
    (_debugT m) (_spawnAccum m) (randomTape m) (randomPos m).
Definition set_plumeConfig (v : PlumeConfig) (m : Manager) : Manager :=
  mkManager (env m) (waterUniforms m) (indicatorCanvas m) (_diffuseAccum m)
    (_concAccum m) (_lastMean m) (pool m) (points m) v (_bottomInjecting m)
    (spawnQueue m) (_bottomPlumeDisabled m) (bottomPlumeOffset m) (_debugForce m)
    (_debugT m) (_spawnAccum m) (randomTape m) (randomPos m).
Definition set_bottomInjecting (v : bool) (m : Manager) : Manager :=
  mkManager (env m) (waterUniforms m) (indicatorCanvas m) (_diffuseAccum m)
    (_concAccum m) (_lastMean m) (pool m) (points m) (plumeConfig m) v (spawnQueue m)
    (_bottomPlumeDisabled m) (bottomPlumeOffset m) (_debugForce m) (_debugT m)
    (_spawnAccum m) (randomTape m) (randomPos m).
Definition set_spawnQueue (v : list Request) (m : Manager) : Manager :=
  mkManager (env m) (waterUniforms m) (indicatorCanvas m) (_diffuseAccum m)
    (_concAccum m) (_lastMean m) (pool m) (points m) (plumeConfig m)
    (_bottomInjecting m) v (_bottomPlumeDisabled m) (bottomPlumeOffset m)
    (_debugForce m) (_debugT m) (_spawnAccum m) (randomTape m) (randomPos m).
Definition set_bottomPlumeDisabled (v : bool) (m : Manager) : Manager :=
  mkManager (env m) (waterUniforms m) (indicatorCanvas m) (_diffuseAccum m)
    (_concAccum m) (_lastMean m) (pool m) (points m) (plumeConfig m)
    (_bottomInjecting m) (spawnQueue m) v (bottomPlumeOffset m) (_debugForce m)
    (_debugT m) (_spawnAccum m) (randomTape m) (randomPos m).
Definition set_bottomPlumeOffset (v : R * R) (m : Manager) : Manager :=
  mkManager (env m) (waterUniforms m) (indicatorCanvas m) (_diffuseAccum m)
    (_concAccum m) (_lastMean m) (pool m) (points m) (plumeConfig m)
    (_bottomInjecting m) (spawnQueue m) (_bottomPlumeDisabled m) v (_debugForce m)
    (_debugT m) (_spawnAccum m) (randomTape m) (randomPos m).
Definition set_debugForce (v : bool) (m : Manager) : Manager :=
  mkManager (env m) (waterUniforms m) (indicatorCanvas m) (_diffuseAccum m)
    (_concAccum m) (_lastMean m) (pool m) (points m) (plumeConfig m)
    (_bottomInjecting m) (spawnQueue m) (_bottomPlumeDisabled m) (bottomPlumeOffset m)
    v (_debugT m) (_spawnAccum m) (randomTape m) (randomPos m).
Definition set_debugT (v : R) (m : Manager) : Manager :=
  mkManager (env m) (waterUniforms m) (indicatorCanvas m) (_diffuseAccum m)
    (_concAccum m) (_lastMean m) (pool m) (points m) (plumeConfig m)
    (_bottomInjecting m) (spawnQueue m) (_bottomPlumeDisabled m) (bottomPlumeOffset m)
    (_debugForce m) v (_spawnAccum m) (randomTape m) (randomPos m).
Definition set_spawnAccum (v : R) (m : Manager) : Manager :=
  mkManager (env m) (waterUniforms m) (indicatorCanvas m) (_diffuseAccum m)
    (_concAccum m) (_lastMean m) (pool m) (points m) (plumeConfig m)
    (_bottomInjecting m) (spawnQueue m) (_bottomPlumeDisabled m) (bottomPlumeOffset m)
    (_debugForce m) (_debugT m) v (randomTape m) (randomPos m).
Definition set_randomPos (v : nat) (m : Manager) : Manager :=
  mkManager (env m) (waterUniforms m) (indicatorCanvas m) (_diffuseAccum m)
    (_concAccum m) (_lastMean m) (pool m) (points m) (plumeConfig m)
    (_bottomInjecting m) (spawnQueue m) (_bottomPlumeDisabled m) (bottomPlumeOffset m)
    (_debugForce m) (_debugT m) (_spawnAccum m) (randomTape m) v.

(** ** Indicator field: [step] and [isIndicatorEnabled] *)

(** [for (i = 0; i < data.length; i += 4) sum += data[i + 1]]. *)
Fixpoint greenSum (data : list nat) : nat :=
  match data with
  | _ :: g :: _ :: _ :: rest => g + greenSum rest
  | _ => 0
  end.

(** [sum / (255.0 * (indicatorSize * indicatorSize))]. *)
Definition canvasMean (data : list nat) : R :=
  INR (greenSum data) / (255 * (INR indicatorSize * INR indicatorSize)).

(** A call runs a tick only once [_diffuseAccum + dt] reaches 1/30. *)
Definition stepExecutes (dt : R) (m : Manager) : bool :=
  negb (Rltb (_diffuseAccum m + dt) (1 / 30)).

Definition stepCanvas (dt : R) (m : Manager) : list nat :=
  let dtStep := _diffuseAccum m + dt in
  let decay := Math_pow 0.999 (Math_max 1 (dtStep * 60)) in
  canvasBlurBlend (env m) (Math_max decay 0.998) (indicatorCanvas m).

(** The mean used by an executed tick: re-sampled from the canvas every
    0.25 s, otherwise the last sample. *)
Definition stepResamples (dt : R) (m : Manager) : bool :=
  Rgeb (_concAccum m + (_diffuseAccum m + dt)) 0.25.

Definition stepMean (dt : R) (m : Manager) : R :=
  if stepResamples dt m then canvasMean (stepCanvas dt m) else _lastMean m.

Definition stepTarget (dt : R) (m : Manager) : R :=
  Math_min 1 (stepMean dt m * 2.5).

Definition stepConc (dt : R) (m : Manager) (conc : R) : R :=
  let mean := stepMean dt m in
  let target := stepTarget dt m in
  if Rgtb mean 0.01 then
    let growthRate := 0.985 in
    conc * growthRate + target * (1 - growthRate)
  else Math_max (conc * 0.999) target.

Definition step (dt : R) (m : Manager) : Manager :=
  if negb (stepExecutes dt m) then set_diffuseAccum (_diffuseAccum m + dt) m
  else
    let dtStep := _diffuseAccum m + dt in
    let resample := stepResamples dt m in
    let mean := stepMean dt m in
    let m1 := set_indicatorCanvas (stepCanvas dt m) (set_diffuseAccum 0 m) in
    let m2 := if resample then set_lastMean mean (set_concAccum 0 m1)
              else set_concAccum (_concAccum m + dtStep) m1 in
    match waterUniforms m2 with
    | Some w =>
        set_waterUniforms
          (Some (mkWater (stepConc dt m (uGlobalConc w)) (uIndicatorEnabled w))) m2
    | None => m2
    end.

(** The value of [waterUniforms.uGlobalConc], when uniforms are bound. *)
Definition globalConc (m : Manager) : option R :=
  option_map uGlobalConc (waterUniforms m).

Definition isIndicatorEnabled (m : Manager) : bool :=
  match waterUniforms m with
  | Some w => match uIndicatorEnabled w with
              | Some v => Rgtb v 0.5
              | None => false
              end
  | None => false
  end.

(** ** Plume configuration *)

Definition defaultPlumeConfig : PlumeConfig :=
  mkConfig 6 1 2.1 (IZR (Math_floor (INR maxParticles * 0.35)))
           1.2 1.2 0 true 0 0.18 0.18 14 0.7.

Definition defaultUniforms : Uniforms :=
  mkUniforms 1 0.08 0.45 0.85 0.55 1.2 1.2 0 0x00ff80%Z 0.

Definition ensurePoints (m : Manager) : Manager :=
  match points m with
  | Some _ => m
  | None => set_points (Some defaultUniforms) m
  end.

Definition applyPlumeUniforms (m : Manager) : Manager :=
  match points m with
  | None => m
  | Some u =>
      let c := plumeConfig m in
      set_points (Some (mkUniforms (uRequireIndicator u) (uOpacity u) (uSaturation u)
                          (uBrightness u) (uEdgeSoftness u) (sizeCurveExp c)
                          (alphaCurveExp c) (minAlpha c) (uOverrideColor u)
                          (uUseOverride u))) m
  end.

(** The argument object of [setPlumeConfig]; [None] is an omitted
    ([undefined]) field. *)
Record ConfigArgs := mkArgs {
  a_spawnRate : option R;
  a_spawnRateMultiplier : option R;
  a_lifeSeconds : option R;
  a_maxActive : option R;
  a_alphaCurveExp : option R;
  a_sizeCurveExp : option R;
  a_minAlpha : option R;
  a_enabled : option bool;
  a_baselineEmissionRate : option R;
  a_ageSpreadStrength : option R;
  a_cellSize : option R;
  a_maxPerCell : option R;
  a_suppressionProbability : option R;
  a_requireIndicator : option bool
}.

Definition noArgs : ConfigArgs :=
  mkArgs None None None None None None None None None None None None None None.

(** [if (x !== undefined) field = f(x)]. *)
Definition ifDefined {A B} (a : option A) (f : A -> B) (old : B) : B :=
  match a with Some x => f x | None => old end.

Definition setPlumeConfig_fields (a : ConfigArgs) (c : PlumeConfig) : PlumeConfig :=
  mkConfig
    (ifDefined (a_spawnRate a) (Math_max 0) (spawnRate c))
    (ifDefined (a_spawnRateMultiplier a) (Math_max 0) (spawnRateMultiplier c))
    (ifDefined (a_lifeSeconds a) (Math_max 0.05) (lifeSeconds c))
    (ifDefined (a_maxActive a) (fun x => Math_min (INR maxParticles) (Math_max 0 x))
               (maxActive c))
    (ifDefined (a_alphaCurveExp a) (Math_max 0.01) (alphaCurveExp c))
    (ifDefined (a_sizeCurveExp a) (Math_max 0.01) (sizeCurveExp c))
    (ifDefined (a_minAlpha a) (fun x => Math_min 1 (Math_max 0 x)) (minAlpha c))
    (ifDefined (a_enabled a) (fun b => b) (enabled c))
    (ifDefined (a_baselineEmissionRate a) (Math_max 0) (baselineEmissionRate c))
    (ifDefined (a_ageSpreadStrength a) (Math_max 0) (ageSpreadStrength c))
    (ifDefined (a_cellSize a) (Math_max 0.01) (cellSize c))
    (ifDefined (a_maxPerCell a) (Math_max 1) (maxPerCell c))
    (ifDefined (a_suppressionProbability a) (fun x => Math_min 1 (Math_max 0 x))
               (suppressionProbability c)).

Definition setPlumeConfig (a : ConfigArgs) (m : Manager) : Manager :=
  let m1 := set_plumeConfig (setPlumeConfig_fields a (plumeConfig m)) m in
  let m2 :=
    match a_requireIndicator a, points m1 with
    | Some b, Some u =>
        set_points (Some (mkUniforms (if b then 1 else 0) (uOpacity u) (uSaturation u)
                            (uBrightness u) (uEdgeSoftness u) (uLifePow u)
                            (uAlphaPow u) (uMinAlpha u) (uOverrideColor u)
                            (uUseOverride u))) m1
    | _, _ => m1
    end in
  applyPlumeUniforms (ensurePoints m2).

(** ** Plume particles: spawning *)

(** [Math.random()]: the value at the head of the tape; [skipRandom n]
    moves the head past [n] draws. *)
Definition peekRandom (m : Manager) (k : nat) : R := randomTape m (randomPos m + k).
Definition skipRandom (n : nat) (m : Manager) : Manager :=
  set_randomPos (randomPos m + n) m.

Definition waterBottomY (e : Env) : R := waterSurfaceY e - waterHeight e.

(** First loop of [spawnParticle]: counts the live slots and remembers
    the first slot that is not live. *)
Fixpoint scanPool (l : list Particle) (i : nat) (idx : option nat) (active : nat)
  : option nat * nat :=
  match l with
  | [] => (idx, active)
  | p :: rest =>
      if Rgtb (life p) 0 then scanPool rest (S i) idx (S active)
      else scanPool rest (S i) (match idx with None => Some i | Some _ => idx end) active
  end.

(** The fallback loop: first slot with [life <= 0]. *)
Fixpoint findFree (l : list Particle) (i : nat) : option nat :=
  match l with
  | [] => None
  | p :: rest => if Rleb (life p) 0 then Some i else findFree rest (S i)
  end.

(** The slot written by a successful [spawnParticle]; nine draws, in
    source order: x, y, z jitter, theta, speed, vy, driftTheta,
    driftSpeed, expTheta. *)
Definition freshParticle (localX localZ : R) (c : RGB) (gated : bool) (m : Manager)
  : Particle :=
  let rnd := peekRandom m in
  let spread := if _bottomInjecting m then 0.16 else 0.09 in
  let x := localX + (rnd 0%nat - 0.5) * spread in
  let y := if _bottomInjecting m
           then (waterBottomY (env m) + 0.04) + rnd 1%nat * 0.05
           else waterSurfaceY (env m) - 0.18 - rnd 1%nat * 0.12 in
  let z := localZ + (rnd 2%nat - 0.5) * spread in
  let theta := rnd 3%nat * PI * 2 in
  let speed := 0.2 + rnd 4%nat * 0.5 in
  let driftTheta := rnd 6%nat * PI * 2 in
  let driftSpeed := 0.02 + rnd 7%nat * 0.03 in
  let expTheta := rnd 8%nat * PI * 2 in
  mkParticle x y z
             (cos theta * speed) (-0.01 + rnd 5%nat * 0.05) (sin theta * speed)
             1
             (cos driftTheta * driftSpeed) (sin driftTheta * driftSpeed)
             (cos expTheta) (sin expTheta)
             c (if gated then 1 else 0) 0 0.

Definition spawnParticle (localX localZ : R) (c : RGB) (gated : bool) (m : Manager)
  : Manager :=
  if negb (enabled (plumeConfig m)) then m
  else
    let '(idx, active) := scanPool (pool m) 0 None 0 in
    if Rgeb (INR active) (maxActive (plumeConfig m)) then m
    else
      let idx' := match idx with Some i => Some i | None => findFree (pool m) 0 end in
      match idx' with
      | None => m
      | Some i =>
          skipRandom 9
            (set_pool (setNth i (freshParticle localX localZ c gated m) (pool m)) m)
      end.

(** [getPlumeStats().active]. *)
Fixpoint activeCount (l : list Particle) : nat :=
  match l with
  | [] => 0
  | p :: rest => if Rgtb (life p) 0 then S (activeCount rest) else activeCount rest
  end.

(** ** Plume particles: the request queue *)

Definition addSource (localX localZ : R) (count : Z) (m : Manager) : Manager :=
  let m1 := ensurePoints m in
  set_spawnQueue (spawnQueue m1 ++ [mkRequest localX localZ count false None None]) m1.

(** The options object of [addBottomSource], defaults filled in. *)
Record BottomOpts := mkBottomOpts {
  o_color : Z;
  o_ignoreIndicator : bool;
  o_saturation : R;
  o_opacity : R;
  o_brightness : R
}.

Definition defaultBottomOpts : BottomOpts :=
  mkBottomOpts 0x0b3c88%Z true 0.55 0.14 0.95.

Definition addBottomSource (localX localZ : R) (count : Z) (o : BottomOpts)
           (m : Manager) : Manager :=
  if _bottomPlumeDisabled m then m
  else
    let m1 := ensurePoints m in
    let c := THREE_Color (env m1) (o_color o) in
    let ox := localX + fst (bottomPlumeOffset m1) in
    let oz := localZ + snd (bottomPlumeOffset m1) in
    set_spawnQueue
      (spawnQueue m1 ++
       [mkRequest ox oz count true
                  (Some (mkStyle (o_ignoreIndicator o) (o_saturation o)
                                 (o_opacity o) (o_brightness o)))
                  (Some c)]) m1.

(** [for (i = length - 1; i >= 0; i--) if (q[i].bottom) q.splice(i, 1)];
    [n] is the number of indices still to visit, so the index visited
    is [n - 1]. *)
Fixpoint purgeBottom (n : nat) (q : list Request) : list Request :=
  match n with
  | O => q
  | S i =>
      purgeBottom i
        (match nth_error q i with
         | Some r => if bottom r then splice1 i q else q
         | None => q
         end)
  end.

Definition disableBottomPlumes (clearExistingQueue : bool) (m : Manager) : Manager :=
  let m1 := set_bottomPlumeDisabled true m in
  if clearExistingQueue
  then set_spawnQueue (purgeBottom (length (spawnQueue m1)) (spawnQueue m1)) m1
  else m1.

Definition enableBottomPlumes (m : Manager) : Manager :=
  set_bottomPlumeDisabled false m.

(** ** Plume particles: [update] *)

(** The density grid [update._gridCounts] (a [Uint16Array]), rebuilt on
    every tick, as a function from cell index to count. *)
Definition Grid : Type := Z -> N.

Definition gridDim (m : Manager) : Z :=
  Z.max 1 (Math_ceil ((beakerRadius (env m) * 2) / cellSize (plumeConfig m))).

Definition gridIndex (m : Manager) (x z : R) : Z :=
  let gDim := gridDim m in
  let half := beakerRadius (env m) in
  let gridCell := cellSize (plumeConfig m) in
  let gx := Z.min (gDim - 1) (Z.max 0 (Math_floor ((x + half) / gridCell))) in
  let gz := Z.min (gDim - 1) (Z.max 0 (Math_floor ((z + half) / gridCell))) in
  (gz * gDim + gx)%Z.

(** [if (gCounts[gi] < 65535) gCounts[gi]++]. *)
Definition gridBump (g : Grid) (gi : Z) : Grid :=
  fun k => if Z.eqb k gi then (if N.ltb (g gi) 65535 then N.succ (g gi) else g gi) else g k.

Fixpoint populateGrid (m : Manager) (l : list Particle) (g : Grid) : Grid :=
  match l with
  | [] => g
  | p :: rest =>
      if Rleb (life p) 0 then populateGrid m rest g
      else populateGrid m rest (gridBump g (gridIndex m (posX p) (posZ p)))
  end.

Definition buildGrid (m : Manager) : Grid := populateGrid m (pool m) (fun _ => 0%N).

(** The accumulator after this tick's increment (one draw). *)
Definition spawnAccumNext (dt : R) (m : Manager) : R :=
  let spawnPerSecond := spawnRate (plumeConfig m) * spawnRateMultiplier (plumeConfig m) in
  let spawnPerSecond := spawnPerSecond * (0.9 + peekRandom m 0 * 0.2) in
  _spawnAccum m + spawnPerSecond * dt.

(** The spawn budget of a tick, and the manager with the accumulator
    and the tape advanced. *)
Definition spawnBudget (dt : R) (m : Manager) : Z * Manager :=
  let acc := spawnAccumNext dt m in
  let m1 := skipRandom 1 m in
  let budget := Math_floor acc in
  let acc1 := if Z.ltb 0 budget then acc - IZR budget else acc in
  if Z.eqb budget 0 && negb (Nat.eqb (length (spawnQueue m)) 0)
  then (1%Z, set_spawnAccum 0 m1)
  else (budget, set_spawnAccum acc1 m1).

(** Temporary style override around the spawn of a bottom request. *)
Definition applyBottomStyle (r : Request) (u : Uniforms) : Uniforms :=
  let req := match style r with
             | Some st => if ignoreIndicator st then 0 else uRequireIndicator u
             | None => uRequireIndicator u
             end in
  mkUniforms req
             (match style r with Some st => opacity st | None => uOpacity u end)
             (match style r with Some st => saturation st | None => uSaturation u end)
             (match style r with Some st => brightness st | None => uBrightness u end)
             (uEdgeSoftness u) (uLifePow u) (uAlphaPow u) (uMinAlpha u)
             0x0b3c88%Z 1.

(** The two suppression gates.  Each draws from the tape only when its
    first condition holds ([&&] short-circuits).  Returns [allow] and
    the manager with the tape advanced. *)
Definition globalGate (m : Manager) : bool * Manager :=
  match points m with
  | Some _ =>
      if Rgtb (INR (activeCount (pool m))) (maxActive (plumeConfig m) * 0.85)
      then (negb (Rltb (peekRandom m 0) 0.5), skipRandom 1 m)
      else (true, m)
  | None => (true, m)
  end.

Definition localGate (g : Grid) (r : Request) (m : Manager) : bool * Manager :=
  let localCount := g (gridIndex m (reqX r) (reqZ r)) in
  if Rgeb (IZR (Z.of_N localCount)) (maxPerCell (plumeConfig m))
  then (negb (Rltb (peekRandom m 0) (suppressionProbability (plumeConfig m))),
        skipRandom 1 m)
  else (true, m).

(** One iteration of the drain loop on the head request [r]; returns
    the manager (queue not yet touched) and the grid. *)
Definition drainOne (r : Request) (g : Grid) (m : Manager) : Manager * Grid :=
  let prevState := points m in
  let m1 := if bottom r
            then set_bottomInjecting true
                   (set_points (option_map (applyBottomStyle r) (points m)) m)
            else m in
  let c := match rgb r with Some c => c | None => (1, 1, 1) end in
  let gated := negb (bottom r) in
  let '(allow1, m2) := globalGate m1 in
  let '(allow, m3) := if allow1 then localGate g r m2 else (false, m2) in
  let '(m4, g4) :=
    if allow
    then (spawnParticle (reqX r) (reqZ r) c gated m3,
          gridBump g (gridIndex m3 (reqX r) (reqZ r)))
    else (m3, g) in
  let m5 := if bottom r then set_bottomInjecting false (set_points prevState m4) else m4 in
  (m5, g4).

(** [while (budget > 0 && spawnQueue.length > 0)]: the loop runs at most
    [budget] times, so it recurses on the budget. *)
Fixpoint drainQueue (budget : nat) (g : Grid) (m : Manager) : Manager * Grid :=
  match budget with
  | O => (m, g)
  | S budget' =>
      match spawnQueue m with
      | [] => (m, g)
      | r :: rest =>
          let '(m1, g1) := drainOne r g m in
          let r' := mkRequest (reqX r) (reqZ r) (reqCount r - 1) (bottom r)
                              (style r) (rgb r) in
          let q := if Z.leb (reqCount r') 0 then rest else r' :: rest in
          drainQueue budget' g1 (set_spawnQueue q m1)
      end
  end.

(** The body of the integration loop for a live slot; [r0 .. r3] are its
    four draws (velocity jitter x, z; drift jitter x, z). *)
Definition integrateParticle (dt : R) (m : Manager) (r0 r1 r2 r3 : R) (p : Particle)
  : Particle :=
  let cfg := plumeConfig m in
  let damping := Math_pow 0.96 (Math_max 1 (dt * 60)) in
  let x := posX p + (velX p * dt + driftX p * dt) in
  let y := posY p + velY p * dt in
  let z := posZ p + (velZ p * dt + driftZ p * dt) in
  let progress := 1 - life p in
  let '(x, z) :=
    if Rgtb progress 0 then
      let k := Math_pow progress 1.15 in
      let radialSpeed := ageSpreadStrength cfg * k in
      (x + expandX p * radialSpeed * dt, z + expandZ p * radialSpeed * dt)
    else (x, z) in
  let vy := velY p + 0.025 * dt in
  let jitter := 0.02 * dt in
  let vx := velX p + (r0 - 0.5) * jitter in
  let vz := velZ p + (r1 - 0.5) * jitter in
  let driftJitter := 0.005 * dt in
  let dx := driftX p + (r2 - 0.5) * driftJitter in
  let dz := driftZ p + (r3 - 0.5) * driftJitter in
  let dmag := Math_hypot dx dz in
  let '(dx, dz) := if Rgtb dmag 0.05 then (dx * 0.95, dz * 0.95) else (dx, dz) in
  let vx := vx * damping in
  let vy := vy * damping in
  let vz := vz * damping in
  let y := Math_min y (waterSurfaceY (env m) - 0.01) in
  let r := Math_hypot x z in
  let '(x, z) :=
    if Rgtb r (beakerRadius (env m) * 0.98)
    then let s := (beakerRadius (env m) * 0.98) / r in (x * s, z * s)
    else (x, z) in
  let l := life p - dt / lifeSeconds cfg in
  let l := if Rltb l 0 then 0 else l in
  let '(l, ft, fd) :=
    if Rltb (gate p) 0.5 && Rgtb (fadeDuration p) 0 then
      let ft := fadeTimer p + dt in
      let k := Math_min 1 (ft / fadeDuration p) in
      let fadeLife := 1 - k in
      let l := if Rgtb l fadeLife then fadeLife else l in
      if Rgeb k 1 then (0, ft, 0) else (l, ft, fadeDuration p)
    else (l, fadeTimer p, fadeDuration p) in
  mkParticle x y z vx vy vz l dx dz (expandX p) (expandZ p) (color p) (gate p) ft fd.

(** The integration loop over the pool; [pos] is the tape position.
    Returns the new pool and the tape position after the loop. *)
Fixpoint integratePool (dt : R) (m : Manager) (l : list Particle) (pos : nat)
  : list Particle * nat :=
  match l with
  | [] => ([], pos)
  | p :: rest =>
      if Rleb (life p) 0 then
        let '(rest', pos') := integratePool dt m rest pos in (p :: rest', pos')
      else
        let t := randomTape m in
        let p' := integrateParticle dt m (t pos) (t (pos + 1)%nat) (t (pos + 2)%nat)
                                    (t (pos + 3)%nat) p in
        let '(rest', pos') := integratePool dt m rest (pos + 4)%nat in
        (p' :: rest', pos')
  end.

Definition integrate (dt : R) (m : Manager) : Manager :=
  let '(pool', pos') := integratePool dt m (pool m) (randomPos m) in
  set_randomPos pos' (set_pool pool' m).

(** The timed debug burst at the top of [update]. *)
Definition debugTick (dt : R) (m : Manager) : Manager :=
  if _debugForce m then
    let t := _debugT m + dt in
    if Rgtb t 0.12 then addSource 0 0 30 (set_debugT 0 m) else set_debugT t m
  else m.

(** The spawn phase of [update]: grid, budget, drain. *)
Definition spawnPhase (dt : R) (m : Manager) : Manager :=
  let g := buildGrid m in
  let '(budget, m1) := spawnBudget dt m in
  fst (drainQueue (Z.to_nat budget) g m1).

Definition update (dt : R) (m : Manager) : Manager :=
  let m0 := debugTick dt m in
  match points m0 with
  | Some _ => integrate dt (spawnPhase dt m0)
  | None => m0
  end.

(** ** Plume particles: clearing and fading *)

Definition killParticle (p : Particle) : Particle :=
  mkParticle (posX p) (posY p) (posZ p) (velX p) (velY p) (velZ p) 0
             (driftX p) (driftZ p) (expandX p) (expandZ p) (color p) (gate p)
             (fadeTimer p) (fadeDuration p).

Definition clearPlume (m : Manager) : Manager :=
  let m1 := match points m with
            | Some _ => set_pool (map killParticle (pool m)) m
            | None => m
            end in
  set_spawnQueue [] m1.

Definition setFade (ft fd : R) (p : Particle) : Particle :=
  mkParticle (posX p) (posY p) (posZ p) (velX p) (velY p) (velZ p) (life p)
             (driftX p) (driftZ p) (expandX p) (expandZ p) (color p) (gate p) ft fd.

Definition clearBottomParticle (p : Particle) : Particle :=
  if Rgtb (life p) 0 && Rltb (gate p) 0.5 then setFade 0 0 (killParticle p) else p.

Definition clearBottomPlumeParticles (m : Manager) : Manager :=
  match points m with
  | None => m
  | Some _ =>
      let m1 := set_pool (map clearBottomParticle (pool m)) m in
      set_spawnQueue (purgeBottom (length (spawnQueue m1)) (spawnQueue m1)) m1
  end.

(** Loop body of [fadeOutBottomPlumes]. *)
Definition fadeParticle (durationSec : R) (p : Particle) : Particle :=
  if Rgtb (life p) 0 && Rltb (gate p) 0.5 then
    if Rleb (life p) 0 then setFade 0 0 p else setFade 0 durationSec p
  else p.

Definition fadeOutBottomPlumes (durationSec : R) (m : Manager) : Manager :=
  match points m with
  | None => m
  | Some _ => set_pool (map (fadeParticle durationSec) (pool m)) m
  end.

(** ** A fresh manager *)

Definition deadParticle : Particle :=
  mkParticle 0 0 0 0 0 0 0 0 0 0 0 (0, 0, 0) 0 0 0.

Definition createDiffusionManager (e : Env) (tape : nat -> R) : Manager :=
  mkManager e None (repeat O (4 * indicatorSize * indicatorSize)) 0 0 0
            (repeat deadParticle maxParticles) None defaultPlumeConfig false []
            false (0, 0) false 0 0 tape 0.

(** [bindUniforms({ water })].  The uniforms object is shared with the
    water renderer, so a later write by the renderer to one of its
    values is also a [bindUniforms] in this model. *)
Definition bindUniforms (w : option WaterUniforms) (m : Manager) : Manager :=
  set_waterUniforms w m.

(** ** Style, colour, reset and the debug switch *)

(** The argument object of [setPlumeStyle].  Its [additive] member only
    selects the blending mode of the material, which is not modelled. *)
Record StyleArgs := mkStyleArgs {
  s_opacity : option R;
  s_saturation : option R;
  s_brightness : option R;
  s_edgeSoftness : option R;
  s_lifePow : option R
}.

Definition setPlumeStyle (a : StyleArgs) (m : Manager) : Manager :=
  let m1 := ensurePoints m in
  match points m1 with
  | None => m1
  | Some u =>
      let u' := mkUniforms (uRequireIndicator u)
                           (ifDefined (s_opacity a) (fun x => x) (uOpacity u))
                           (ifDefined (s_saturation a) (fun x => x) (uSaturation u))
                           (ifDefined (s_brightness a) (fun x => x) (uBrightness u))
                           (ifDefined (s_edgeSoftness a) (fun x => x) (uEdgeSoftness u))
                           (ifDefined (s_lifePow a) (fun x => x) (uLifePow u))
                           (uAlphaPow u) (uMinAlpha u) (uOverrideColor u)
                           (uUseOverride u) in
      let c := plumeConfig m1 in
      let c' := mkConfig (spawnRate c) (spawnRateMultiplier c) (lifeSeconds c)
                         (maxActive c) (alphaCurveExp c)
                         (ifDefined (s_lifePow a) (fun x => x) (sizeCurveExp c))
                         (minAlpha c) (enabled c) (baselineEmissionRate c)
                         (ageSpreadStrength c) (cellSize c) (maxPerCell c)
                         (suppressionProbability c) in
      set_plumeConfig c' (set_points (Some u') m1)
  end.

Definition withOverride (hex : Z) (use : R) (u : Uniforms) : Uniforms :=
  mkUniforms (uRequireIndicator u) (uOpacity u) (uSaturation u) (uBrightness u)
             (uEdgeSoftness u) (uLifePow u) (uAlphaPow u) (uMinAlpha u) hex use.

Definition withRequire (v : R) (u : Uniforms) : Uniforms :=
  mkUniforms v (uOpacity u) (uSaturation u) (uBrightness u)
             (uEdgeSoftness u) (uLifePow u) (uAlphaPow u) (uMinAlpha u)
             (uOverrideColor u) (uUseOverride u).

(** [setPlumeColor(colorHex)]; [None] is [null] or [undefined]. *)
Definition setPlumeColor (colorHex : option Z) (m : Manager) : Manager :=
  let m1 := ensurePoints m in
  set_points
    (option_map (fun u => match colorHex with
                          | None => withOverride (uOverrideColor u) 0 u
                          | Some hex => withOverride hex 1 u
                          end) (points m1)) m1.

Definition resetParticle (p : Particle) : Particle :=
  mkParticle 0 0 0 0 0 0 0 (driftX p) (driftZ p) (expandX p) (expandZ p)
             (color p) (gate p) (fadeTimer p) (fadeDuration p).

Definition reset (m : Manager) : Manager :=
  let m1 := set_indicatorCanvas (map (fun _ => O) (indicatorCanvas m)) m in
  let m2 := match waterUniforms m1 with
            | Some w => set_waterUniforms (Some (mkWater 0 (uIndicatorEnabled w))) m1
            | None => m1
            end in
  set_pool (map resetParticle (pool m2)) m2.

Definition setBottomPlumeOffset (x z : R) (m : Manager) : Manager :=
  set_bottomPlumeOffset (x, z) m.

Definition enablePlumeDebug (m : Manager) : Manager :=
  let m1 := set_debugForce true (ensurePoints m) in
  let m2 := setPlumeColor (Some 0xff44dd%Z) m1 in
  let m3 := setPlumeStyle (mkStyleArgs (Some 0.95) (Some 1) (Some 1.2) (Some 0.35)
                                       (Some 1)) m2 in
  let m4 := setPlumeConfig
              (mkArgs (Some 480) None (Some 2.8) (Some 980) None None (Some 0) None
                      None None None None None (Some false)) m3 in
  set_points (option_map (withRequire 0) (points m4)) m4.

Definition disablePlumeDebug (m : Manager) : Manager :=
  let m1 := setPlumeColor None (set_debugForce false m) in
  set_points (option_map (withRequire 1) (points m1)) m1.

(** ** Sequences of API calls *)

Inductive Op :=
| OpBindUniforms (w : option WaterUniforms)
| OpStep (dt : R)
| OpAddSource (x z : R) (n : Z)
| OpAddBottomSource (x z : R) (n : Z) (o : BottomOpts)
| OpUpdate (dt : R)
| OpReset
| OpSetPlumeStyle (a : StyleArgs)
| OpSetPlumeColor (colorHex : option Z)
| OpSetPlumeConfig (a : ConfigArgs)
| OpClearPlume
| OpClearBottomPlumeParticles
| OpFadeOutBottomPlumes (durationSec : R)
| OpDisableBottomPlumes (clearExistingQueue : bool)
| OpEnableBottomPlumes
| OpSetBottomPlumeOffset (x z : R)
| OpEnablePlumeDebug
| OpDisablePlumeDebug.

Definition runOp (m : Manager) (o : Op) : Manager :=
  match o with
  | OpBindUniforms w => bindUniforms w m
  | OpStep dt => step dt m
  | OpAddSource x z n => addSource x z n m
  | OpAddBottomSource x z n o => addBottomSource x z n o m
  | OpUpdate dt => update dt m
  | OpReset => reset m
  | OpSetPlumeStyle a => setPlumeStyle a m
  | OpSetPlumeColor c => setPlumeColor c m
  | OpSetPlumeConfig a => setPlumeConfig a m
  | OpClearPlume => clearPlume m
  | OpClearBottomPlumeParticles => clearBottomPlumeParticles m
  | OpFadeOutBottomPlumes d => fadeOutBottomPlumes d m
  | OpDisableBottomPlumes c => disableBottomPlumes c m
  | OpEnableBottomPlumes => enableBottomPlumes m
  | OpSetBottomPlumeOffset x z => setBottomPlumeOffset x z m
  | OpEnablePlumeDebug => enablePlumeDebug m
  | OpDisablePlumeDebug => disablePlumeDebug m
  end.

Definition runOps (ops : list Op) (m : Manager) : Manager := fold_left runOp ops m.

(** A run of [update] ticks. *)
Definition runTicks (dts : list R) (m : Manager) : Manager :=
  fold_left (fun m dt => update dt m) dts m.

(** The calls that go through [setPlumeConfig]. *)
Definition isSetPlumeConfig (o : Op) : bool :=
  match o with OpSetPlumeConfig _ | OpEnablePlumeDebug => true | _ => false end.

Definition isEnableBottomPlumes (o : Op) : bool :=
  match o with OpEnableBottomPlumes => true | _ => false end.


(** ** Statistics, return values and the [plume] control object *)

(** [spawnQueue.reduce((s, q) => s + q.count, 0)]. *)
Definition queueTotal (q : list Request) : Z :=
  fold_left (fun s r => (s + reqCount r)%Z) q 0%Z.

(** The object returned by [getPlumeStats]. *)
Record Stats := mkStats {
  stats_active : nat;
  stats_free : Z;
  stats_max : nat;
  stats_queue : Z;
  stats_config : PlumeConfig;
  stats_overrideColor : bool
}.

Definition getPlumeStats (m : Manager) : Stats :=
  let active := activeCount (pool m) in
  mkStats active (Z.of_nat maxParticles - Z.of_nat active) maxParticles
          (queueTotal (spawnQueue m)) (plumeConfig m)
          (match points m with
           | Some u => Rgtb (uUseOverride u) 0.5
           | None => false
           end).

(** [plume.enable] and [plume.disable]: [setPlumeConfig({ enabled })]. *)
Definition enabledArgs (b : bool) : ConfigArgs :=
  mkArgs None None None None None None None (Some b) None None None None None None.

Definition plume_disable (m : Manager) : Manager := setPlumeConfig (enabledArgs false) m.

(** The counter [cleared] of [clearBottomPlumeParticles]. *)
Fixpoint countCleared (l : list Particle) : nat :=
  match l with
  | [] => 0
  | p :: rest =>
      if Rgtb (life p) 0 && Rltb (gate p) 0.5
      then S (countCleared rest) else countCleared rest
  end.

(** What [clearBottomPlumeParticles] returns: nothing ([undefined])
    without a point cloud, else [cleared]. *)
Definition clearBottomPlumeParticles_result (m : Manager) : option nat :=
  match points m with
  | None => None
  | Some _ => Some (countCleared (pool m))
  end.

(** The counter [affected] of [fadeOutBottomPlumes]. *)
Fixpoint countAffected (l : list Particle) : nat :=
  match l with
  | [] => 0
  | p :: rest =>
      if Rgtb (life p) 0 && Rltb (gate p) 0.5
      then (if Rleb (life p) 0 then countAffected rest else S (countAffected rest))
      else countAffected rest
  end.

Definition fadeOutBottomPlumes_result (m : Manager) : nat :=
  match points m with
  | None => 0
  | Some _ => countAffected (pool m)
  end.

(** ** The debug burst *)

(** Inner loop of [debugPlumeBurst]: [per] sources on the circle of
    radius [rad], one draw each. *)
Fixpoint burstRing (per : nat) (rad : R) (m : Manager) : Manager :=
  match per with
  | O => m
  | S k =>
      let a := peekRandom m 0 * PI * 2 in
      burstRing k rad (addSource (cos a * rad) (sin a * rad) 1 (skipRandom 1 m))
  end.

(** Outer loop: [rings] rings still to do, starting with ring [ring]. *)
Fixpoint burstRings (rings ring per : nat) (m : Manager) : Manager :=
  match rings with
  | O => m
  | S n => burstRings n (S ring) per (burstRing per (0.02 * INR ring) m)
  end.

(** [per = Math.max(1, Math.floor(count / 10))]. *)
Definition burstPer (count : R) : nat := Z.to_nat (Z.max 1 (Math_floor (count / 10))).

(** [debugPlumeBurst({ count, overrideColor })]; the defaults are
    [count = 150] and [overrideColor = 0xff00ff], and [None] is a
    [null] colour. *)
Definition debugPlumeBurst (count : R) (overrideColor : option Z) (m : Manager)
  : Manager :=
  let m1 := ensurePoints m in
  let m2 := setPlumeColor overrideColor m1 in
  let m3 := setPlumeStyle (mkStyleArgs (Some 0.6) (Some 1) (Some 1) (Some 0.4) None) m2 in
  let m4 := setPlumeConfig
              (mkArgs (Some 240) None (Some 2.2) (Some 900) None None (Some 0) None
                      None None None None None None) m3 in
  burstRings 10 0 (burstPer count) m4.

End Diffusion.

Module Powder.

(** ** Data model of [createPowder] *)

Record Vec3 := mkVec3 { vX : R; vY : R; vZ : R }.

(** Slot [i] of a batch: [positions], [velocities] (local to the batch's
    [points.position]) and [settledFlags]. *)
Record Grain := mkGrain {
  gX : R; gY : R; gZ : R;
  gVX : R; gVY : R; gVZ : R;
  settled : bool
}.

(** A batch: its buffers, the fields of [points] and [material] that
    the simulation reads or writes, and its [state] object.
    [waterSurfaceY = None] is the source's [Infinity]; [_beakerGroup]
    is the group's [worldToLocal]; [onEnterWater] records whether a
    callback was supplied. *)
Record Batch := mkBatch {
  grains : list Grain;
  visible : bool;
  position : Vec3;
  materialOpacity : R;
  dropping : bool;
  dropElapsed : R;
  bottomYWorld : R;
  beakerCenterWorld : Vec3;
  beakerRadius : R;
  swirling : bool;
  swirlElapsed : R;
  swirlDuration : R;
  swirlCenterWorld : Vec3;
  swirlStrength : R;
  swirlInward : R;
  swirlDrag : R;
  swirlDir : R;
  dissolveActive : bool;
  dissolveElapsed : R;
  dissolveDurationSec : R;
  dead : bool;
  waterSurfaceY : option R;
  _beakerGroup : option (Vec3 -> Vec3);
  onEnterWater : bool;
  enterNotified : bool
}.

(** What [update] can see of the object given to [setDiffusionManager]:
    whether it has an [addBottomSource] member, and, when
    [isIndicatorEnabled] is a function, what a call to it returns. *)
Record Handle := mkHandle {
  has_addBottomSource : bool;
  isIndicatorEnabled : option bool
}.

(** The handle of a manager built by [createDiffusionManager]. *)
Definition handleOf (m : Diffusion.Manager) : Handle :=
  mkHandle true (Some (Diffusion.isIndicatorEnabled m)).

(** Calls that [update] makes on its collaborators, in order. *)
Inductive Call :=
| CallOnEnterWater (p : Vec3)
| CallAddBottomSource (lx lz : R) (n : Z) (o : Diffusion.BottomOpts)
| CallAddSource (x z : R) (n : Z).

Record System := mkSystem {
  count : nat;                      (* grains per batch, [opts.count ?? 600] *)
  batches : list Batch;
  diffusion : option Handle;
  plumeSpawnAccum : R;
  chemPHScore : option R;           (* [getChemState().pHScore], if a number *)
  randomTape : nat -> R;
  randomPos : nat
}.

Definition plumeSpawnInterval : R := 0.12.
Definition plumePerBurst : nat := 18.
Definition plumeRadiusJitter : R := 0.18.

(** ** [update]: the drop phase *)

Definition dropG : R := 6.
Definition dropEps : R := 0.01.

(** Loop-carried values of the drop loop. *)
Record DropAcc := mkDropAcc {
  accNotified : bool;
  accHits : nat;
  accCalls : list Call
}.

(** One iteration of the drop loop on grain [g]. *)
Definition dropGrain (dt : R) (b : Batch) (acc : DropAcc) (g : Grain) : Grain * DropAcc :=
  let p := position b in
  let bottomY := bottomYWorld b in
  let baseY := vY p + gY g in
  let inWater := match waterSurfaceY b with
                 | Some w => Rleb baseY (w - 0.001)
                 | None => false
                 end in
  let notify := inWater && negb (accNotified acc) && onEnterWater b in
  let calls := if notify
               then match waterSurfaceY b with
                    | Some w => [CallOnEnterWater (mkVec3 (vX p + gX g) w (vZ p + gZ g))]
                    | None => []
                    end
               else [] in
  let vy := gVY g - dropG * dt in
  let '(vx, vy, vz) :=
    if inWater
    then (gVX g * 0.975, (vy + (dropG * 0.45) * dt) * 0.93, gVZ g * 0.975)
    else (gVX g, vy, gVZ g) in
  let x := gX g + vx * dt in
  let y := gY g + vy * dt in
  let z := gZ g + vz * dt in
  let worldY := vY p + y in
  let hit := Rleb worldY (bottomY + dropEps) in
  let '(y, vx, vy, vz) :=
    if hit then ((bottomY + dropEps) - vY p, vx * 0.96, 0, vz * 0.96)
    else (y, vx, vy, vz) in
  let worldX := vX p + x in
  let worldZ := vZ p + z in
  let dx := worldX - vX (beakerCenterWorld b) in
  let dz := worldZ - vZ (beakerCenterWorld b) in
  let r := Math_hypot dx dz in
  let maxR := Math_max 0 (beakerRadius b - 0.06) in
  let '(x, z, vx, vz) :=
    if Rgtb r maxR then
      let s := maxR / (r + 1e-6) in
      let clampedX := vX (beakerCenterWorld b) + dx * s in
      let clampedZ := vZ (beakerCenterWorld b) + dz * s in
      (clampedX - vX p, clampedZ - vZ p, vx * 0.8, vz * 0.8)
    else (x, z, vx, vz) in
  (mkGrain x y z vx vy vz (if hit then true else settled g),
   mkDropAcc (if notify then true else accNotified acc)
             (if hit then S (accHits acc) else accHits acc)
             (accCalls acc ++ calls)).

Fixpoint dropLoop (dt : R) (b : Batch) (acc : DropAcc) (l : list Grain)
  : list Grain * DropAcc :=
  match l with
  | [] => ([], acc)
  | g :: rest =>
      let '(g', acc1) := dropGrain dt b acc g in
      let '(rest', acc2) := dropLoop dt b acc1 rest in
      (g' :: rest', acc2)
  end.

(** The [if (state.dropping)] block of [update]. *)
Definition dropPhase (dt : R) (n : nat) (b : Batch) : Batch * list Call :=
  let '(gs, acc) := dropLoop dt b (mkDropAcc (enterNotified b) 0 []) (grains b) in
  let elapsed := dropElapsed b + dt in
  let hitFrac := INR (accHits acc) / INR n in
  let stop := Rgeb hitFrac 0.6 || Rgeb elapsed 8 in
  (mkBatch gs (visible b) (position b) (materialOpacity b)
           (if stop then false else dropping b) elapsed
           (bottomYWorld b) (beakerCenterWorld b) (beakerRadius b)
           (swirling b) (swirlElapsed b) (swirlDuration b) (swirlCenterWorld b)
           (swirlStrength b) (swirlInward b) (swirlDrag b) (swirlDir b)
           (dissolveActive b) (dissolveElapsed b) (dissolveDurationSec b)
           (dead b) (waterSurfaceY b) (_beakerGroup b) (onEnterWater b)
           (accNotified acc),
   accCalls acc).

(** ** [update]: the swirl phase *)

Definition swirlFade (b : Batch) : R :=
  let t := swirlElapsed b in
  let T := Math_max 0.001 (swirlDuration b) in
  if Rgtb t (T * 0.7) then Math_max 0 (1 - (t - T * 0.7) / (T * 0.3)) else 1.

Definition swirlGrain (dt : R) (b : Batch) (g : Grain) : Grain :=
  let p := position b in
  let bottomY := bottomYWorld b in
  let maxR := Math_max 0 (beakerRadius b - 0.06) in
  let strength := swirlStrength b * swirlFade b in
  let inward := swirlInward b * swirlFade b in
  let drag := Math_max 0 (swirlDrag b) in
  let worldY := vY p + gY g in
  let '(y, vy) := if Rleb worldY (bottomY + dropEps)
                  then ((bottomY + dropEps) - vY p, 0) else (gY g, gVY g) in
  let worldX := vX p + gX g in
  let worldZ := vZ p + gZ g in
  let dx := worldX - vX (swirlCenterWorld b) in
  let dz := worldZ - vZ (swirlCenterWorld b) in
  let r := Math_hypot dx dz + 1e-6 in
  let dirMul := swirlDir b in
  let tx := (- dz / r) * dirMul in
  let tz := (dx / r) * dirMul in
  let vx := gVX g + (tx * strength - (dx / r) * inward) * dt in
  let vz := gVZ g + (tz * strength - (dz / r) * inward) * dt in
  let x := gX g + vx * dt in
  let z := gZ g + vz * dt in
  let ndx := (vX p + x) - vX (beakerCenterWorld b) in
  let ndz := (vZ p + z) - vZ (beakerCenterWorld b) in
  let nr := Math_hypot ndx ndz in
  let '(x, z, vx, vz) :=
    if Rgtb nr maxR then
      let s := maxR / (nr + 1e-6) in
      ((vX (beakerCenterWorld b) + ndx * s) - vX p,
       (vZ (beakerCenterWorld b) + ndz * s) - vZ p,
       vx * 0.85, vz * 0.85)
    else (x, z, vx, vz) in
  let damp := exp (- drag * dt) in
  mkGrain x y z (vx * damp) vy (vz * damp) (settled g).

(** The [if (!state.dropping && state.swirling)] block. *)
Definition swirlPhase (dt : R) (b : Batch) : Batch :=
  let elapsed := swirlElapsed b + dt in
  mkBatch (map (swirlGrain dt b) (grains b)) (visible b) (position b)
          (materialOpacity b) (dropping b) (dropElapsed b)
          (bottomYWorld b) (beakerCenterWorld b) (beakerRadius b)
          (if Rgeb elapsed (swirlDuration b) then false else swirling b)
          elapsed (swirlDuration b) (swirlCenterWorld b)
          (swirlStrength b) (swirlInward b) (swirlDrag b) (swirlDir b)
          (dissolveActive b) (dissolveElapsed b) (dissolveDurationSec b)
          (dead b) (waterSurfaceY b) (_beakerGroup b) (onEnterWater b)
          (enterNotified b).

(** ** [update]: the dissolve fade *)

Definition dissolvePhase (dt : R) (b : Batch) : Batch :=
  let elapsed := dissolveElapsed b + dt in
  (* [state.dissolveDurationSec || 1.0] *)
  let d0 := if Req_dec_T (dissolveDurationSec b) 0 then 1 else dissolveDurationSec b in
  let dur := Math_max 0.001 d0 in
  let k := Math_min 1 (elapsed / dur) in
  let newOpacity := Math_max 0 (1 - k) in
  let done := Rleb newOpacity 0.02 in
  mkBatch (grains b) (if done then false else visible b) (position b)
          newOpacity (dropping b) (dropElapsed b)
          (bottomYWorld b) (beakerCenterWorld b) (beakerRadius b)
          (swirling b) (swirlElapsed b) (swirlDuration b) (swirlCenterWorld b)
          (swirlStrength b) (swirlInward b) (swirlDrag b) (swirlDir b)
          (if done then false else dissolveActive b) elapsed (dissolveDurationSec b)
          (dead b) (waterSurfaceY b) (_beakerGroup b) (onEnterWater b)
          (enterNotified b).

(** ** [update]: one batch *)

Definition updateBatch (dt : R) (n : nat) (b : Batch) : Batch * list Call :=
  if dead b then (b, [])
  else if negb (visible b) && negb (dropping b) && negb (swirling b)
          && negb (dissolveActive b) then (b, [])
  else
    let '(b1, calls) := if dropping b then dropPhase dt n b else (b, []) in
    let b2 := if negb (dropping b1) && swirling b1 then swirlPhase dt b1 else b1 in
    let b3 := if dissolveActive b2 then dissolvePhase dt b2 else b2 in
    (b3, calls).

Fixpoint updateBatches (dt : R) (n : nat) (bs : list Batch) : list Batch * list Call :=
  match bs with
  | [] => ([], [])
  | b :: rest =>
      let '(b', c1) := updateBatch dt n b in
      let '(rest', c2) := updateBatches dt n rest in
      (b' :: rest', c1 ++ c2)
  end.

(** ** [update]: bottom-plume emission *)

(** Sum of the settled grains' local x and z, and their number. *)
Fixpoint settledSums (l : list Grain) : R * R * nat :=
  match l with
  | [] => (0, 0, O)
  | g :: rest =>
      let '(sx, sz, sc) := settledSums rest in
      if settled g then (gX g + sx, gZ g + sz, S sc) else (sx, sz, sc)
  end.

Definition settledCount (l : list Grain) : nat := snd (settledSums l).

(** Colour of the burst: green when the solution is acidic beyond the
    threshold, blue otherwise. *)
Definition reactionColor (ph : option R) : Z :=
  match ph with
  | Some v => if Rgtb v 0.15 then 0x00b15a%Z else 0x0b3c88%Z
  | None => 0x0b3c88%Z
  end.

(** The fallback path: [plumePerBurst] surface sources, two draws each. *)
Fixpoint fallbackSources (k : nat) (wx wz : R) (tape : nat -> R) (pos : nat)
  : list Call :=
  match k with
  | O => []
  | S k' =>
      let a := tape pos * PI * 2 in
      let r := tape (pos + 1)%nat * plumeRadiusJitter in
      CallAddSource (wx + cos a * r) (wz + sin a * r) 1
        :: fallbackSources k' wx wz tape (pos + 2)%nat
  end.

(** What the emission loop does on the first batch that is visible, not
    dropping and has at least 20 settled grains; returns the calls made
    and the number of draws used. *)
Definition emitFrom (s : System) (d : Handle) (b : Batch) : list Call * nat :=
  let '(sx, sz, sc) := settledSums (grains b) in
  let sx := sx / INR sc in
  let sz := sz / INR sc in
  let wx := vX (position b) + sx in
  let wz := vZ (position b) + sz in
  let '(lx, lz) :=
    match _beakerGroup b with
    | Some worldToLocal =>
        let local := worldToLocal (mkVec3 wx (bottomYWorld b) wz) in
        (vX local, vZ local)
    | None => (wx - vX (beakerCenterWorld b), wz - vZ (beakerCenterWorld b))
    end in
  if has_addBottomSource d then
    match isIndicatorEnabled d with
    | Some false => ([], O)
    | _ =>
        ([CallAddBottomSource lx lz (Z.of_nat plumePerBurst)
            (Diffusion.mkBottomOpts (reactionColor (chemPHScore s)) false 0.70 0.23 1.00)],
         O)
    end
  else (fallbackSources plumePerBurst wx wz (randomTape s) (randomPos s),
        (2 * plumePerBurst)%nat).

(** [for (const b of batches) { ...; break; }]. *)
Fixpoint emitLoop (s : System) (d : Handle) (bs : list Batch) : list Call * nat :=
  match bs with
  | [] => ([], O)
  | b :: rest =>
      if negb (visible b) || dropping b then emitLoop s d rest
      else if Nat.ltb (settledCount (grains b)) 20 then emitLoop s d rest
      else emitFrom s d b
  end.

(** The housekeeping block at the end of [update]; [s] already holds the
    updated batches. *)
Definition emitPhase (dt : R) (s : System) : System * list Call :=
  match diffusion s with
  | None => (s, [])
  | Some d =>
      if existsb swirling (batches s) then (s, [])
      else
        let acc := plumeSpawnAccum s + dt in
        if Rgeb acc plumeSpawnInterval then
          let '(calls, used) := emitLoop s d (batches s) in
          (mkSystem (count s) (batches s) (diffusion s) 0 (chemPHScore s)
                    (randomTape s) (randomPos s + used),
           calls)
        else
          (mkSystem (count s) (batches s) (diffusion s) acc (chemPHScore s)
                    (randomTape s) (randomPos s),
           [])
  end.

Definition update (dt : R) (s : System) : System * list Call :=
  let '(bs, c1) := updateBatches dt (count s) (batches s) in
  let s1 := mkSystem (count s) bs (diffusion s) (plumeSpawnAccum s) (chemPHScore s)
                     (randomTape s) (randomPos s) in
  let '(s2, c2) := emitPhase dt s1 in
  (s2, c1 ++ c2).

(** The calls to [addBottomSource] among a list of calls. *)
Definition isBottomCall (c : Call) : bool :=
  match c with CallAddBottomSource _ _ _ _ => true | _ => false end.

Definition bottomSourceCalls (cs : list Call) : list Call := filter isBottomCall cs.

(** ** [setDiffusionManager], [spawnAt], [startSwirl] and [stopSwirl] *)

Definition setDiffusionManager (d : option Handle) (s : System) : System :=
  mkSystem (count s) (batches s) d (plumeSpawnAccum s) (chemPHScore s)
           (randomTape s) (randomPos s).

(** The spawn defaults of [createPowder]: [opts.verticalSpread ?? 0.25],
    [opts.velocityYRange ?? [-0.2, 0.25]], [opts.radialJitter ?? 0.35]. *)
Record Defaults := mkDefaults {
  defaultVerticalSpread : R;
  defaultVelocityYRange : R * R;
  defaultRadialJitter : R
}.

(** The per-spawn overrides handed to [makeBatch]. *)
Record SpawnCfg := mkSpawnCfg {
  cfg_verticalSpread : option R;
  cfg_velocityYRange : option (R * R);
  cfg_radialJitter : option R
}.

(** [a ?? b]. *)
Definition orDefault {A} (a : option A) (b : A) : A :=
  match a with Some x => x | None => b end.

(** [resetParticle(i)]: six draws, in source order: radius, angle,
    height, x velocity, y velocity, z velocity. *)
Definition resetParticle (defs : Defaults) (cfg : SpawnCfg) (tape : nat -> R) (pos : nat)
  : Grain :=
  let radialJitter := orDefault (cfg_radialJitter cfg) (defaultRadialJitter defs) in
  let r := tape pos * radialJitter in
  let a := tape (pos + 1)%nat * PI * 2 in
  let vSpread := orDefault (cfg_verticalSpread cfg) (defaultVerticalSpread defs) in
  let vyRange := orDefault (cfg_velocityYRange cfg) (defaultVelocityYRange defs) in
  mkGrain (cos a * r) (- tape (pos + 2)%nat * vSpread) (sin a * r)
          ((tape (pos + 3)%nat - 0.5) * 0.18)
          (fst vyRange + tape (pos + 4)%nat * (snd vyRange - fst vyRange))
          ((tape (pos + 5)%nat - 0.5) * 0.18)
          false.

(** [for (i = 0; i < count; i++) resetParticle(i)], from tape position
    [pos]. *)
Fixpoint resetAll (defs : Defaults) (cfg : SpawnCfg) (tape : nat -> R) (pos n : nat)
  : list Grain :=
  match n with
  | O => []
  | S k => resetParticle defs cfg tape pos :: resetAll defs cfg tape (pos + 6)%nat k
  end.

(** [makeBatch(spawnCfg)]: the buffers after its own reset pass, the
    hidden points object and the initial [state]. *)
Definition makeBatch (defs : Defaults) (cfg : SpawnCfg) (s : System) : Batch :=
  mkBatch (resetAll defs cfg (randomTape s) (randomPos s) (count s))
          false (mkVec3 0 0 0) 1
          false 0 0 (mkVec3 0 0 0) 0.95
          false 0 0 (mkVec3 0 0 0) 0 0 1.2 1
          false 0 0 false None None false false.

(** The options object of [spawnAt]; [None] is a member that is
    missing or not of the tested type. *)
Record SpawnOpts := mkSpawnOpts {
  so_bottomYWorld : option R;
  so_centerWorld : option Vec3;
  so_beakerRadius : option R;
  so_waterSurfaceY : option R;
  so_onEnterWater : bool;
  so_cfg : SpawnCfg;
  so_beakerGroup : option (Vec3 -> Vec3)
}.

(** What [spawnAt] and [startSwirl] can see of the object given to
    [setDiffusionManager]: which of these members are functions. *)
Record Methods := mkMethods {
  has_enableBottomPlumes : bool;
  has_disableBottomPlumes : bool;
  has_fadeOutBottomPlumes : bool;
  has_clearBottomPlumeParticles : bool
}.

(** The calls that [spawnAt] and [startSwirl] make on it. *)
Inductive ControlCall :=
| CallEnableBottomPlumes
| CallDisableBottomPlumes (clearExistingQueue : bool)
| CallFadeOutBottomPlumes (durationSec : R)
| CallClearBottomPlumeParticles.

Definition spawnAt (defs : Defaults) (worldPos : Vec3) (o : SpawnOpts) (meth : Methods)
           (s : System) : System * list ControlCall :=
  let b := makeBatch defs (so_cfg o) s in
  let pos1 := (randomPos s + 6 * count s)%nat in
  let gs := resetAll defs (so_cfg o) (randomTape s) pos1 (count s) in
  let bottomY0 := orDefault (so_bottomYWorld o) 0 in
  let bottomY := if Rltb bottomY0 (vY worldPos - 0.01) then bottomY0
                 else vY worldPos - 0.5 in
  let b' :=
    mkBatch gs true worldPos 1
            true 0 bottomY
            (orDefault (so_centerWorld o) (beakerCenterWorld b))
            (orDefault (so_beakerRadius o) (beakerRadius b))
            (swirling b) (swirlElapsed b) (swirlDuration b) (swirlCenterWorld b)
            (swirlStrength b) (swirlInward b) (swirlDrag b) (swirlDir b)
            (dissolveActive b) (dissolveElapsed b) (dissolveDurationSec b)
            (dead b) (so_waterSurfaceY o) (so_beakerGroup o) (so_onEnterWater o)
            false in
  (mkSystem (count s) (batches s ++ [b']) (diffusion s) (plumeSpawnAccum s)
            (chemPHScore s) (randomTape s) (pos1 + 6 * count s)%nat,
   match diffusion s with
   | Some _ => if has_enableBottomPlumes meth then [CallEnableBottomPlumes] else []
   | None => []
   end).

(** The options object of [startSwirl]; the defaults are
    [durationSec = 1.4], [strength = 0.35], [inward = 0.08],
    [drag = 1.2], [dissolve = false], [direction = 'ccw'], and no
    centre, dissolve duration or fade duration. *)
Record SwirlOpts := mkSwirlOpts {
  sw_centerWorld : option Vec3;
  sw_durationSec : R;
  sw_strength : R;
  sw_inward : R;
  sw_drag : R;
  sw_dissolve : bool;
  sw_dissolveDurationSec : option R;
  sw_clockwise : bool;                 (* [direction === 'cw'] *)
  sw_bottomPlumeFadeSec : option R
}.

Definition defaultSwirlOpts : SwirlOpts :=
  mkSwirlOpts None 1.4 0.35 0.08 1.2 false None false None.

(** Loop body of [startSwirl]. *)
Definition swirlBatch (o : SwirlOpts) (b : Batch) : Batch :=
  if negb (visible b) then b
  else if dropping b then b
  else
    let duration := Math_max 0.2 (sw_durationSec o + 1.0) in
    mkBatch (grains b) (visible b) (position b) 1
            (dropping b) (dropElapsed b) (bottomYWorld b) (beakerCenterWorld b)
            (beakerRadius b)
            true 0 duration
            (orDefault (sw_centerWorld o) (swirlCenterWorld b))
            (Math_max 0 (sw_strength o)) (Math_max 0 (sw_inward o))
            (Math_max 0 (sw_drag o)) (if sw_clockwise o then -1 else 1)
            (sw_dissolve o) 0
            (match sw_dissolveDurationSec o with
             | None => duration
             | Some d => Math_max 0.1 d
             end)
            (dead b) (waterSurfaceY b) (_beakerGroup b) (onEnterWater b)
            (enterNotified b).

Definition effectiveFade (o : SwirlOpts) : R :=
  match sw_bottomPlumeFadeSec o with
  | None => Math_max 0.05 (sw_durationSec o + 1.0)
  | Some f => Math_max 0.05 f
  end.

Definition startSwirl (o : SwirlOpts) (meth : Methods) (s : System)
  : System * list ControlCall :=
  (mkSystem (count s) (map (swirlBatch o) (batches s)) (diffusion s)
            (plumeSpawnAccum s) (chemPHScore s) (randomTape s) (randomPos s),
   match diffusion s with
   | None => []
   | Some _ =>
       (if has_disableBottomPlumes meth then [CallDisableBottomPlumes true] else [])
       ++ (if has_fadeOutBottomPlumes meth
           then [CallFadeOutBottomPlumes (effectiveFade o)]
           else if has_clearBottomPlumeParticles meth
                then [CallClearBottomPlumeParticles] else [])
   end).

Definition stopSwirlBatch (b : Batch) : Batch :=
  mkBatch (grains b) (visible b) (position b) (materialOpacity b)
          (dropping b) (dropElapsed b) (bottomYWorld b) (beakerCenterWorld b)
          (beakerRadius b)
          false (swirlElapsed b) (swirlDuration b) (swirlCenterWorld b)
          (swirlStrength b) (swirlInward b) (swirlDrag b) (swirlDir b)
          (dissolveActive b) (dissolveElapsed b) (dissolveDurationSec b)
          (dead b) (waterSurfaceY b) (_beakerGroup b) (onEnterWater b)
          (enterNotified b).

Definition stopSwirl (s : System) : System :=
  mkSystem (count s) (map stopSwirlBatch (batches s)) (diffusion s) 0
           (chemPHScore s) (randomTape s) (randomPos s).

(** ** [hasPowder] and [clear] *)

Definition hasPowder (s : System) : bool := existsb visible (batches s).

(** [clear()]: every batch is disposed of and marked dead, then
    [batches.length = 0]; no batch is reachable afterwards. *)
Definition clear (s : System) : System :=
  mkSystem (count s) [] (diffusion s) (plumeSpawnAccum s) (chemPHScore s)
           (randomTape s) (randomPos s).

End Powder.

(** * Vocabulary of the properties *)

(** The bounds that [setPlumeConfig] maintains on the configuration. *)
Definition configOk (c : Diffusion.PlumeConfig) : Prop :=
  0 <= Diffusion.maxActive c <= INR Diffusion.maxParticles /\
  0.05 <= Diffusion.lifeSeconds c /\
  0 <= Diffusion.spawnRate c /\
  0 <= Diffusion.spawnRateMultiplier c /\
  0 <= Diffusion.ageSpreadStrength c /\
  0 <= Diffusion.minAlpha c <= 1 /\
  0 <= Diffusion.suppressionProbability c <= 1 /\
  0.01 <= Diffusion.cellSize c /\
  1 <= Diffusion.maxPerCell c.

(** A field whose argument is omitted keeps its value. *)
Definition keeps {A B} (arg : option A) (old new : B) : Prop :=
  arg = None -> new = old.

Definition omittedUnchanged (a : Diffusion.ConfigArgs) (c c' : Diffusion.PlumeConfig)
  : Prop :=
  keeps (Diffusion.a_spawnRate a) (Diffusion.spawnRate c) (Diffusion.spawnRate c') /\
  keeps (Diffusion.a_spawnRateMultiplier a) (Diffusion.spawnRateMultiplier c)
        (Diffusion.spawnRateMultiplier c') /\
  keeps (Diffusion.a_lifeSeconds a) (Diffusion.lifeSeconds c) (Diffusion.lifeSeconds c') /\
  keeps (Diffusion.a_maxActive a) (Diffusion.maxActive c) (Diffusion.maxActive c') /\
  keeps (Diffusion.a_alphaCurveExp a) (Diffusion.alphaCurveExp c)
        (Diffusion.alphaCurveExp c') /\
  keeps (Diffusion.a_sizeCurveExp a) (Diffusion.sizeCurveExp c)
        (Diffusion.sizeCurveExp c') /\
  keeps (Diffusion.a_minAlpha a) (Diffusion.minAlpha c) (Diffusion.minAlpha c') /\
  keeps (Diffusion.a_enabled a) (Diffusion.enabled c) (Diffusion.enabled c') /\
  keeps (Diffusion.a_baselineEmissionRate a) (Diffusion.baselineEmissionRate c)
        (Diffusion.baselineEmissionRate c') /\
  keeps (Diffusion.a_ageSpreadStrength a) (Diffusion.ageSpreadStrength c)
        (Diffusion.ageSpreadStrength c') /\
  keeps (Diffusion.a_cellSize a) (Diffusion.cellSize c) (Diffusion.cellSize c') /\
  keeps (Diffusion.a_maxPerCell a) (Diffusion.maxPerCell c) (Diffusion.maxPerCell c') /\
  keeps (Diffusion.a_suppressionProbability a) (Diffusion.suppressionProbability c)
        (Diffusion.suppressionProbability c').

(** What [update] leaves alone: the closure constants, the
    configuration, the lockout flag, the debug switch, the tape and the
    indicator field's last mean. *)
Definition sameSetup (m m' : Diffusion.Manager) : Prop :=
  Diffusion.env m' = Diffusion.env m /\
  Diffusion.plumeConfig m' = Diffusion.plumeConfig m /\
  Diffusion._bottomPlumeDisabled m' = Diffusion._bottomPlumeDisabled m /\
  Diffusion._debugForce m' = Diffusion._debugForce m /\
  Diffusion.randomTape m' = Diffusion.randomTape m /\
  Diffusion._lastMean m' = Diffusion._lastMean m.



(** Concrete inputs used by the examples. *)
Definition exampleEnv : Diffusion.Env :=
  Diffusion.mkEnv 1 1 1 (fun _ => (0, 0, 0)) (fun _ canvas => canvas).

Definition freshManager : Diffusion.Manager :=
  Diffusion.createDiffusionManager exampleEnv (fun _ => 0.5).

(** A fresh manager with one surface request queued. *)
Definition queuedManager : Diffusion.Manager :=
  Diffusion.addSource 0 0 60 freshManager.

(** A fresh manager bound to water uniforms with no indicator in it. *)
Definition boundManager : Diffusion.Manager :=
  Diffusion.bindUniforms (Some (Diffusion.mkWater 0 (Some 0))) freshManager.

Definition notBottom (r : Diffusion.Request) : bool := negb (Diffusion.bottom r).

(** Five bottom requests queued on a fresh manager. *)
Definition fiveBottomManager : Diffusion.Manager :=
  Diffusion.runOps
    (repeat (Diffusion.OpAddBottomSource 0.1 0.2 18 Diffusion.defaultBottomOpts) 5)
    freshManager.




(** Scenario C of the specification: one visible, idle batch with 25
    settled grains, attached to a manager whose indicator is off. *)
Definition settledGrain : Powder.Grain := Powder.mkGrain 0 0 0 0 0 0 true.

Definition idleBatch : Powder.Batch :=
  Powder.mkBatch (repeat settledGrain 25) true (Powder.mkVec3 0 0 0) 1
                 false 0 0 (Powder.mkVec3 0 0 0) 0.95
                 false 0 0 (Powder.mkVec3 0 0 0) 0 0 1.2 1
                 false 0 0 false None None false false.

Definition scenarioC : Powder.System :=
  Powder.mkSystem 25 [idleBatch] (Some (Powder.handleOf boundManager)) 0 None
                  (fun _ => 0.5) 0.

(** The same system with the indicator on. *)
Definition scenarioCOn : Powder.System :=
  Powder.mkSystem 25 [idleBatch] (Some (Powder.mkHandle true (Some true))) 0 None
                  (fun _ => 0.5) 0.



Definition alive (p : Diffusion.Particle) : Prop := 0 < Diffusion.life p.



(** [life - dt / lifeSeconds], clamped at 0: the normal ageing step. *)
Definition decayedLife (dt L l : R) : R :=
  if Rltb (l - dt / L) 0 then 0 else l - dt / L.


Definition sumR (l : list R) : R := fold_right Rplus 0 l.

(** A manager with the point cloud created and two live particles: a
    gated one (slot 0) lying outside the beaker radius, and an ungated
    bottom-plume one (slot 1). *)
Definition gatedParticle : Diffusion.Particle :=
  Diffusion.mkParticle 2 0 0 0 0 0 1 0 0 1 0 (0, 1, 0) 1 0 0.

Definition ungatedParticle : Diffusion.Particle :=
  Diffusion.mkParticle 0 0 0 0 0 0 1 0 0 1 0 (0, 0, 1) 0 0 0.

Definition plumeManager : Diffusion.Manager :=
  Diffusion.set_pool
    (gatedParticle :: ungatedParticle :: repeat Diffusion.deadParticle 998)
    (Diffusion.ensurePoints freshManager).

(** Two configurations that agree on every bounded field (they may
    differ in the curve exponents, which [setPlumeStyle] also writes). *)
Definition sameLimits (c c' : Diffusion.PlumeConfig) : Prop :=
  Diffusion.maxActive c' = Diffusion.maxActive c /\
  Diffusion.lifeSeconds c' = Diffusion.lifeSeconds c /\
  Diffusion.spawnRate c' = Diffusion.spawnRate c /\
  Diffusion.spawnRateMultiplier c' = Diffusion.spawnRateMultiplier c /\
  Diffusion.ageSpreadStrength c' = Diffusion.ageSpreadStrength c /\
  Diffusion.minAlpha c' = Diffusion.minAlpha c /\
  Diffusion.suppressionProbability c' = Diffusion.suppressionProbability c /\
  Diffusion.cellSize c' = Diffusion.cellSize c /\
  Diffusion.maxPerCell c' = Diffusion.maxPerCell c.

(** Particles only ever come to life once the point cloud exists: as
    long as there is no point cloud, every slot is dead. *)
Definition cloudOrDead (m : Diffusion.Manager) : Prop :=
  Diffusion.points m = None ->
  Forall (fun p => Diffusion.life p <= 0) (Diffusion.pool m).

(** Every queued request still asks for at least one particle. *)
Definition positiveCounts (q : list Diffusion.Request) : Prop :=
  Forall (fun r => (1 <= Diffusion.reqCount r)%Z) q.

(** The spawn budget that [update(dt)] works with: the one computed
    after the debug burst at the top of the tick. *)
Definition tickBudget (dt : R) (m : Diffusion.Manager) : nat :=
  Z.to_nat (fst (Diffusion.spawnBudget dt (Diffusion.debugTick dt m))).

(** Every draw lies in [0, 1), as [Math.random] promises. *)
Definition unitTape (t : nat -> R) : Prop := forall k, 0 <= t k < 1.

(** A slot as [reset] leaves it: dead, at the origin, at rest. *)
Definition atOrigin (p : Diffusion.Particle) : Prop :=
  Diffusion.life p = 0 /\
  Diffusion.posX p = 0 /\ Diffusion.posY p = 0 /\ Diffusion.posZ p = 0 /\
  Diffusion.velX p = 0 /\ Diffusion.velY p = 0 /\ Diffusion.velZ p = 0.

(** A bound manager whose last canvas sample had a mean of 0.2. *)
Definition sampledManager : Diffusion.Manager :=
  Diffusion.set_lastMean 0.2 boundManager.

(** A live bottom-plume particle: the ones [clearBottomPlumeParticles]
    and [fadeOutBottomPlumes] act on. *)
Definition liveUngated (p : Diffusion.Particle) : Prop :=
  0 < Diffusion.life p /\ Diffusion.gate p < 0.5.

(** [plumeManager] with a bottom and a surface request queued. *)
Definition mixedQueueManager : Diffusion.Manager :=
  Diffusion.addSource 0.3 0.3 5
    (Diffusion.addBottomSource 0 0 18 Diffusion.defaultBottomOpts plumeManager).

(** A slot whose [gate] is one of the two values the code writes and
    whose [life] is not negative. *)
Definition wellFormedSlot (p : Diffusion.Particle) : Prop :=
  (Diffusion.gate p = 0 \/ Diffusion.gate p = 1) /\ 0 <= Diffusion.life p.

Definition wellFormedPool (m : Diffusion.Manager) : Prop :=
  length (Diffusion.pool m) = Diffusion.maxParticles /\
  Forall wellFormedSlot (Diffusion.pool m).

(** The three curve uniforms of the plume material mirror the
    configuration; as long as there is no material, the configuration
    still holds the values a new material starts with. *)
Definition uniformsMirrorConfig (m : Diffusion.Manager) : Prop :=
  let c := Diffusion.plumeConfig m in
  match Diffusion.points m with
  | Some u =>
      Diffusion.uLifePow u = Diffusion.sizeCurveExp c /\
      Diffusion.uAlphaPow u = Diffusion.alphaCurveExp c /\
      Diffusion.uMinAlpha u = Diffusion.minAlpha c
  | None =>
      Diffusion.sizeCurveExp c = Diffusion.uLifePow Diffusion.defaultUniforms /\
      Diffusion.alphaCurveExp c = Diffusion.uAlphaPow Diffusion.defaultUniforms /\
      Diffusion.minAlpha c = Diffusion.uMinAlpha Diffusion.defaultUniforms
  end.

(** A request as the debug bursts queue them: one particle, surface
    layer, within [lim] of the centre of the beaker. *)
Definition burstRequest (lim : R) (r : Diffusion.Request) : Prop :=
  Diffusion.reqCount r = 1%Z /\ Diffusion.bottom r = false /\
  Math_hypot (Diffusion.reqX r) (Diffusion.reqZ r) <= lim.




(** The geometry of a batch that [update] never changes. *)
Definition sameGeometry (b b' : Powder.Batch) : Prop :=
  Powder.position b' = Powder.position b /\
  Powder.bottomYWorld b' = Powder.bottomYWorld b /\
  Powder.beakerCenterWorld b' = Powder.beakerCenterWorld b /\
  Powder.beakerRadius b' = Powder.beakerRadius b.

(** Grain by grain, [l'] keeps every settled flag that is set in [l]. *)
Definition keepsSettled (l l' : list Powder.Grain) : Prop :=
  Forall2 (fun g g' => Powder.settled g = true -> Powder.settled g' = true) l l'.

(** Grain by grain, [l'] has the settled flags of [l]. *)
Definition sameSettled (l l' : list Powder.Grain) : Prop :=
  Forall2 (fun g g' => Powder.settled g' = Powder.settled g) l l'.

(** A run of [update] ticks on one batch, with the callbacks it makes. *)
Fixpoint runBatch (dts : list R) (n : nat) (b : Powder.Batch)
  : Powder.Batch * list Powder.Call :=
  match dts with
  | [] => (b, [])
  | dt :: rest =>
      let '(b1, c1) := Powder.updateBatch dt n b in
      let '(b2, c2) := runBatch rest n b1 in
      (b2, c1 ++ c2)
  end.

(** How many [onEnterWater] callbacks a batch can still make: one, as
    long as a callback was supplied, the water surface is known and the
    batch has not notified yet; none otherwise. *)
Definition notifyBudget (onEnter notified : bool) (surface : option R) : nat :=
  if notified || negb onEnter || match surface with None => true | Some _ => false end
  then 0 else 1.

Definition batchNotifyBudget (b : Powder.Batch) : nat :=
  notifyBudget (Powder.onEnterWater b) (Powder.enterNotified b) (Powder.waterSurfaceY b).

(** A call of the batch's [onEnterWater] callback with a point at the
    height of the water surface. *)
Definition entersWaterOf (b : Powder.Batch) (c : Powder.Call) : Prop :=
  exists p, c = Powder.CallOnEnterWater p /\ Powder.waterSurfaceY b = Some (Powder.vY p).

(** A run of frames of the powder system.  Before each [update(dt)]
    the diffusion object is set again with [setDiffusionManager], so
    that it may change from frame to frame (the indicator toggled, the
    object replaced or removed). *)
Fixpoint runUpdates (frames : list (R * option Powder.Handle)) (s : Powder.System)
  : Powder.System * list Powder.Call :=
  match frames with
  | [] => (s, [])
  | (dt, d) :: rest =>
      let '(s1, c1) := Powder.update dt (Powder.setDiffusionManager d s) in
      let '(s2, c2) := runUpdates rest s1 in
      (s2, c1 ++ c2)
  end.

(** The one shape of [addBottomSource] call that the powder makes: 18
    particles, indicator gate respected, blue or green. *)
Definition standardBurst (c : Powder.Call) : Prop :=
  exists lx lz o,
    c = Powder.CallAddBottomSource lx lz 18 o /\
    Diffusion.o_ignoreIndicator o = false /\
    (Diffusion.o_color o = 0x0b3c88%Z \/ Diffusion.o_color o = 0x00b15a%Z).

(** Scenario C with the indicator on, and its one frame of 0.2 s. *)
Definition burstFrames : list (R * option Powder.Handle) :=
  [(0.2, Some (Powder.mkHandle true (Some true)))].

(** The duration that the dissolve fade works with:
    [Math.max(0.001, state.dissolveDurationSec || 1.0)]. *)
Definition dissolveDuration (b : Powder.Batch) : R :=
  Math_max 0.001 (if Req_dec_T (Powder.dissolveDurationSec b) 0
                  then 1 else Powder.dissolveDurationSec b).

(** A settled, visible batch that is being stirred: swirling for 2.4 s
    and dissolving over the same time. *)
Definition stirredBatch : Powder.Batch :=
  Powder.swirlBatch
    (Powder.mkSwirlOpts None 1.4 0.35 0.08 1.2 true None false None) idleBatch.

(** The powder system while the stirred batch is its only batch. *)
Definition stirredSystem : Powder.System :=
  Powder.mkSystem 25 [stirredBatch] (Some (Powder.mkHandle true (Some true))) 0 None
                  (fun _ => 0.5) 0.

(** Every call in [cs] is a water-entry callback. *)
Definition onlyEnterWater (cs : list Powder.Call) : Prop :=
  Forall (fun c => exists p, c = Powder.CallOnEnterWater p) cs.

(** A batch as [spawnAt(worldPos, ...)] leaves it: shown at [worldPos],
    opaque, falling from time zero towards a floor that lies more than
    0.01 below the spawn point, neither swirling nor dissolving, not yet
    notified, with no grain settled. *)
Definition freshlyPoured (worldPos : Powder.Vec3) (b : Powder.Batch) : Prop :=
  Powder.visible b = true /\
  Powder.position b = worldPos /\
  Powder.materialOpacity b = 1 /\
  Powder.dropping b = true /\
  Powder.dropElapsed b = 0 /\
  Powder.bottomYWorld b < Powder.vY worldPos - 0.01 /\
  Powder.swirling b = false /\
  Powder.dissolveActive b = false /\
  Powder.dead b = false /\
  Powder.enterNotified b = false /\
  Forall (fun g => Powder.settled g = false) (Powder.grains b).

(** The spawn band of a grain: within [jitter] of the batch's axis, at
    most [vSpread] below its origin and never above it, with a vertical
    speed in [[lo, hi]] and a horizontal speed of at most 0.09 per
    axis. *)
Definition withinSpawnBand (jitter vSpread lo hi : R) (g : Powder.Grain) : Prop :=
  Math_hypot (Powder.gX g) (Powder.gZ g) <= jitter /\
  - vSpread <= Powder.gY g <= 0 /\
  lo <= Powder.gVY g <= hi /\
  -0.09 <= Powder.gVX g <= 0.09 /\
  -0.09 <= Powder.gVZ g <= 0.09.

(** What [startSwirl] does to one batch. *)
Definition swirlStarted (o : Powder.SwirlOpts) (b b' : Powder.Batch) : Prop :=
  Powder.grains b' = Powder.grains b /\
  sameGeometry b b' /\
  Powder.visible b' = Powder.visible b /\
  Powder.dropping b' = Powder.dropping b /\
  Powder.dead b' = Powder.dead b /\
  (Powder.visible b = false \/ Powder.dropping b = true -> b' = b) /\
  (Powder.visible b = true -> Powder.dropping b = false ->
   Powder.swirling b' = true /\
   Powder.swirlElapsed b' = 0 /\
   0.2 <= Powder.swirlDuration b' /\
   0 <= Powder.swirlStrength b' /\
   0 <= Powder.swirlInward b' /\
   0 <= Powder.swirlDrag b' /\
   (Powder.swirlDir b' = 1 \/ Powder.swirlDir b' = -1) /\
   Powder.materialOpacity b' = 1 /\
   Powder.dissolveActive b' = Powder.sw_dissolve o /\
   Powder.dissolveElapsed b' = 0 /\
   0.1 <= Powder.dissolveDurationSec b' /\
   dissolveDuration b' = Powder.dissolveDurationSec b').

(** The calls that [startSwirl] may make on the diffusion object. *)
Definition stirCall (meth : Powder.Methods) (c : Powder.ControlCall) : Prop :=
  match c with
  | Powder.CallEnableBottomPlumes => False
  | Powder.CallDisableBottomPlumes q => q = true
  | Powder.CallFadeOutBottomPlumes f => 0.05 <= f
  | Powder.CallClearBottomPlumeParticles => Powder.has_fadeOutBottomPlumes meth = false
  end.

(** A control call of the powder arriving at a manager built by
    [createDiffusionManager]. *)
Definition runControl (m : Diffusion.Manager) (c : Powder.ControlCall)
  : Diffusion.Manager :=
  match c with
  | Powder.CallEnableBottomPlumes => Diffusion.enableBottomPlumes m
  | Powder.CallDisableBottomPlumes q => Diffusion.disableBottomPlumes q m
  | Powder.CallFadeOutBottomPlumes d => Diffusion.fadeOutBottomPlumes d m
  | Powder.CallClearBottomPlumeParticles => Diffusion.clearBottomPlumeParticles m
  end.

Definition runControls (cs : list Powder.ControlCall) (m : Diffusion.Manager)
  : Diffusion.Manager := fold_left runControl cs m.

(** The members that the [api] object of [createDiffusionManager]
    offers to the powder: all four are functions. *)
Definition managerMethods : Powder.Methods := Powder.mkMethods true true true true.

(** The spawn defaults of [createPowder] when its options name none. *)
Definition standardDefaults : Powder.Defaults := Powder.mkDefaults 0.25 (-0.2, 0.25) 0.35.

(** A pour at height 1 over a floor at height 0, with no overrides. *)
Definition plainPour : Powder.SpawnOpts :=
  Powder.mkSpawnOpts (Some 0) None None None false (Powder.mkSpawnCfg None None None) None.

(** * Properties *)

(** ** Comparisons and rounding *)

Lemma Rltb_true (x y : R) : Rltb x y = true <-> x < y.
Proof. unfold Rltb. destruct (Rlt_dec x y); split; intros; try easy. Qed.

Lemma Rltb_false (x y : R) : Rltb x y = false <-> y <= x.
Proof.
  unfold Rltb. destruct (Rlt_dec x y); split; intros; try easy; lra.
Qed.

Lemma Rleb_true (x y : R) : Rleb x y = true <-> x <= y.
Proof. unfold Rleb. destruct (Rle_dec x y); split; intros; try easy. Qed.

Lemma Rleb_false (x y : R) : Rleb x y = false <-> y < x.
Proof.
  unfold Rleb. destruct (Rle_dec x y); split; intros; try easy; lra.
Qed.

Lemma Rgtb_true (x y : R) : Rgtb x y = true <-> y < x.
Proof. apply Rltb_true. Qed.

Lemma Rgtb_false (x y : R) : Rgtb x y = false <-> x <= y.
Proof. apply Rltb_false. Qed.

Lemma Rgeb_true (x y : R) : Rgeb x y = true <-> y <= x.
Proof. apply Rleb_true. Qed.

Lemma Rgeb_false (x y : R) : Rgeb x y = false <-> x < y.
Proof. apply Rleb_false. Qed.

(** Case analysis on a comparison, keeping the order fact. *)
Ltac cmp_case c :=
  let H := fresh "Hcmp" in
  destruct c eqn:H;
  [ first [ apply Rltb_true in H | apply Rleb_true in H
          | apply Rgtb_true in H | apply Rgeb_true in H ]
  | first [ apply Rltb_false in H | apply Rleb_false in H
          | apply Rgtb_false in H | apply Rgeb_false in H ] ].

Lemma Math_floor_unique (x : R) (z : Z) :
  IZR z <= x < IZR z + 1 -> Math_floor x = z.
Proof.
  intros [Hlo Hhi]. unfold Math_floor. symmetry.
  apply Int_part_spec. lra.
Qed.


Lemma Math_max_l (x y : R) : x <= Math_max x y.
Proof. apply Rmax_l. Qed.

Lemma Math_max_r (x y : R) : y <= Math_max x y.
Proof. apply Rmax_r. Qed.

Lemma Math_min_l (x y : R) : Math_min x y <= x.
Proof. apply Rmin_l. Qed.


Lemma Math_min_glb (x y z : R) : z <= x -> z <= y -> z <= Math_min x y.
Proof. apply Rmin_glb. Qed.

Lemma INR_maxParticles : INR Diffusion.maxParticles = 1000.
Proof.
  unfold Diffusion.maxParticles. rewrite INR_IZR_INZ.
  change (Z.of_nat 1000) with 1000%Z. reflexivity.
Qed.

(** ** The configuration stays within its bounds *)

Lemma floor_default_maxActive :
  Math_floor (INR Diffusion.maxParticles * 0.35) = 350%Z.
Proof. apply Math_floor_unique. rewrite INR_maxParticles. lra. Qed.

Lemma defaultPlumeConfig_maxActive :
  Diffusion.maxActive Diffusion.defaultPlumeConfig = 350.
Proof.
  unfold Diffusion.defaultPlumeConfig. cbn [Diffusion.maxActive].
  rewrite floor_default_maxActive. reflexivity.
Qed.

Lemma configOk_default : configOk Diffusion.defaultPlumeConfig.
Proof.
  unfold configOk. rewrite defaultPlumeConfig_maxActive, INR_maxParticles.
  cbn. lra.
Qed.

Lemma clamp01 (x : R) : 0 <= Math_min 1 (Math_max 0 x) <= 1.
Proof.
  split; [apply Math_min_glb; [lra | apply Math_max_l] | apply Math_min_l].
Qed.

Lemma configOk_fields (a : Diffusion.ConfigArgs) (c : Diffusion.PlumeConfig) :
  configOk c -> configOk (Diffusion.setPlumeConfig_fields a c).
Proof.
  unfold configOk. intros (Hma & Hls & Hsr & Hsm & Hag & Hmi & Hsu & Hce & Hmp).
  destruct a as [sr sm ls ma ac sc mi en be ag ce mp su ri].
  cbn [Diffusion.setPlumeConfig_fields Diffusion.maxActive Diffusion.lifeSeconds
       Diffusion.spawnRate Diffusion.spawnRateMultiplier Diffusion.ageSpreadStrength
       Diffusion.minAlpha Diffusion.suppressionProbability Diffusion.cellSize
       Diffusion.maxPerCell Diffusion.a_spawnRate Diffusion.a_spawnRateMultiplier
       Diffusion.a_lifeSeconds Diffusion.a_maxActive Diffusion.a_minAlpha
       Diffusion.a_ageSpreadStrength Diffusion.a_cellSize Diffusion.a_maxPerCell
       Diffusion.a_suppressionProbability].
  repeat split;
    match goal with
    | |- context [Diffusion.ifDefined ?o _ _] => destruct o; cbn [Diffusion.ifDefined]
    end;
    try lra;
    try apply Math_max_l;
    try apply (proj1 (clamp01 _));
    try apply (proj2 (clamp01 _));
    try apply Math_min_l.
  apply Math_min_glb; [rewrite INR_maxParticles; lra | apply Math_max_l].
Qed.

(** [setPlumeConfig({ maxActive: 5000 })] stores the pool capacity. *)
Example setPlumeConfig_clamps_maxActive (c : Diffusion.PlumeConfig) :
  Diffusion.maxActive
    (Diffusion.setPlumeConfig_fields
       (Diffusion.mkArgs None None None (Some 5000) None None None None None None
                         None None None None) c)
  = 1000.
Proof.
  cbn [Diffusion.setPlumeConfig_fields Diffusion.maxActive Diffusion.a_maxActive
       Diffusion.ifDefined].
  rewrite INR_maxParticles. unfold Math_min, Math_max, Rmin, Rmax.
  destruct (Rle_dec 0 5000); [| lra].
  destruct (Rle_dec 1000 5000); lra.
Qed.

Lemma omittedUnchanged_fields (a : Diffusion.ConfigArgs) (c : Diffusion.PlumeConfig) :
  omittedUnchanged a c (Diffusion.setPlumeConfig_fields a c).
Proof.
  unfold omittedUnchanged, keeps. destruct a; cbn.
  repeat split; intros ->; reflexivity.
Qed.

(** Projections of updated managers: [field (set_x v m)] is reduced to
    [v] or to [field m], innermost update first. *)
Ltac is_setter s :=
  first [ constr_eq s Diffusion.set_waterUniforms
        | constr_eq s Diffusion.set_indicatorCanvas
        | constr_eq s Diffusion.set_diffuseAccum
        | constr_eq s Diffusion.set_concAccum
        | constr_eq s Diffusion.set_lastMean
        | constr_eq s Diffusion.set_pool
        | constr_eq s Diffusion.set_points
        | constr_eq s Diffusion.set_plumeConfig
        | constr_eq s Diffusion.set_bottomInjecting
        | constr_eq s Diffusion.set_spawnQueue
        | constr_eq s Diffusion.set_bottomPlumeDisabled
        | constr_eq s Diffusion.set_bottomPlumeOffset
        | constr_eq s Diffusion.set_debugForce
        | constr_eq s Diffusion.set_debugT
        | constr_eq s Diffusion.set_spawnAccum
        | constr_eq s Diffusion.set_randomPos ].

Ltac reduce_field p :=
  repeat match goal with
  | |- context [p (?s ?v ?m)] =>
      is_setter s;
      let c := eval cbv beta delta [s] in (s v m) in
      let t := eval cbn [p] in (p c) in
      change (p (s v m)) with t
  | |- context [p ?c] =>
      lazymatch c with
      | Diffusion.mkManager _ _ _ _ _ _ _ _ _ _ _ _ _ _ _ _ _ _ => idtac
      end;
      let t := eval cbn [p] in (p c) in
      change (p c) with t
  end.

Ltac msimpl :=
  cbv zeta; unfold Diffusion.skipRandom, Diffusion.peekRandom;
  reduce_field Diffusion.env;
  reduce_field Diffusion.waterUniforms;
  reduce_field Diffusion.indicatorCanvas;
  reduce_field Diffusion._diffuseAccum;
  reduce_field Diffusion._concAccum;
  reduce_field Diffusion._lastMean;
  reduce_field Diffusion.pool;
  reduce_field Diffusion.points;
  reduce_field Diffusion.plumeConfig;
  reduce_field Diffusion._bottomInjecting;
  reduce_field Diffusion.spawnQueue;
  reduce_field Diffusion._bottomPlumeDisabled;
  reduce_field Diffusion.bottomPlumeOffset;
  reduce_field Diffusion._debugForce;
  reduce_field Diffusion._debugT;
  reduce_field Diffusion._spawnAccum;
  reduce_field Diffusion.randomTape;
  reduce_field Diffusion.randomPos.

Lemma plumeConfig_setPlumeConfig (a : Diffusion.ConfigArgs) (m : Diffusion.Manager) :
  Diffusion.plumeConfig (Diffusion.setPlumeConfig a m)
  = Diffusion.setPlumeConfig_fields a (Diffusion.plumeConfig m).
Proof.
  unfold Diffusion.setPlumeConfig, Diffusion.applyPlumeUniforms, Diffusion.ensurePoints.
  msimpl.
  destruct (Diffusion.a_requireIndicator a), (Diffusion.points m) eqn:E;
    repeat (msimpl; rewrite ?E); reflexivity.
Qed.

(** ** What [update] leaves alone *)

Lemma sameSetup_refl (m : Diffusion.Manager) : sameSetup m m.
Proof. unfold sameSetup. repeat split. Qed.

Lemma sameSetup_trans (a b c : Diffusion.Manager) :
  sameSetup a b -> sameSetup b c -> sameSetup a c.
Proof.
  unfold sameSetup.
  intros (e1 & c1 & d1 & f1 & t1 & l1) (e2 & c2 & d2 & f2 & t2 & l2).
  repeat split; congruence.
Qed.

Lemma sameSetup_ensurePoints (m : Diffusion.Manager) :
  sameSetup m (Diffusion.ensurePoints m).
Proof.
  unfold Diffusion.ensurePoints, sameSetup.
  destruct (Diffusion.points m); msimpl; repeat split.
Qed.

Lemma sameSetup_addSource (x z : R) (n : Z) (m : Diffusion.Manager) :
  sameSetup m (Diffusion.addSource x z n m).
Proof.
  unfold Diffusion.addSource, Diffusion.ensurePoints, sameSetup.
  destruct (Diffusion.points m); msimpl; repeat split.
Qed.

Lemma sameSetup_spawnParticle (x z : R) (c : Diffusion.RGB) (gated : bool)
      (m : Diffusion.Manager) :
  sameSetup m (Diffusion.spawnParticle x z c gated m).
Proof.
  unfold Diffusion.spawnParticle, sameSetup.
  destruct (negb _); [repeat split |].
  destruct (Diffusion.scanPool _ _ _ _) as [idx active].
  destruct (Rgeb _ _); [repeat split |].
  destruct (match idx with Some i => Some i | None => _ end); msimpl; repeat split.
Qed.

(** A property of the manager that survives the elementary writes of
    the spawn phase survives the spawn phase. *)
Section SpawnPhasePreserves.
Variable P : Diffusion.Manager -> Prop.
Hypothesis P_points : forall v m, P m -> P (Diffusion.set_points v m).
Hypothesis P_injecting : forall b m, P m -> P (Diffusion.set_bottomInjecting b m).
Hypothesis P_skip : forall k m, P m -> P (Diffusion.skipRandom k m).
Hypothesis P_accum : forall a m, P m -> P (Diffusion.set_spawnAccum a m).
Hypothesis P_queue : forall q m, P m -> P (Diffusion.set_spawnQueue q m).
Hypothesis P_spawn :
  forall x z c gated m, P m -> P (Diffusion.spawnParticle x z c gated m).

Lemma globalGate_preserves (m : Diffusion.Manager) :
  P m -> P (snd (Diffusion.globalGate m)).
Proof.
  intros H. unfold Diffusion.globalGate.
  destruct (Diffusion.points m); [destruct (Rgtb _ _) |]; cbn [snd]; auto.
Qed.

Lemma localGate_preserves (g : Diffusion.Grid) (r : Diffusion.Request)
      (m : Diffusion.Manager) :
  P m -> P (snd (Diffusion.localGate g r m)).
Proof.
  intros H. unfold Diffusion.localGate.
  destruct (Rgeb _ _); cbn [snd]; auto.
Qed.

Lemma drainOne_preserves (r : Diffusion.Request) (g : Diffusion.Grid)
      (m : Diffusion.Manager) :
  P m -> P (fst (Diffusion.drainOne r g m)).
Proof.
  intros H. unfold Diffusion.drainOne.
  set (m1 := if Diffusion.bottom r then _ else m).
  assert (H1 : P m1) by (subst m1; destruct (Diffusion.bottom r); auto).
  pose proof (globalGate_preserves m1 H1) as H2.
  destruct (Diffusion.globalGate m1) as [allow1 m2]. cbn [snd] in H2.
  assert (H3 : P (snd (if allow1 then Diffusion.localGate g r m2 else (false, m2)))).
  { destruct allow1; [apply localGate_preserves; exact H2 | exact H2]. }
  destruct (if allow1 then _ else _) as [allow m3]. cbn [snd] in H3.
  destruct allow; cbn [fst]; destruct (Diffusion.bottom r); auto.
Qed.

Lemma drainQueue_preserves (budget : nat) :
  forall (g : Diffusion.Grid) (m : Diffusion.Manager),
    P m -> P (fst (Diffusion.drainQueue budget g m)).
Proof.
  induction budget as [| n IH]; intros g m H; cbn [Diffusion.drainQueue].
  - exact H.
  - destruct (Diffusion.spawnQueue m) as [| r rest] eqn:Hq; [exact H |].
    pose proof (drainOne_preserves r g m H) as H1.
    destruct (Diffusion.drainOne r g m) as [m1 g1]. cbn [fst] in H1.
    apply IH. apply P_queue. exact H1.
Qed.

Lemma spawnBudget_preserves (dt : R) (m : Diffusion.Manager) :
  P m -> P (snd (Diffusion.spawnBudget dt m)).
Proof.
  intros H. unfold Diffusion.spawnBudget.
  destruct (_ && _); cbn [snd]; auto.
Qed.

Lemma spawnPhase_preserves (dt : R) (m : Diffusion.Manager) :
  P m -> P (Diffusion.spawnPhase dt m).
Proof.
  intros H. unfold Diffusion.spawnPhase.
  pose proof (spawnBudget_preserves dt m H) as H1.
  destruct (Diffusion.spawnBudget dt m) as [budget m1]. cbn [snd] in H1.
  apply drainQueue_preserves. exact H1.
Qed.
End SpawnPhasePreserves.

Lemma sameSetup_spawnPhase (dt : R) (m : Diffusion.Manager) :
  sameSetup m (Diffusion.spawnPhase dt m).
Proof.
  apply (spawnPhase_preserves (sameSetup m)); try apply sameSetup_refl;
    intros; try (eapply sameSetup_trans; [eassumption |]);
    try apply sameSetup_spawnParticle; unfold sameSetup; msimpl; repeat split.
Qed.

Lemma sameSetup_integrate (dt : R) (m : Diffusion.Manager) :
  sameSetup m (Diffusion.integrate dt m).
Proof.
  unfold Diffusion.integrate.
  destruct (Diffusion.integratePool _ _ _ _). unfold sameSetup. msimpl. repeat split.
Qed.

Lemma sameSetup_debugTick (dt : R) (m : Diffusion.Manager) :
  sameSetup m (Diffusion.debugTick dt m).
Proof.
  unfold Diffusion.debugTick.
  destruct (Diffusion._debugForce m); [| apply sameSetup_refl].
  destruct (Rgtb _ _).
  - eapply sameSetup_trans; [| apply sameSetup_addSource].
    unfold sameSetup. msimpl. repeat split.
  - unfold sameSetup. msimpl. repeat split.
Qed.

Lemma sameSetup_update (dt : R) (m : Diffusion.Manager) :
  sameSetup m (Diffusion.update dt m).
Proof.
  unfold Diffusion.update.
  pose proof (sameSetup_debugTick dt m) as H0.
  destruct (Diffusion.points (Diffusion.debugTick dt m)); [| exact H0].
  eapply sameSetup_trans; [exact H0 |].
  eapply sameSetup_trans; [apply sameSetup_spawnPhase | apply sameSetup_integrate].
Qed.

Lemma plumeConfig_step (dt : R) (m : Diffusion.Manager) :
  Diffusion.plumeConfig (Diffusion.step dt m) = Diffusion.plumeConfig m.
Proof.
  unfold Diffusion.step.
  destruct (negb _); [reflexivity |]. cbv zeta.
  match goal with
  | |- context [match ?x with Some _ => _ | None => _ end] => destruct x
  end; destruct (Diffusion.stepResamples dt m); reflexivity.
Qed.

Lemma sameLimits_refl (c : Diffusion.PlumeConfig) : sameLimits c c.
Proof. unfold sameLimits. repeat split. Qed.

Lemma sameLimits_eq (c c' : Diffusion.PlumeConfig) : c' = c -> sameLimits c c'.
Proof. intros ->. apply sameLimits_refl. Qed.

Lemma configOk_sameLimits (c c' : Diffusion.PlumeConfig) :
  sameLimits c c' -> configOk c -> configOk c'.
Proof.
  unfold sameLimits, configOk.
  intros (-> & -> & -> & -> & -> & -> & -> & -> & ->). auto.
Qed.

Lemma plumeConfig_setPlumeColor (c : option Z) (m : Diffusion.Manager) :
  Diffusion.plumeConfig (Diffusion.setPlumeColor c m) = Diffusion.plumeConfig m.
Proof.
  unfold Diffusion.setPlumeColor, Diffusion.ensurePoints. msimpl.
  destruct (Diffusion.points m); reflexivity.
Qed.

Lemma sameLimits_setPlumeStyle (a : Diffusion.StyleArgs) (m : Diffusion.Manager) :
  sameLimits (Diffusion.plumeConfig m)
             (Diffusion.plumeConfig (Diffusion.setPlumeStyle a m)).
Proof.
  unfold Diffusion.setPlumeStyle, Diffusion.ensurePoints. msimpl.
  destruct (Diffusion.points m) eqn:E; repeat (msimpl; rewrite ?E);
    unfold sameLimits; repeat split.
Qed.

Lemma sameLimits_runOp (m : Diffusion.Manager) (o : Diffusion.Op) :
  Diffusion.isSetPlumeConfig o = false ->
  sameLimits (Diffusion.plumeConfig m) (Diffusion.plumeConfig (Diffusion.runOp m o)).
Proof.
  destruct o; cbn [Diffusion.isSetPlumeConfig Diffusion.runOp]; intros H;
    try discriminate; try (apply sameLimits_setPlumeStyle); try (apply sameLimits_eq).
  - reflexivity.
  - apply plumeConfig_step.
  - apply (sameSetup_addSource x z n m).
  - unfold Diffusion.addBottomSource, Diffusion.ensurePoints.
    destruct (Diffusion._bottomPlumeDisabled m); [reflexivity |].
    destruct (Diffusion.points m); reflexivity.
  - apply (sameSetup_update dt m).
  - unfold Diffusion.reset. msimpl. destruct (Diffusion.waterUniforms m); reflexivity.
  - apply plumeConfig_setPlumeColor.
  - unfold Diffusion.clearPlume. destruct (Diffusion.points m); reflexivity.
  - unfold Diffusion.clearBottomPlumeParticles.
    destruct (Diffusion.points m); reflexivity.
  - unfold Diffusion.fadeOutBottomPlumes. destruct (Diffusion.points m); reflexivity.
  - unfold Diffusion.disableBottomPlumes. destruct clearExistingQueue; reflexivity.
  - reflexivity.
  - reflexivity.
  - unfold Diffusion.disablePlumeDebug. msimpl. rewrite plumeConfig_setPlumeColor.
    reflexivity.
Qed.

Lemma plumeConfig_set_points (v : option Diffusion.Uniforms) (m : Diffusion.Manager) :
  Diffusion.plumeConfig (Diffusion.set_points v m) = Diffusion.plumeConfig m.
Proof. reflexivity. Qed.

Lemma plumeConfig_set_debugForce (v : bool) (m : Diffusion.Manager) :
  Diffusion.plumeConfig (Diffusion.set_debugForce v m) = Diffusion.plumeConfig m.
Proof. reflexivity. Qed.

Lemma configOk_enablePlumeDebug (m : Diffusion.Manager) :
  configOk (Diffusion.plumeConfig m) ->
  configOk (Diffusion.plumeConfig (Diffusion.enablePlumeDebug m)).
Proof.
  intros H. unfold Diffusion.enablePlumeDebug. cbv zeta.
  rewrite plumeConfig_set_points, plumeConfig_setPlumeConfig. apply configOk_fields.
  eapply configOk_sameLimits; [apply sameLimits_setPlumeStyle |].
  rewrite plumeConfig_setPlumeColor, plumeConfig_set_debugForce.
  rewrite (proj1 (proj2 (sameSetup_ensurePoints m))). exact H.
Qed.

Lemma configOk_runOp (m : Diffusion.Manager) (o : Diffusion.Op) :
  configOk (Diffusion.plumeConfig m) ->
  configOk (Diffusion.plumeConfig (Diffusion.runOp m o)).
Proof.
  intros H. destruct (Diffusion.isSetPlumeConfig o) eqn:E.
  - destruct o; try discriminate; cbn [Diffusion.runOp].
    + rewrite plumeConfig_setPlumeConfig. apply configOk_fields. exact H.
    + apply configOk_enablePlumeDebug. exact H.
  - eapply configOk_sameLimits; [apply sameLimits_runOp; exact E | exact H].
Qed.

Lemma configOk_runOps (ops : list Diffusion.Op) :
  forall m, configOk (Diffusion.plumeConfig m) ->
            configOk (Diffusion.plumeConfig (Diffusion.runOps ops m)).
Proof.
  unfold Diffusion.runOps.
  induction ops as [| o ops IH]; intros m H; cbn [fold_left].
  - exact H.
  - apply IH. apply configOk_runOp. exact H.
Qed.

(** C10. On a manager reached from [createDiffusionManager] by any
    sequence of API calls, every [setPlumeConfig] call, whatever
    arguments it is given or not given, leaves the configuration within
    its bounds: [0 <= maxActive <= 1000], [lifeSeconds >= 0.05],
    [spawnRate >= 0], [spawnRateMultiplier >= 0],
    [ageSpreadStrength >= 0], [0 <= minAlpha <= 1],
    [0 <= suppressionProbability <= 1], [cellSize >= 0.01],
    [maxPerCell >= 1]; and every field whose argument is omitted keeps
    its value. *)
Theorem setPlumeConfig_keeps_bounds :
  forall (e : Diffusion.Env) (tape : nat -> R) (ops : list Diffusion.Op)
         (a : Diffusion.ConfigArgs),
    let m := Diffusion.runOps ops (Diffusion.createDiffusionManager e tape) in
    configOk (Diffusion.plumeConfig (Diffusion.setPlumeConfig a m)) /\
    omittedUnchanged a (Diffusion.plumeConfig m)
                     (Diffusion.plumeConfig (Diffusion.setPlumeConfig a m)).
Proof.
  intros e tape ops a m. rewrite plumeConfig_setPlumeConfig. split.
  - apply configOk_fields. subst m. apply configOk_runOps. apply configOk_default.
  - apply omittedUnchanged_fields.
Qed.

(** ** The spawn budget *)





Lemma queuedManager_queue :
  Diffusion.spawnQueue queuedManager
  = [Diffusion.mkRequest 0 0 60 false None None].
Proof. reflexivity. Qed.



(** ** The global concentration *)

Lemma canvasMean_nonneg (data : list nat) : 0 <= Diffusion.canvasMean data.
Proof.
  unfold Diffusion.canvasMean, Diffusion.indicatorSize.
  apply Rmult_le_pos; [apply pos_INR |].
  apply Rlt_le, Rinv_0_lt_compat.
  assert (H : 0 < INR 256) by (apply lt_0_INR; lia). nra.
Qed.

Lemma stepMean_nonneg (dt : R) (m : Diffusion.Manager) :
  0 <= Diffusion._lastMean m -> 0 <= Diffusion.stepMean dt m.
Proof.
  intros H. unfold Diffusion.stepMean.
  destruct (Diffusion.stepResamples dt m); [apply canvasMean_nonneg | exact H].
Qed.


Lemma globalConc_step (dt : R) (m : Diffusion.Manager) (c : R) :
  Diffusion.globalConc m = Some c ->
  Diffusion.globalConc (Diffusion.step dt m)
  = Some (if Diffusion.stepExecutes dt m then Diffusion.stepConc dt m c else c).
Proof.
  unfold Diffusion.globalConc, Diffusion.step. intros H.
  destruct (Diffusion.waterUniforms m) as [w |] eqn:Hw; [| discriminate].
  cbn [option_map] in H. injection H as <-.
  destruct (Diffusion.stepExecutes dt m); cbn [negb].
  - cbv zeta. destruct (Diffusion.stepResamples dt m); msimpl; rewrite Hw;
      msimpl; reflexivity.
  - msimpl. rewrite Hw. reflexivity.
Qed.



Lemma lastMean_step (dt : R) (m : Diffusion.Manager) :
  0 <= Diffusion._lastMean m -> 0 <= Diffusion._lastMean (Diffusion.step dt m).
Proof.
  intros H. unfold Diffusion.step.
  destruct (negb _); [exact H |]. cbv zeta.
  pose proof (stepMean_nonneg dt m H) as Hm.
  match goal with
  | |- context [match ?x with Some _ => _ | None => _ end] => destruct x
  end; destruct (Diffusion.stepResamples dt m); msimpl; assumption.
Qed.

Lemma lastMean_ensurePoints (m : Diffusion.Manager) :
  Diffusion._lastMean (Diffusion.ensurePoints m) = Diffusion._lastMean m.
Proof. apply (sameSetup_ensurePoints m). Qed.

Lemma lastMean_setPlumeColor (c : option Z) (m : Diffusion.Manager) :
  Diffusion._lastMean (Diffusion.setPlumeColor c m) = Diffusion._lastMean m.
Proof.
  unfold Diffusion.setPlumeColor. cbv zeta. msimpl. apply lastMean_ensurePoints.
Qed.

Lemma lastMean_setPlumeStyle (a : Diffusion.StyleArgs) (m : Diffusion.Manager) :
  Diffusion._lastMean (Diffusion.setPlumeStyle a m) = Diffusion._lastMean m.
Proof.
  unfold Diffusion.setPlumeStyle. cbv zeta.
  destruct (Diffusion.points (Diffusion.ensurePoints m)); msimpl;
    apply lastMean_ensurePoints.
Qed.

Lemma lastMean_setPlumeConfig (a : Diffusion.ConfigArgs) (m : Diffusion.Manager) :
  Diffusion._lastMean (Diffusion.setPlumeConfig a m) = Diffusion._lastMean m.
Proof.
  unfold Diffusion.setPlumeConfig, Diffusion.applyPlumeUniforms, Diffusion.ensurePoints.
  msimpl.
  destruct (Diffusion.a_requireIndicator a), (Diffusion.points m) eqn:E;
    repeat (msimpl; rewrite ?E); reflexivity.
Qed.

Lemma lastMean_set_points (v : option Diffusion.Uniforms) (m : Diffusion.Manager) :
  Diffusion._lastMean (Diffusion.set_points v m) = Diffusion._lastMean m.
Proof. reflexivity. Qed.

Lemma lastMean_set_debugForce (v : bool) (m : Diffusion.Manager) :
  Diffusion._lastMean (Diffusion.set_debugForce v m) = Diffusion._lastMean m.
Proof. reflexivity. Qed.

(** Only [step] writes the last mean, and it writes a canvas mean. *)
Lemma lastMean_runOp (m : Diffusion.Manager) (o : Diffusion.Op) :
  0 <= Diffusion._lastMean m -> 0 <= Diffusion._lastMean (Diffusion.runOp m o).
Proof.
  intros H. destruct o; cbn [Diffusion.runOp].
  - exact H.
  - apply lastMean_step. exact H.
  - rewrite (proj2 (proj2 (proj2 (proj2 (proj2 (sameSetup_addSource x z n m)))))).
    exact H.
  - unfold Diffusion.addBottomSource.
    destruct (Diffusion._bottomPlumeDisabled m); [exact H |]. cbv zeta. msimpl.
    rewrite lastMean_ensurePoints. exact H.
  - rewrite (proj2 (proj2 (proj2 (proj2 (proj2 (sameSetup_update dt m)))))). exact H.
  - unfold Diffusion.reset. cbv zeta. msimpl.
    destruct (Diffusion.waterUniforms m); exact H.
  - rewrite lastMean_setPlumeStyle. exact H.
  - rewrite lastMean_setPlumeColor. exact H.
  - rewrite lastMean_setPlumeConfig. exact H.
  - unfold Diffusion.clearPlume. destruct (Diffusion.points m); exact H.
  - unfold Diffusion.clearBottomPlumeParticles. destruct (Diffusion.points m); exact H.
  - unfold Diffusion.fadeOutBottomPlumes. destruct (Diffusion.points m); exact H.
  - unfold Diffusion.disableBottomPlumes. destruct clearExistingQueue; exact H.
  - exact H.
  - exact H.
  - unfold Diffusion.enablePlumeDebug. cbv zeta.
    rewrite lastMean_set_points, lastMean_setPlumeConfig, lastMean_setPlumeStyle,
      lastMean_setPlumeColor, lastMean_set_debugForce, lastMean_ensurePoints.
    exact H.
  - unfold Diffusion.disablePlumeDebug. cbv zeta.
    rewrite lastMean_set_points, lastMean_setPlumeColor, lastMean_set_debugForce.
    exact H.
Qed.

(** On every manager reached through the API the last mean is not
    negative. *)
Lemma lastMean_runOps (e : Diffusion.Env) (tape : nat -> R) (ops : list Diffusion.Op) :
  0 <= Diffusion._lastMean
         (Diffusion.runOps ops (Diffusion.createDiffusionManager e tape)).
Proof.
  unfold Diffusion.runOps.
  assert (H0 : 0 <= Diffusion._lastMean (Diffusion.createDiffusionManager e tape))
    by (unfold Diffusion.createDiffusionManager; msimpl; lra).
  revert H0. generalize (Diffusion.createDiffusionManager e tape).
  induction ops as [| o ops IH]; intros m H; cbn [fold_left]; [exact H |].
  apply IH. apply lastMean_runOp. exact H.
Qed.





(** ** The bottom-plume lockout *)

Lemma nth_error_middle {A} (pre suf : list A) (x : A) :
  nth_error (pre ++ x :: suf) (length pre) = Some x.
Proof. induction pre as [| h t IH]; [reflexivity | exact IH]. Qed.

Lemma splice1_middle {A} (pre suf : list A) (x : A) :
  splice1 (length pre) (pre ++ x :: suf) = pre ++ suf.
Proof.
  induction pre as [| h t IH]; [reflexivity |].
  cbn [length app splice1]. rewrite IH. reflexivity.
Qed.

(** The backwards splice loop removes exactly the bottom requests it
    visits and keeps the others in order. *)
Lemma purgeBottom_prefix (pre : list Diffusion.Request) :
  forall suf, Diffusion.purgeBottom (length pre) (pre ++ suf)
              = filter notBottom pre ++ suf.
Proof.
  induction pre as [| r pre IH] using rev_ind; intros suf; [reflexivity |].
  rewrite length_app, Nat.add_comm. cbn [length Nat.add Diffusion.purgeBottom].
  rewrite <- app_assoc. cbn [app].
  rewrite nth_error_middle, filter_app. cbn [filter]. unfold notBottom at 2.
  destruct (Diffusion.bottom r); cbn [negb].
  - rewrite splice1_middle, IH, app_nil_r. reflexivity.
  - rewrite IH, <- app_assoc. reflexivity.
Qed.

Lemma purgeBottom_filter (q : list Diffusion.Request) :
  Diffusion.purgeBottom (length q) q = filter notBottom q.
Proof.
  rewrite <- (app_nil_r q) at 2. rewrite purgeBottom_prefix, app_nil_r. reflexivity.
Qed.

(** A queue of bottom, surface, bottom: only the surface request stays. *)
Example purgeBottom_mixed :
  let b := Diffusion.mkRequest 0 0 18 true None None in
  let s := Diffusion.mkRequest 0 0 60 false None None in
  Diffusion.purgeBottom 3 [b; s; b] = [s].
Proof. reflexivity. Qed.

Lemma filter_notBottom_all_bottom (q : list Diffusion.Request) :
  forallb Diffusion.bottom q = true -> filter notBottom q = [].
Proof.
  induction q as [| r q IH]; [reflexivity |].
  cbn [forallb filter]. unfold notBottom at 1.
  intros H. apply andb_true_iff in H as [Hr Hq]. rewrite Hr. cbn [negb]. auto.
Qed.

Lemma disabled_step (dt : R) (m : Diffusion.Manager) :
  Diffusion._bottomPlumeDisabled (Diffusion.step dt m)
  = Diffusion._bottomPlumeDisabled m.
Proof.
  unfold Diffusion.step.
  destruct (negb _); [reflexivity |]. cbv zeta.
  match goal with
  | |- context [match ?x with Some _ => _ | None => _ end] => destruct x
  end; destruct (Diffusion.stepResamples dt m); reflexivity.
Qed.

Lemma disabled_setPlumeColor (c : option Z) (m : Diffusion.Manager) :
  Diffusion._bottomPlumeDisabled (Diffusion.setPlumeColor c m)
  = Diffusion._bottomPlumeDisabled m.
Proof.
  unfold Diffusion.setPlumeColor, Diffusion.ensurePoints. msimpl.
  destruct (Diffusion.points m); reflexivity.
Qed.

Lemma disabled_setPlumeStyle (a : Diffusion.StyleArgs) (m : Diffusion.Manager) :
  Diffusion._bottomPlumeDisabled (Diffusion.setPlumeStyle a m)
  = Diffusion._bottomPlumeDisabled m.
Proof.
  unfold Diffusion.setPlumeStyle, Diffusion.ensurePoints. msimpl.
  destruct (Diffusion.points m) eqn:E; repeat (msimpl; rewrite ?E); reflexivity.
Qed.

Lemma disabled_setPlumeConfig (a : Diffusion.ConfigArgs) (m : Diffusion.Manager) :
  Diffusion._bottomPlumeDisabled (Diffusion.setPlumeConfig a m)
  = Diffusion._bottomPlumeDisabled m.
Proof.
  unfold Diffusion.setPlumeConfig, Diffusion.applyPlumeUniforms, Diffusion.ensurePoints.
  msimpl.
  destruct (Diffusion.a_requireIndicator a), (Diffusion.points m) eqn:E;
    repeat (msimpl; rewrite ?E); reflexivity.
Qed.

Lemma disabled_set_points (v : option Diffusion.Uniforms) (m : Diffusion.Manager) :
  Diffusion._bottomPlumeDisabled (Diffusion.set_points v m)
  = Diffusion._bottomPlumeDisabled m.
Proof. reflexivity. Qed.

Lemma disabled_runOp (m : Diffusion.Manager) (o : Diffusion.Op) :
  Diffusion.isEnableBottomPlumes o = false ->
  Diffusion._bottomPlumeDisabled m = true ->
  Diffusion._bottomPlumeDisabled (Diffusion.runOp m o) = true.
Proof.
  destruct o; cbn [Diffusion.isEnableBottomPlumes Diffusion.runOp]; intros H Hd;
    try discriminate.
  - exact Hd.
  - rewrite disabled_step. exact Hd.
  - rewrite <- Hd. apply (sameSetup_addSource x z n m).
  - unfold Diffusion.addBottomSource. rewrite Hd. exact Hd.
  - rewrite <- Hd. apply (sameSetup_update dt m).
  - rewrite <- Hd. unfold Diffusion.reset. cbv zeta.
    destruct (Diffusion.waterUniforms _); reflexivity.
  - rewrite disabled_setPlumeStyle. exact Hd.
  - rewrite disabled_setPlumeColor. exact Hd.
  - rewrite disabled_setPlumeConfig. exact Hd.
  - rewrite <- Hd. unfold Diffusion.clearPlume.
    destruct (Diffusion.points m); reflexivity.
  - rewrite <- Hd. unfold Diffusion.clearBottomPlumeParticles.
    destruct (Diffusion.points m); reflexivity.
  - rewrite <- Hd. unfold Diffusion.fadeOutBottomPlumes.
    destruct (Diffusion.points m); reflexivity.
  - unfold Diffusion.disableBottomPlumes. destruct clearExistingQueue; reflexivity.
  - exact Hd.
  - unfold Diffusion.enablePlumeDebug. cbv zeta.
    rewrite disabled_set_points, disabled_setPlumeConfig, disabled_setPlumeStyle,
      disabled_setPlumeColor.
    rewrite <- Hd. apply (sameSetup_ensurePoints m).
  - unfold Diffusion.disablePlumeDebug. cbv zeta.
    rewrite disabled_set_points, disabled_setPlumeColor. exact Hd.
Qed.

Lemma disabled_runOps (ops : list Diffusion.Op) :
  forall m,
    forallb (fun o => negb (Diffusion.isEnableBottomPlumes o)) ops = true ->
    Diffusion._bottomPlumeDisabled m = true ->
    Diffusion._bottomPlumeDisabled (Diffusion.runOps ops m) = true.
Proof.
  unfold Diffusion.runOps.
  induction ops as [| o ops IH]; intros m H Hd; cbn [fold_left]; [exact Hd |].
  cbn [forallb] in H. apply andb_true_iff in H as [Ho Hrest].
  apply IH; [exact Hrest |]. apply disabled_runOp; [| exact Hd].
  apply negb_true_iff. exact Ho.
Qed.

(** C8. [disableBottomPlumes({clearExistingQueue:true})] removes every
    bottom request from the spawn queue and keeps the other requests in
    order, so a queue of bottom requests only becomes empty; and after
    it, through any sequence of API calls that does not contain
    [enableBottomPlumes()], every [addBottomSource] call returns the
    manager unchanged. *)
Theorem disableBottomPlumes_purges_and_locks :
  forall (m : Diffusion.Manager) (ops : list Diffusion.Op),
    forallb (fun o => negb (Diffusion.isEnableBottomPlumes o)) ops = true ->
    let m1 := Diffusion.disableBottomPlumes true m in
    let m2 := Diffusion.runOps ops m1 in
    Diffusion.spawnQueue m1 = filter notBottom (Diffusion.spawnQueue m) /\
    (forallb Diffusion.bottom (Diffusion.spawnQueue m) = true ->
     Diffusion.spawnQueue m1 = []) /\
    (forall x z n o, Diffusion.addBottomSource x z n o m2 = m2) /\
    (forall x z n o,
        length (Diffusion.spawnQueue
                  (Diffusion.addBottomSource x z n o (Diffusion.enableBottomPlumes m2)))
        = S (length (Diffusion.spawnQueue m2))).
Proof.
  intros m ops Hops m1 m2.
  assert (Hq : Diffusion.spawnQueue m1 = filter notBottom (Diffusion.spawnQueue m)).
  { subst m1. unfold Diffusion.disableBottomPlumes. msimpl.
    apply purgeBottom_filter. }
  split; [exact Hq | split; [| split]].
  - intros Hall. rewrite Hq. apply filter_notBottom_all_bottom. exact Hall.
  - intros x z n o. unfold Diffusion.addBottomSource.
    subst m2. rewrite disabled_runOps; [reflexivity | exact Hops |].
    subst m1. reflexivity.
  - intros x z n o. unfold Diffusion.addBottomSource, Diffusion.enableBottomPlumes,
      Diffusion.ensurePoints.
    msimpl. destruct (Diffusion.points m2) eqn:E; repeat (msimpl; rewrite ?E);
      rewrite length_app, Nat.add_comm; reflexivity.
Qed.

Lemma fiveBottomManager_queue :
  forallb Diffusion.bottom (Diffusion.spawnQueue fiveBottomManager) = true /\
  length (Diffusion.spawnQueue fiveBottomManager) = 5%nat.
Proof. split; reflexivity. Qed.

(** Scenario B: five queued bottom requests are purged, and a later
    [addBottomSource] is ignored. *)
Lemma disableBottomPlumes_purges_and_locks_witness :
  let ops := [Diffusion.OpAddBottomSource 0 0 18 Diffusion.defaultBottomOpts;
              Diffusion.OpUpdate 0.1;
              Diffusion.OpAddSource 0 0 60] in
  let m1 := Diffusion.disableBottomPlumes true fiveBottomManager in
  let m2 := Diffusion.runOps ops m1 in
  forallb (fun o => negb (Diffusion.isEnableBottomPlumes o)) ops = true /\
  Diffusion.spawnQueue m1 = [] /\
  Diffusion.addBottomSource 0 0 18 Diffusion.defaultBottomOpts m2 = m2.
Proof.
  intros ops m1 m2.
  assert (Hops : forallb (fun o => negb (Diffusion.isEnableBottomPlumes o)) ops = true)
    by reflexivity.
  destruct (disableBottomPlumes_purges_and_locks fiveBottomManager ops Hops)
    as (_ & Hempty & Hnoop & _).
  split; [exact Hops | split].
  - apply Hempty. exact (proj1 fiveBottomManager_queue).
  - apply Hnoop.
Defined.

(** ** Powder: no indicator, no bottom plume *)

Lemma bottomSourceCalls_app (a b : list Powder.Call) :
  Powder.bottomSourceCalls (a ++ b)
  = Powder.bottomSourceCalls a ++ Powder.bottomSourceCalls b.
Proof. apply filter_app. Qed.

Lemma dropGrain_calls (dt : R) (b : Powder.Batch) (acc : Powder.DropAcc)
      (g : Powder.Grain) :
  Powder.bottomSourceCalls (Powder.accCalls acc) = [] ->
  Powder.bottomSourceCalls (Powder.accCalls (snd (Powder.dropGrain dt b acc g))) = [].
Proof.
  intros H. unfold Powder.dropGrain. cbv zeta.
  repeat match goal with
         | |- context [let '(_, _) := ?c in _] => destruct c
         end.
  cbn [snd Powder.accCalls]. rewrite bottomSourceCalls_app, H.
  destruct (_ && _); [| reflexivity].
  destruct (Powder.waterSurfaceY b); reflexivity.
Qed.

Lemma dropLoop_calls (dt : R) (b : Powder.Batch) (l : list Powder.Grain) :
  forall acc,
    Powder.bottomSourceCalls (Powder.accCalls acc) = [] ->
    Powder.bottomSourceCalls (Powder.accCalls (snd (Powder.dropLoop dt b acc l))) = [].
Proof.
  induction l as [| g rest IH]; intros acc H; cbn [Powder.dropLoop]; [exact H |].
  pose proof (dropGrain_calls dt b acc g H) as H1.
  destruct (Powder.dropGrain dt b acc g) as [g' acc1]. cbn [snd] in H1.
  specialize (IH acc1 H1).
  destruct (Powder.dropLoop dt b acc1 rest) as [rest' acc2]. exact IH.
Qed.

Lemma updateBatch_calls (dt : R) (n : nat) (b : Powder.Batch) :
  Powder.bottomSourceCalls (snd (Powder.updateBatch dt n b)) = [].
Proof.
  unfold Powder.updateBatch.
  destruct (Powder.dead b); [reflexivity |].
  destruct (_ && _); [reflexivity |].
  destruct (Powder.dropping b); [| reflexivity].
  unfold Powder.dropPhase.
  pose proof (dropLoop_calls dt b (Powder.grains b)
                (Powder.mkDropAcc (Powder.enterNotified b) 0 []) eq_refl) as H.
  destruct (Powder.dropLoop _ _ _ _) as [gs acc]. exact H.
Qed.

Lemma updateBatches_calls (dt : R) (n : nat) (bs : list Powder.Batch) :
  Powder.bottomSourceCalls (snd (Powder.updateBatches dt n bs)) = [].
Proof.
  induction bs as [| b rest IH]; cbn [Powder.updateBatches]; [reflexivity |].
  pose proof (updateBatch_calls dt n b) as H.
  destruct (Powder.updateBatch dt n b) as [b' c1].
  destruct (Powder.updateBatches dt n rest) as [rest' c2].
  cbn [snd] in *. rewrite bottomSourceCalls_app, H, IH. reflexivity.
Qed.

Lemma fallbackSources_calls (k : nat) (wx wz : R) (tape : nat -> R) :
  forall pos, Powder.bottomSourceCalls (Powder.fallbackSources k wx wz tape pos) = [].
Proof.
  induction k as [| k IH]; intros pos; cbn [Powder.fallbackSources]; [reflexivity |].
  unfold Powder.bottomSourceCalls. cbn [filter Powder.isBottomCall]. apply IH.
Qed.

Lemma emitLoop_gated (s : Powder.System) (d : Powder.Handle) (bs : list Powder.Batch) :
  Powder.isIndicatorEnabled d = Some false ->
  Powder.bottomSourceCalls (fst (Powder.emitLoop s d bs)) = [].
Proof.
  intros Hd. induction bs as [| b rest IH]; cbn [Powder.emitLoop]; [reflexivity |].
  destruct (_ || _); [exact IH |].
  destruct (Nat.ltb _ _); [exact IH |].
  unfold Powder.emitFrom.
  destruct (Powder.settledSums (Powder.grains b)) as [[sx sz] sc].
  destruct (Powder._beakerGroup b);
    (destruct (Powder.has_addBottomSource d);
     [rewrite Hd; reflexivity | apply fallbackSources_calls]).
Qed.

(** C1. When the object attached with [setDiffusionManager] answers
    [false] to [isIndicatorEnabled()], a call to [update(dt)] makes no
    call to [addBottomSource], whatever the batches and however many
    grains have settled. *)
Theorem no_indicator_no_bottom_source :
  forall (dt : R) (s : Powder.System) (d : Powder.Handle),
    Powder.diffusion s = Some d ->
    Powder.isIndicatorEnabled d = Some false ->
    Powder.bottomSourceCalls (snd (Powder.update dt s)) = [].
Proof.
  intros dt s d Hs Hd. unfold Powder.update.
  pose proof (updateBatches_calls dt (Powder.count s) (Powder.batches s)) as H1.
  destruct (Powder.updateBatches _ _ _) as [bs c1]. cbn [snd] in H1.
  unfold Powder.emitPhase. cbn [Powder.diffusion Powder.batches Powder.plumeSpawnAccum].
  rewrite Hs.
  destruct (existsb Powder.swirling bs);
    [cbn [snd]; rewrite bottomSourceCalls_app, H1; reflexivity |].
  destruct (Rgeb _ _);
    [| cbn [snd]; rewrite bottomSourceCalls_app, H1; reflexivity].
  match goal with
  | |- context [Powder.emitLoop ?s1 d bs] =>
      pose proof (emitLoop_gated s1 d bs Hd) as H2;
      destruct (Powder.emitLoop s1 d bs) as [calls used]
  end.
  cbn [fst snd] in *. rewrite bottomSourceCalls_app, H1, H2. reflexivity.
Qed.

Lemma boundManager_indicator_off :
  Powder.isIndicatorEnabled (Powder.handleOf boundManager) = Some false.
Proof.
  unfold Powder.handleOf. cbn [Powder.isIndicatorEnabled]. f_equal.
  change (Diffusion.isIndicatorEnabled boundManager) with (Rgtb 0 0.5).
  apply Rgtb_false. lra.
Qed.

(** Scenario C: 25 settled grains, indicator off, one throttle interval. *)
Lemma no_indicator_no_bottom_source_witness :
  Powder.diffusion scenarioC = Some (Powder.handleOf boundManager) /\
  Powder.isIndicatorEnabled (Powder.handleOf boundManager) = Some false /\
  Powder.settledCount (Powder.grains idleBatch) = 25%nat /\
  Powder.bottomSourceCalls (snd (Powder.update 0.12 scenarioC)) = [].
Proof.
  split; [reflexivity | split; [exact boundManager_indicator_off | split]].
  - reflexivity.
  - exact (no_indicator_no_bottom_source 0.12 scenarioC
             (Powder.handleOf boundManager) eq_refl boundManager_indicator_off).
Defined.

(** The same batch with the indicator on does emit: the gate, not the
    batch, is what keeps scenario C silent. *)
Lemma indicator_on_emits :
  length (Powder.bottomSourceCalls (snd (Powder.update 0.12 scenarioCOn))) = 1%nat.
Proof.
  unfold scenarioCOn.
  unfold Powder.update. cbn [Powder.batches Powder.count Powder.updateBatches].
  assert (Hb : Powder.updateBatch 0.12 25 idleBatch = (idleBatch, [])) by reflexivity.
  rewrite Hb. cbn [app].
  unfold Powder.emitPhase.
  cbn [Powder.diffusion Powder.batches existsb Powder.swirling idleBatch orb
       Powder.plumeSpawnAccum].
  assert (Hge : Rgeb (0 + 0.12) Powder.plumeSpawnInterval = true)
    by (apply Rgeb_true; unfold Powder.plumeSpawnInterval; lra).
  rewrite Hge.
  match goal with
  | |- context [Powder.emitLoop ?s1 ?d ?bs] =>
      assert (He : exists lx lz o,
                 Powder.emitLoop s1 d bs = ([Powder.CallAddBottomSource lx lz 18 o], O))
  end.
  { cbn [Powder.emitLoop].
    change (negb (Powder.visible idleBatch) || Powder.dropping idleBatch) with false.
    change (Nat.ltb (Powder.settledCount (Powder.grains idleBatch)) 20) with false.
    cbv iota. unfold Powder.emitFrom.
    destruct (Powder.settledSums (Powder.grains idleBatch)) as [[sx sz] sc].
    cbn [Powder._beakerGroup idleBatch Powder.has_addBottomSource
         Powder.isIndicatorEnabled].
    eexists _, _, _. reflexivity. }
  destruct He as (lx & lz & o & He). rewrite He. reflexivity.
Qed.

(** ** Powder: the end of the dropping state *)

Lemma settledCount_cons (g : Powder.Grain) (l : list Powder.Grain) :
  Powder.settledCount (g :: l)
  = ((if Powder.settled g then 1 else 0) + Powder.settledCount l)%nat.
Proof.
  unfold Powder.settledCount. cbn [Powder.settledSums].
  destruct (Powder.settledSums l) as [[sx sz] sc].
  destruct (Powder.settled g); reflexivity.
Qed.









(** ** The particle pool *)

Lemma scanPool_active (l : list Diffusion.Particle) :
  forall i idx a,
    snd (Diffusion.scanPool l i idx a) = (a + Diffusion.activeCount l)%nat.
Proof.
  induction l as [| p rest IH]; intros i idx a;
    cbn [Diffusion.scanPool Diffusion.activeCount].
  - cbn [snd]. lia.
  - destruct (Rgtb (Diffusion.life p) 0); rewrite IH; lia.
Qed.

Lemma scanPool_idx_some (l : list Diffusion.Particle) :
  forall i k a, fst (Diffusion.scanPool l i (Some k) a) = Some k.
Proof.
  induction l as [| p rest IH]; intros i k a; cbn [Diffusion.scanPool]; [reflexivity |].
  destruct (Rgtb (Diffusion.life p) 0); apply IH.
Qed.

(** The slot chosen by the scan is not live. *)
Lemma scanPool_idx_dead (l : list Diffusion.Particle) :
  forall i a j,
    fst (Diffusion.scanPool l i None a) = Some j ->
    (i <= j)%nat /\
    exists q, nth_error l (j - i) = Some q /\ Diffusion.life q <= 0.
Proof.
  induction l as [| p rest IH]; intros i a j; cbn [Diffusion.scanPool].
  - discriminate.
  - cmp_case (Rgtb (Diffusion.life p) 0).
    + intros H. destruct (IH _ _ _ H) as (Hle & q & Hq & Hd).
      split; [lia |]. exists q. split; [| exact Hd].
      replace (j - i)%nat with (S (j - S i)) by lia. exact Hq.
    + rewrite scanPool_idx_some. intros H. injection H as <-.
      split; [lia |]. exists p. rewrite Nat.sub_diag. split; [reflexivity | exact Hcmp].
Qed.

Lemma findFree_dead (l : list Diffusion.Particle) :
  forall i j,
    Diffusion.findFree l i = Some j ->
    (i <= j)%nat /\
    exists q, nth_error l (j - i) = Some q /\ Diffusion.life q <= 0.
Proof.
  induction l as [| p rest IH]; intros i j; cbn [Diffusion.findFree].
  - discriminate.
  - cmp_case (Rleb (Diffusion.life p) 0).
    + intros H. injection H as <-. split; [lia |].
      exists p. rewrite Nat.sub_diag. split; [reflexivity | exact Hcmp].
    + intros H. destruct (IH _ _ H) as (Hle & q & Hq & Hd).
      split; [lia |]. exists q. split; [| exact Hd].
      replace (j - i)%nat with (S (j - S i)) by lia. exact Hq.
Qed.

Lemma activeCount_setNth (l : list Diffusion.Particle) :
  forall i p,
    (Diffusion.activeCount (setNth i p l) <= S (Diffusion.activeCount l))%nat.
Proof.
  induction l as [| q rest IH]; intros i p; cbn [setNth Diffusion.activeCount].
  - destruct i; cbn [setNth Diffusion.activeCount]; lia.
  - destruct i as [| i]; cbn [setNth Diffusion.activeCount].
    + destruct (Rgtb (Diffusion.life p) 0), (Rgtb (Diffusion.life q) 0); lia.
    + specialize (IH i p). destruct (Rgtb (Diffusion.life q) 0); lia.
Qed.

Lemma nth_error_setNth_other {A} (l : list A) :
  forall i j x, i <> j -> nth_error (setNth i x l) j = nth_error l j.
Proof.
  induction l as [| h t IH]; intros i j x Hne.
  - destruct i; reflexivity.
  - destruct i as [| i], j as [| j]; cbn [setNth nth_error]; try reflexivity;
      [congruence | apply IH; congruence].
Qed.

Lemma length_setNth {A} (l : list A) :
  forall i x, length (setNth i x l) = length l.
Proof.
  induction l as [| h t IH]; intros i x.
  - destruct i; reflexivity.
  - destruct i; cbn [setNth length]; [reflexivity | rewrite IH; reflexivity].
Qed.

(** What a call to [spawnParticle] does to the manager: nothing, or it
    overwrites one slot that was not live with a fresh particle and
    moves the tape by nine draws. *)
Lemma spawnParticle_cases (x z : R) (c : Diffusion.RGB) (gated : bool)
      (m : Diffusion.Manager) :
  Diffusion.spawnParticle x z c gated m = m \/
  exists i q,
    nth_error (Diffusion.pool m) i = Some q /\ Diffusion.life q <= 0 /\
    INR (Diffusion.activeCount (Diffusion.pool m))
    < Diffusion.maxActive (Diffusion.plumeConfig m) /\
    Diffusion.spawnParticle x z c gated m
    = Diffusion.skipRandom 9
        (Diffusion.set_pool
           (setNth i (Diffusion.freshParticle x z c gated m) (Diffusion.pool m)) m).
Proof.
  unfold Diffusion.spawnParticle.
  destruct (negb _); [left; reflexivity |].
  pose proof (scanPool_active (Diffusion.pool m) 0 None 0) as Hact.
  pose proof (scanPool_idx_dead (Diffusion.pool m) 0 0) as Hidx.
  destruct (Diffusion.scanPool (Diffusion.pool m) 0 None 0) as [idx active].
  cbn [fst snd] in Hact, Hidx. cbn [Nat.add] in Hact. subst active.
  cmp_case (Rgeb (INR (Diffusion.activeCount (Diffusion.pool m)))
                 (Diffusion.maxActive (Diffusion.plumeConfig m)));
    [left; reflexivity |].
  destruct idx as [i |].
  - right. destruct (Hidx i eq_refl) as (_ & q & Hq & Hd).
    rewrite Nat.sub_0_r in Hq. exists i, q. auto.
  - pose proof (findFree_dead (Diffusion.pool m) 0) as Hff.
    destruct (Diffusion.findFree (Diffusion.pool m) 0) as [i |];
      [| left; reflexivity].
    right. destruct (Hff i eq_refl) as (_ & q & Hq & Hd).
    rewrite Nat.sub_0_r in Hq. exists i, q. auto.
Qed.

(** The integration loop, slot by slot: a slot that is not live is left
    as it is, a live slot is replaced by [integrateParticle] of it. *)
Lemma integratePool_slot (dt : R) (m : Diffusion.Manager)
      (l : list Diffusion.Particle) :
  forall pos i p,
    nth_error l i = Some p ->
    exists p',
      nth_error (fst (Diffusion.integratePool dt m l pos)) i = Some p' /\
      (Diffusion.life p <= 0 -> p' = p) /\
      (0 < Diffusion.life p ->
       exists r0 r1 r2 r3, p' = Diffusion.integrateParticle dt m r0 r1 r2 r3 p).
Proof.
  induction l as [| q rest IH]; intros pos i p Hp.
  - destruct i; discriminate.
  - cbn [Diffusion.integratePool].
    cmp_case (Rleb (Diffusion.life q) 0).
    + specialize (IH pos).
      destruct (Diffusion.integratePool dt m rest pos) as [rest' pos'].
      cbn [fst] in *. destruct i as [| i]; cbn [nth_error] in *.
      * injection Hp as <-. exists q. split; [reflexivity | split; [auto |]].
        intros H. lra.
      * apply IH. exact Hp.
    + specialize (IH (pos + 4)%nat).
      destruct (Diffusion.integratePool dt m rest (pos + 4)) as [rest' pos'].
      cbn [fst] in *. destruct i as [| i]; cbn [nth_error] in *.
      * injection Hp as <-. eexists. split; [reflexivity | split].
        -- intros H. lra.
        -- intros _. eexists _, _, _, _. reflexivity.
      * apply IH. exact Hp.
Qed.

Lemma integratePool_length (dt : R) (m : Diffusion.Manager)
      (l : list Diffusion.Particle) :
  forall pos, length (fst (Diffusion.integratePool dt m l pos)) = length l.
Proof.
  induction l as [| q rest IH]; intros pos; [reflexivity |].
  cbn [Diffusion.integratePool].
  destruct (Rleb (Diffusion.life q) 0).
  - specialize (IH pos).
    destruct (Diffusion.integratePool dt m rest pos). cbn [fst length] in *. lia.
  - specialize (IH (pos + 4)%nat).
    destruct (Diffusion.integratePool dt m rest (pos + 4)). cbn [fst length] in *. lia.
Qed.

Lemma integratePool_active (dt : R) (m : Diffusion.Manager)
      (l : list Diffusion.Particle) :
  forall pos,
    (Diffusion.activeCount (fst (Diffusion.integratePool dt m l pos))
     <= Diffusion.activeCount l)%nat.
Proof.
  induction l as [| q rest IH]; intros pos; [cbn; lia |].
  cbn [Diffusion.integratePool Diffusion.activeCount].
  cmp_case (Rleb (Diffusion.life q) 0).
  - specialize (IH pos).
    destruct (Diffusion.integratePool dt m rest pos).
    cbn [fst Diffusion.activeCount] in *.
    destruct (Rgtb (Diffusion.life q) 0); lia.
  - specialize (IH (pos + 4)%nat).
    destruct (Diffusion.integratePool dt m rest (pos + 4)).
    cbn [fst Diffusion.activeCount] in *.
    assert (Hq : Rgtb (Diffusion.life q) 0 = true) by (apply Rgtb_true; exact Hcmp).
    rewrite Hq.
    match goal with |- context [if ?c then _ else _] => destruct c end; lia.
Qed.

Lemma pool_integrate (dt : R) (m : Diffusion.Manager) :
  Diffusion.pool (Diffusion.integrate dt m)
  = fst (Diffusion.integratePool dt m (Diffusion.pool m) (Diffusion.randomPos m)).
Proof.
  unfold Diffusion.integrate.
  destruct (Diffusion.integratePool _ _ _ _). reflexivity.
Qed.

(** ** The cap on live particles *)





Lemma life_killParticle (p : Diffusion.Particle) :
  Diffusion.life (Diffusion.killParticle p) = 0.
Proof. reflexivity. Qed.



Lemma pool_step (dt : R) (m : Diffusion.Manager) :
  Diffusion.pool (Diffusion.step dt m) = Diffusion.pool m.
Proof.
  unfold Diffusion.step.
  destruct (negb _); [reflexivity |]. cbv zeta.
  match goal with
  | |- context [match ?x with Some _ => _ | None => _ end] => destruct x
  end; destruct (Diffusion.stepResamples dt m); reflexivity.
Qed.

Lemma pool_setPlumeColor (c : option Z) (m : Diffusion.Manager) :
  Diffusion.pool (Diffusion.setPlumeColor c m) = Diffusion.pool m.
Proof.
  unfold Diffusion.setPlumeColor, Diffusion.ensurePoints. msimpl.
  destruct (Diffusion.points m); reflexivity.
Qed.

Lemma pool_setPlumeStyle (a : Diffusion.StyleArgs) (m : Diffusion.Manager) :
  Diffusion.pool (Diffusion.setPlumeStyle a m) = Diffusion.pool m.
Proof.
  unfold Diffusion.setPlumeStyle, Diffusion.ensurePoints. msimpl.
  destruct (Diffusion.points m) eqn:E; repeat (msimpl; rewrite ?E); reflexivity.
Qed.

Lemma life_resetParticle (p : Diffusion.Particle) :
  Diffusion.life (Diffusion.resetParticle p) = 0.
Proof. reflexivity. Qed.



Lemma activeCount_repeat_dead (n : nat) :
  Diffusion.activeCount (repeat Diffusion.deadParticle n) = 0%nat.
Proof.
  induction n as [| n IH]; [reflexivity |].
  cbn [repeat Diffusion.activeCount].
  assert (H : Rgtb (Diffusion.life Diffusion.deadParticle) 0 = false)
    by (apply Rgtb_false; cbn; lra).
  rewrite H. exact IH.
Qed.



Lemma pool_setPlumeConfig (a : Diffusion.ConfigArgs) (m : Diffusion.Manager) :
  Diffusion.pool (Diffusion.setPlumeConfig a m) = Diffusion.pool m.
Proof.
  unfold Diffusion.setPlumeConfig, Diffusion.applyPlumeUniforms, Diffusion.ensurePoints.
  msimpl.
  destruct (Diffusion.a_requireIndicator a), (Diffusion.points m) eqn:E;
    repeat (msimpl; rewrite ?E); reflexivity.
Qed.



(** ** Ageing and fading of one particle *)

Lemma integrateParticle_gate (dt : R) (m : Diffusion.Manager) (r0 r1 r2 r3 : R)
      (p : Diffusion.Particle) :
  Diffusion.gate (Diffusion.integrateParticle dt m r0 r1 r2 r3 p) = Diffusion.gate p.
Proof.
  unfold Diffusion.integrateParticle. cbv zeta.
  repeat match goal with
         | |- context [let '(a, b) := ?c in _] => destruct c as [? ?]
         end.
  reflexivity.
Qed.

Lemma decayedLife_nonneg (dt L l : R) : 0 <= decayedLife dt L l.
Proof. unfold decayedLife. cmp_case (Rltb (l - dt / L) 0); lra. Qed.

Lemma decayedLife_le (dt L l : R) :
  0 <= dt -> 0 < L -> 0 <= l -> decayedLife dt L l <= l.
Proof.
  intros Hdt HL Hl. unfold decayedLife.
  assert (0 <= dt / L) by (apply Rmult_le_pos; [lra | apply Rlt_le, Rinv_0_lt_compat; lra]).
  cmp_case (Rltb (l - dt / L) 0); lra.
Qed.

(** The life, fade timer and fade duration written by the integration
    loop, spelled out. *)
Lemma integrateParticle_life (dt : R) (m : Diffusion.Manager) (r0 r1 r2 r3 : R)
      (p : Diffusion.Particle) :
  let p' := Diffusion.integrateParticle dt m r0 r1 r2 r3 p in
  let l := decayedLife dt (Diffusion.lifeSeconds (Diffusion.plumeConfig m))
                       (Diffusion.life p) in
  0 <= Diffusion.life p' <= l /\
  (0.5 <= Diffusion.gate p \/ Diffusion.fadeDuration p <= 0 ->
   Diffusion.life p' = l /\
   Diffusion.fadeTimer p' = Diffusion.fadeTimer p /\
   Diffusion.fadeDuration p' = Diffusion.fadeDuration p) /\
  (Diffusion.gate p < 0.5 -> 0 < Diffusion.fadeDuration p ->
   Diffusion.fadeTimer p' = Diffusion.fadeTimer p + dt /\
   (Diffusion.fadeDuration p <= Diffusion.fadeTimer p + dt -> Diffusion.life p' = 0) /\
   (Diffusion.fadeTimer p + dt < Diffusion.fadeDuration p ->
    Diffusion.fadeDuration p' = Diffusion.fadeDuration p)).
Proof.
  intros p' l. subst p'. unfold Diffusion.integrateParticle. cbv zeta.
  match goal with |- context [let '(a, b) := ?c in _] => destruct c as [x0 z0] end.
  match goal with |- context [let '(a, b) := ?c in _] => destruct c as [dx dz] end.
  match goal with |- context [let '(a, b) := ?c in _] => destruct c as [x1 z1] end.
  fold (decayedLife dt (Diffusion.lifeSeconds (Diffusion.plumeConfig m))
                    (Diffusion.life p)).
  fold l. pose proof (decayedLife_nonneg dt
                        (Diffusion.lifeSeconds (Diffusion.plumeConfig m))
                        (Diffusion.life p)) as Hl. fold l in Hl.
  cmp_case (Rltb (Diffusion.gate p) 0.5); cbn [andb].
  - cmp_case (Rgtb (Diffusion.fadeDuration p) 0).
    + set (k := Math_min 1 ((Diffusion.fadeTimer p + dt) / Diffusion.fadeDuration p)).
      assert (Hk1 : k <= 1) by apply Math_min_l.
      assert (Hdiv : forall t, Diffusion.fadeDuration p <= t <->
                               1 <= t / Diffusion.fadeDuration p).
      { intros t. split; intros H.
        - apply Rmult_le_reg_r with (Diffusion.fadeDuration p); [lra |].
          unfold Rdiv. rewrite Rmult_assoc, Rinv_l by lra. lra.
        - apply Rmult_le_compat_r with (r := Diffusion.fadeDuration p) in H; [| lra].
          unfold Rdiv in H. rewrite Rmult_assoc, Rinv_l in H by lra. lra. }
      assert (Hk : 1 <= k <-> Diffusion.fadeDuration p <= Diffusion.fadeTimer p + dt).
      { rewrite Hdiv. subst k. unfold Math_min, Rmin.
        destruct (Rle_dec 1 _); split; intros; lra. }
      cmp_case (Rgeb k 1); cbn [Diffusion.life Diffusion.fadeTimer Diffusion.fadeDuration].
      * split; [lra | split; [intros [H | H]; lra |]].
        intros _ _. split; [reflexivity | split; [reflexivity |]].
        intros H. apply Hk in Hcmp1. lra.
      * split; [cmp_case (Rgtb l (1 - k)); lra | split; [intros [H | H]; lra |]].
        intros _ _. split; [reflexivity | split; [| reflexivity]].
        intros H. apply Hk in H. lra.
    + cbn [Diffusion.life Diffusion.fadeTimer Diffusion.fadeDuration].
      split; [lra | split; [intros _; repeat split |]]. intros _ H. lra.
  - cbn [Diffusion.life Diffusion.fadeTimer Diffusion.fadeDuration].
    split; [lra | split; [intros _; repeat split |]]. intros H. lra.
Qed.

(** ** What the spawn phase does to a slot *)

Lemma points_debugTick (dt : R) (m : Diffusion.Manager) :
  Diffusion.points m <> None ->
  Diffusion.points (Diffusion.debugTick dt m) = Diffusion.points m.
Proof.
  intros Hpts. unfold Diffusion.debugTick.
  destruct (Diffusion._debugForce m); [| reflexivity].
  destruct (Rgtb _ _); [| reflexivity].
  unfold Diffusion.addSource, Diffusion.ensurePoints. msimpl.
  destruct (Diffusion.points m) eqn:E; [| contradiction].
  msimpl. exact E.
Qed.

Lemma points_spawnParticle (x z : R) (c : Diffusion.RGB) (gated : bool)
      (m : Diffusion.Manager) :
  Diffusion.points (Diffusion.spawnParticle x z c gated m) = Diffusion.points m.
Proof.
  destruct (spawnParticle_cases x z c gated m) as [-> | (i & q & _ & _ & _ & ->)];
    reflexivity.
Qed.

(** The style override of a bottom request is undone after its spawn. *)
Lemma points_drainOne (r : Diffusion.Request) (g : Diffusion.Grid)
      (m : Diffusion.Manager) :
  Diffusion.points (fst (Diffusion.drainOne r g m)) = Diffusion.points m.
Proof.
  unfold Diffusion.drainOne. cbv zeta.
  destruct (Diffusion.bottom r).
  - destruct (Diffusion.globalGate _) as [allow1 m2].
    destruct (if allow1 then _ else _) as [allow m3].
    destruct allow; reflexivity.
  - pose proof (globalGate_preserves
                  (fun m' => Diffusion.points m' = Diffusion.points m)
                  (fun k m' H => H) m eq_refl) as H2.
    destruct (Diffusion.globalGate m) as [allow1 m2]. cbn [snd] in H2.
    assert (H3 : Diffusion.points
                   (snd (if allow1 then Diffusion.localGate g r m2 else (false, m2)))
                 = Diffusion.points m).
    { destruct allow1; [| exact H2].
      apply (localGate_preserves
               (fun m' => Diffusion.points m' = Diffusion.points m)
               (fun k m' H => H)). exact H2. }
    destruct (if allow1 then _ else _) as [allow m3]. cbn [snd] in H3.
    destruct allow; cbn [fst]; [rewrite points_spawnParticle |]; exact H3.
Qed.

Lemma points_drainQueue (budget : nat) :
  forall g m, Diffusion.points (fst (Diffusion.drainQueue budget g m))
              = Diffusion.points m.
Proof.
  induction budget as [| n IH]; intros g m; cbn [Diffusion.drainQueue]; [reflexivity |].
  destruct (Diffusion.spawnQueue m) as [| r rest]; [reflexivity |].
  pose proof (points_drainOne r g m) as H1.
  destruct (Diffusion.drainOne r g m) as [m1 g1]. cbn [fst] in H1.
  rewrite IH. exact H1.
Qed.

Lemma points_spawnPhase (dt : R) (m : Diffusion.Manager) :
  Diffusion.points (Diffusion.spawnPhase dt m) = Diffusion.points m.
Proof.
  unfold Diffusion.spawnPhase.
  assert (H : Diffusion.points (snd (Diffusion.spawnBudget dt m)) = Diffusion.points m).
  { unfold Diffusion.spawnBudget. destruct (_ && _); reflexivity. }
  destruct (Diffusion.spawnBudget dt m) as [budget m1]. cbn [snd] in H.
  rewrite points_drainQueue. exact H.
Qed.

Lemma points_update (dt : R) (m : Diffusion.Manager) :
  Diffusion.points m <> None ->
  Diffusion.points (Diffusion.update dt m) = Diffusion.points m.
Proof.
  intros Hpts. unfold Diffusion.update.
  pose proof (points_debugTick dt m Hpts) as H0.
  destruct (Diffusion.points (Diffusion.debugTick dt m)) eqn:E; [| congruence].
  unfold Diffusion.integrate.
  destruct (Diffusion.integratePool _ _ _ _). msimpl.
  rewrite points_spawnPhase. congruence.
Qed.

(** The spawn phase never writes to a live slot. *)
Lemma spawnPhase_keeps_live_slot (dt : R) (m : Diffusion.Manager) (i : nat)
      (q : Diffusion.Particle) :
  0 < Diffusion.life q ->
  nth_error (Diffusion.pool m) i = Some q ->
  nth_error (Diffusion.pool (Diffusion.spawnPhase dt m)) i = Some q.
Proof.
  intros Hq.
  apply (spawnPhase_preserves
           (fun m' => nth_error (Diffusion.pool m') i = Some q));
    intros; try assumption.
  destruct (spawnParticle_cases x z c gated m0) as [-> | (j & d & Hj & Hd & _ & ->)];
    [assumption |].
  msimpl. rewrite nth_error_setNth_other; [assumption |].
  intros ->. rewrite Hj in H. injection H as ->. lra.
Qed.

Lemma nth_error_setNth_same {A} (l : list A) :
  forall i x y, nth_error l i = Some y -> nth_error (setNth i x l) i = Some x.
Proof.
  induction l as [| h t IH]; intros i x y H.
  - destruct i; discriminate.
  - destruct i as [| i]; cbn [setNth nth_error] in *; [reflexivity | eauto].
Qed.

(** A slot is, after the spawn phase, what it was or a particle that
    [spawnParticle] has just written, with [life = 1]. *)
Lemma spawnPhase_slot (dt : R) (m : Diffusion.Manager) (i : nat)
      (q : Diffusion.Particle) :
  nth_error (Diffusion.pool m) i = Some q ->
  exists s,
    nth_error (Diffusion.pool (Diffusion.spawnPhase dt m)) i = Some s /\
    (s = q \/ (Diffusion.life q <= 0 /\ Diffusion.life s = 1)).
Proof.
  intros Hq.
  apply (spawnPhase_preserves
           (fun m' => exists s, nth_error (Diffusion.pool m') i = Some s /\
                                (s = q \/ (Diffusion.life q <= 0 /\ Diffusion.life s = 1))));
    intros; try assumption; [| exists q; auto].
  destruct H as (s & Hs & Hcase).
  destruct (spawnParticle_cases x z c gated m0) as [-> | (j & d & Hj & Hd & _ & ->)];
    [exists s; auto |].
  msimpl. destruct (Nat.eq_dec j i) as [-> | Hne].
  - rewrite (nth_error_setNth_same _ _ _ _ Hj). eexists. split; [reflexivity |].
    right. split; [| reflexivity].
    rewrite Hs in Hj. injection Hj as <-.
    destruct Hcase as [-> | [Hq0 Hs1]]; [exact Hd | exact Hq0].
  - rewrite nth_error_setNth_other by exact Hne. exists s. auto.
Qed.

(** ** Particles stay inside the beaker *)

Lemma Math_hypot_nonneg (x z : R) : 0 <= Math_hypot x z.
Proof. unfold Math_hypot. apply sqrt_pos. Qed.

Lemma Math_hypot_scale (x z s : R) :
  0 <= s -> Math_hypot (x * s) (z * s) = s * Math_hypot x z.
Proof.
  intros Hs. unfold Math_hypot.
  replace (x * s * (x * s) + z * s * (z * s)) with (s * s * (x * x + z * z)) by ring.
  rewrite sqrt_mult; [| nra | nra].
  rewrite sqrt_square by exact Hs. reflexivity.
Qed.



Lemma pool_debugTick (dt : R) (m : Diffusion.Manager) :
  Diffusion.pool (Diffusion.debugTick dt m) = Diffusion.pool m.
Proof.
  unfold Diffusion.debugTick.
  destruct (Diffusion._debugForce m); [| reflexivity].
  destruct (Rgtb _ _); [| reflexivity].
  unfold Diffusion.addSource, Diffusion.ensurePoints. msimpl.
  destruct (Diffusion.points m); reflexivity.
Qed.

Lemma points_debugTick_none (dt : R) (m : Diffusion.Manager) :
  Diffusion.points (Diffusion.debugTick dt m) = None -> Diffusion.points m = None.
Proof.
  destruct (Diffusion.points m) eqn:E; [| reflexivity].
  rewrite points_debugTick by congruence. rewrite E. discriminate.
Qed.

Lemma points_integrate (dt : R) (m : Diffusion.Manager) :
  Diffusion.points (Diffusion.integrate dt m) = Diffusion.points m.
Proof.
  unfold Diffusion.integrate. destruct (Diffusion.integratePool _ _ _ _). reflexivity.
Qed.

Lemma points_ensurePoints (m : Diffusion.Manager) :
  Diffusion.points (Diffusion.ensurePoints m) <> None.
Proof.
  unfold Diffusion.ensurePoints.
  destruct (Diffusion.points m) eqn:E; msimpl; congruence.
Qed.

Lemma points_setPlumeColor (c : option Z) (m : Diffusion.Manager) :
  Diffusion.points (Diffusion.setPlumeColor c m) <> None.
Proof.
  unfold Diffusion.setPlumeColor. cbv zeta. msimpl.
  pose proof (points_ensurePoints m) as H.
  destruct (Diffusion.points (Diffusion.ensurePoints m)); [discriminate | contradiction].
Qed.

Lemma points_setPlumeStyle (a : Diffusion.StyleArgs) (m : Diffusion.Manager) :
  Diffusion.points (Diffusion.setPlumeStyle a m) <> None.
Proof.
  unfold Diffusion.setPlumeStyle. cbv zeta.
  pose proof (points_ensurePoints m) as H.
  destruct (Diffusion.points (Diffusion.ensurePoints m)); [discriminate | contradiction].
Qed.

Lemma points_setPlumeConfig (a : Diffusion.ConfigArgs) (m : Diffusion.Manager) :
  Diffusion.points (Diffusion.setPlumeConfig a m) <> None.
Proof.
  unfold Diffusion.setPlumeConfig. cbv zeta.
  match goal with |- context [Diffusion.ensurePoints ?x] => set (m2 := x) end.
  pose proof (points_ensurePoints m2) as H.
  unfold Diffusion.applyPlumeUniforms.
  destruct (Diffusion.points (Diffusion.ensurePoints m2)); [discriminate | contradiction].
Qed.

Lemma all_dead_map (f : Diffusion.Particle -> Diffusion.Particle)
      (l : list Diffusion.Particle) :
  (forall p, Diffusion.life (f p) <= 0) ->
  Forall (fun p => Diffusion.life p <= 0) (map f l).
Proof.
  intros Hf. apply Forall_forall. intros p Hin.
  apply in_map_iff in Hin as (q & <- & _). apply Hf.
Qed.

Lemma cloudOrDead_runOp (m : Diffusion.Manager) (o : Diffusion.Op) :
  cloudOrDead m -> cloudOrDead (Diffusion.runOp m o).
Proof.
  unfold cloudOrDead. intros Hc.
  destruct o; cbn [Diffusion.runOp]; intros Hn.
  - apply Hc. exact Hn.
  - rewrite pool_step. apply Hc. revert Hn. unfold Diffusion.step.
    destruct (negb _); [auto |]. cbv zeta.
    match goal with
    | |- context [match ?x with Some _ => _ | None => _ end] => destruct x
    end; destruct (Diffusion.stepResamples dt m); auto.
  - exfalso. revert Hn. unfold Diffusion.addSource. cbv zeta. msimpl.
    apply points_ensurePoints.
  - revert Hn. unfold Diffusion.addBottomSource.
    destruct (Diffusion._bottomPlumeDisabled m); [exact Hc |]. cbv zeta. msimpl.
    intros Hn. exfalso. exact (points_ensurePoints m Hn).
  - revert Hn. unfold Diffusion.update.
    destruct (Diffusion.points (Diffusion.debugTick dt m)) eqn:E.
    + rewrite points_integrate, points_spawnPhase, E. discriminate.
    + intros _. rewrite pool_debugTick. apply Hc.
      apply (points_debugTick_none dt m E).
  - unfold Diffusion.reset. cbv zeta. msimpl.
    destruct (Diffusion.waterUniforms m); msimpl;
      apply all_dead_map; intros p; rewrite life_resetParticle; lra.
  - exfalso. exact (points_setPlumeStyle a m Hn).
  - exfalso. exact (points_setPlumeColor colorHex m Hn).
  - exfalso. exact (points_setPlumeConfig a m Hn).
  - revert Hn. unfold Diffusion.clearPlume.
    destruct (Diffusion.points m) eqn:E; msimpl; rewrite ?E; [discriminate |].
    intros _. apply Hc. reflexivity.
  - revert Hn. unfold Diffusion.clearBottomPlumeParticles.
    destruct (Diffusion.points m) eqn:E; msimpl; rewrite ?E; [discriminate |].
    intros _. apply Hc. reflexivity.
  - revert Hn. unfold Diffusion.fadeOutBottomPlumes.
    destruct (Diffusion.points m) eqn:E; msimpl; rewrite ?E; [discriminate |].
    intros _. apply Hc. reflexivity.
  - revert Hn. unfold Diffusion.disableBottomPlumes.
    destruct clearExistingQueue; exact Hc.
  - apply Hc. exact Hn.
  - apply Hc. exact Hn.
  - exfalso. revert Hn. unfold Diffusion.enablePlumeDebug. cbv zeta.
    match goal with |- context [Diffusion.setPlumeConfig ?a ?x] =>
      pose proof (points_setPlumeConfig a x) as H;
      destruct (Diffusion.points (Diffusion.setPlumeConfig a x))
    end; [discriminate | contradiction].
  - exfalso. revert Hn. unfold Diffusion.disablePlumeDebug. cbv zeta.
    match goal with |- context [Diffusion.setPlumeColor ?c ?x] =>
      pose proof (points_setPlumeColor c x) as H;
      destruct (Diffusion.points (Diffusion.setPlumeColor c x))
    end; [discriminate | contradiction].
Qed.

(** Every manager reached through the API has its live particles only
    once the point cloud exists. *)
Lemma cloudOrDead_runOps (e : Diffusion.Env) (tape : nat -> R)
      (ops : list Diffusion.Op) :
  cloudOrDead (Diffusion.runOps ops (Diffusion.createDiffusionManager e tape)).
Proof.
  unfold Diffusion.runOps.
  assert (H0 : cloudOrDead (Diffusion.createDiffusionManager e tape)).
  { intros _. unfold Diffusion.createDiffusionManager. msimpl.
    apply Forall_forall. intros p Hin. apply repeat_spec in Hin. subst p. cbn. lra. }
  revert H0. generalize (Diffusion.createDiffusionManager e tape).
  induction ops as [| o ops IH]; intros m H; cbn [fold_left]; [exact H |].
  apply IH. apply cloudOrDead_runOp. exact H.
Qed.


(** ** Life never increases *)

(** A live slot after [update]: the particle it held, integrated once
    by a manager with the same configuration. *)
Lemma update_live_slot (dt : R) (m : Diffusion.Manager) (i : nat)
      (q : Diffusion.Particle) :
  Diffusion.points m <> None ->
  nth_error (Diffusion.pool m) i = Some q ->
  0 < Diffusion.life q ->
  exists m' r0 r1 r2 r3,
    sameSetup m m' /\
    nth_error (Diffusion.pool (Diffusion.update dt m)) i
    = Some (Diffusion.integrateParticle dt m' r0 r1 r2 r3 q).
Proof.
  intros Hpts Hq Hlive. unfold Diffusion.update.
  pose proof (points_debugTick dt m Hpts) as H0.
  destruct (Diffusion.points (Diffusion.debugTick dt m)) eqn:E; [| congruence].
  set (m1 := Diffusion.spawnPhase dt (Diffusion.debugTick dt m)).
  assert (Hq1 : nth_error (Diffusion.pool m1) i = Some q).
  { subst m1. apply spawnPhase_keeps_live_slot; [exact Hlive |].
    rewrite pool_debugTick. exact Hq. }
  destruct (integratePool_slot dt m1 (Diffusion.pool m1) (Diffusion.randomPos m1) i q Hq1)
    as (p' & Hp' & _ & Hint).
  destruct (Hint Hlive) as (r0 & r1 & r2 & r3 & ->).
  exists m1, r0, r1, r2, r3. split.
  - subst m1. eapply sameSetup_trans;
      [apply sameSetup_debugTick | apply sameSetup_spawnPhase].
  - rewrite pool_integrate. exact Hp'.
Qed.

Lemma cloudOrDead_live (m : Diffusion.Manager) (i : nat) (q : Diffusion.Particle) :
  cloudOrDead m ->
  nth_error (Diffusion.pool m) i = Some q ->
  0 < Diffusion.life q ->
  Diffusion.points m <> None.
Proof.
  intros Hc Hq Hlive Hn. specialize (Hc Hn). rewrite Forall_forall in Hc.
  specialize (Hc q (nth_error_In _ _ Hq)). lra.
Qed.

(** C4. In [update(dt)], for [dt >= 0] and [lifeSeconds > 0], on a
    manager in which particles are live only once the point cloud
    exists: the life of a live particle does not increase; it becomes
    at most [max(0, life - dt / lifeSeconds)], exactly that when no
    fade is in progress for the particle (a fade can only lower it
    further), and never less than 0.  A slot that is not live is left
    untouched unless [spawnParticle] has reused it in the spawn phase
    of this tick, in which case it restarts from [life = 1]. *)
Theorem life_never_increases_in_update :
  forall (dt : R) (m : Diffusion.Manager) (i : nat) (q : Diffusion.Particle),
    0 <= dt ->
    0 < Diffusion.lifeSeconds (Diffusion.plumeConfig m) ->
    cloudOrDead m ->
    nth_error (Diffusion.pool m) i = Some q ->
    exists q',
      nth_error (Diffusion.pool (Diffusion.update dt m)) i = Some q' /\
      (0 < Diffusion.life q ->
       let l := decayedLife dt (Diffusion.lifeSeconds (Diffusion.plumeConfig m))
                            (Diffusion.life q) in
       0 <= Diffusion.life q' <= l /\
       l <= Diffusion.life q /\
       (0.5 <= Diffusion.gate q \/ Diffusion.fadeDuration q <= 0 ->
        Diffusion.life q' = l)) /\
      (Diffusion.life q <= 0 ->
       q' = q \/
       exists s,
         nth_error (Diffusion.pool (Diffusion.spawnPhase dt (Diffusion.debugTick dt m))) i
         = Some s /\
         Diffusion.life s = 1 /\ 0 <= Diffusion.life q' <= Diffusion.life s).
Proof.
  intros dt m i q Hdt HL Hcloud Hq.
  destruct (Rle_lt_dec (Diffusion.life q) 0) as [Hdead | Hlive].
  - (* a slot that is not live *)
    destruct (Diffusion.points (Diffusion.debugTick dt m)) as [u |] eqn:Hpts0.
    + assert (Hq0 : nth_error (Diffusion.pool (Diffusion.debugTick dt m)) i = Some q)
        by (rewrite pool_debugTick; exact Hq).
      destruct (spawnPhase_slot dt _ i q Hq0) as (s & Hs & Hcase).
      set (m1 := Diffusion.spawnPhase dt (Diffusion.debugTick dt m)) in *.
      assert (HL1 : Diffusion.lifeSeconds (Diffusion.plumeConfig m1)
                    = Diffusion.lifeSeconds (Diffusion.plumeConfig m)).
      { subst m1. rewrite (proj1 (proj2 (sameSetup_spawnPhase dt _))).
        rewrite (proj1 (proj2 (sameSetup_debugTick dt m))). reflexivity. }
      destruct (integratePool_slot dt m1 (Diffusion.pool m1) (Diffusion.randomPos m1)
                  i s Hs) as (q' & Hq' & Hkeep & Hint).
      exists q'. split; [| split; [intros H; lra |]].
      * unfold Diffusion.update. rewrite Hpts0, pool_integrate. exact Hq'.
      * intros _. destruct Hcase as [-> | [_ Hs1]]; [left; auto |].
        right. exists s. split; [exact Hs | split; [exact Hs1 |]].
        destruct (Hint ltac:(lra)) as (r0 & r1 & r2 & r3 & ->).
        destruct (integrateParticle_life dt m1 r0 r1 r2 r3 s) as ((Hlo & Hhi) & _).
        rewrite HL1 in Hhi.
        pose proof (decayedLife_le dt _ (Diffusion.life s) Hdt HL ltac:(lra)). lra.
    + exists q. split; [| split; [intros H; lra | intros _; left; reflexivity]].
      unfold Diffusion.update. rewrite Hpts0, pool_debugTick. exact Hq.
  - (* a live particle *)
    pose proof (cloudOrDead_live m i q Hcloud Hq Hlive) as Hpts.
    destruct (update_live_slot dt m i q Hpts Hq Hlive)
      as (m' & r0 & r1 & r2 & r3 & Hsame & Hq').
    eexists. split; [exact Hq' | split; [| intros H; lra]].
    intros _ l.
    destruct (integrateParticle_life dt m' r0 r1 r2 r3 q) as (Hrange & Hnofade & _).
    rewrite (proj1 (proj2 Hsame)) in Hrange, Hnofade. fold l in Hrange, Hnofade.
    split; [exact Hrange | split].
    + subst l. apply decayedLife_le; [exact Hdt | exact HL | lra].
    + intros Hno. apply Hnofade. exact Hno.
Qed.

Lemma plumeManager_facts :
  0 <= Diffusion.beakerRadius (Diffusion.env plumeManager) /\
  Diffusion.points plumeManager <> None /\
  0 < Diffusion.lifeSeconds (Diffusion.plumeConfig plumeManager) /\
  nth_error (Diffusion.pool plumeManager) 0 = Some gatedParticle /\
  nth_error (Diffusion.pool plumeManager) 1 = Some ungatedParticle.
Proof.
  split; [| split; [| split; [| split]]].
  - change (Diffusion.beakerRadius (Diffusion.env plumeManager)) with 1. lra.
  - discriminate.
  - change (Diffusion.lifeSeconds (Diffusion.plumeConfig plumeManager)) with 2.1. lra.
  - reflexivity.
  - reflexivity.
Qed.

(** One tick of the gated particle of [plumeManager]. *)
Lemma life_never_increases_in_update_witness :
  0 <= 0.1 /\
  0 < Diffusion.lifeSeconds (Diffusion.plumeConfig plumeManager) /\
  cloudOrDead plumeManager /\
  nth_error (Diffusion.pool plumeManager) 0 = Some gatedParticle /\
  exists q',
    nth_error (Diffusion.pool (Diffusion.update 0.1 plumeManager)) 0 = Some q' /\
    0 <= Diffusion.life q' <= Diffusion.life gatedParticle.
Proof.
  destruct plumeManager_facts as (_ & Hpts & HL & Hq & _).
  assert (Hdt : 0 <= 0.1) by lra.
  assert (Hcloud : cloudOrDead plumeManager) by (intros H; contradiction).
  split; [exact Hdt | split; [exact HL | split; [exact Hcloud | split; [exact Hq |]]]].
  destruct (life_never_increases_in_update 0.1 plumeManager 0 gatedParticle
              Hdt HL Hcloud Hq) as (q' & Hq' & Hlive & _).
  exists q'. split; [exact Hq' |].
  assert (Hl : 0 < Diffusion.life gatedParticle)
    by (cbn [Diffusion.life gatedParticle]; lra).
  destruct (Hlive Hl) as (H1 & H2 & _). lra.
Defined.


(** ** Fading out the bottom plumes *)






Lemma fadeOutBottomPlumes_slot (d : R) (m : Diffusion.Manager) (i : nat)
      (q : Diffusion.Particle) :
  Diffusion.points m <> None ->
  nth_error (Diffusion.pool m) i = Some q ->
  nth_error (Diffusion.pool (Diffusion.fadeOutBottomPlumes d m)) i
  = Some (Diffusion.fadeParticle d q).
Proof.
  intros Hpts Hq. unfold Diffusion.fadeOutBottomPlumes.
  destruct (Diffusion.points m); [| contradiction]. msimpl.
  rewrite nth_error_map, Hq. reflexivity.
Qed.





(** * Further properties of the plume manager *)

(** ** Live particles stay below the surface *)






(** ** The temporary style of a bottom request *)

Lemma bottomInjecting_spawnParticle (x z : R) (c : Diffusion.RGB) (gated : bool)
      (m : Diffusion.Manager) :
  Diffusion._bottomInjecting (Diffusion.spawnParticle x z c gated m)
  = Diffusion._bottomInjecting m.
Proof.
  destruct (spawnParticle_cases x z c gated m) as [-> | (i & q & _ & _ & _ & ->)];
    reflexivity.
Qed.

Lemma bottomInjecting_drainOne (r : Diffusion.Request) (g : Diffusion.Grid)
      (m : Diffusion.Manager) :
  Diffusion._bottomInjecting (fst (Diffusion.drainOne r g m))
  = if Diffusion.bottom r then false else Diffusion._bottomInjecting m.
Proof.
  unfold Diffusion.drainOne. cbv zeta.
  destruct (Diffusion.bottom r).
  - destruct (Diffusion.globalGate _) as [allow1 m2].
    destruct (if allow1 then _ else _) as [allow m3].
    destruct allow; reflexivity.
  - pose proof (globalGate_preserves
                  (fun m' => Diffusion._bottomInjecting m' = Diffusion._bottomInjecting m)
                  (fun k m' H => H) m eq_refl) as H2.
    destruct (Diffusion.globalGate m) as [allow1 m2]. cbn [snd] in H2.
    assert (H3 : Diffusion._bottomInjecting
                   (snd (if allow1 then Diffusion.localGate g r m2 else (false, m2)))
                 = Diffusion._bottomInjecting m).
    { destruct allow1; [| exact H2].
      apply (localGate_preserves
               (fun m' => Diffusion._bottomInjecting m' = Diffusion._bottomInjecting m)
               (fun k m' H => H)). exact H2. }
    destruct (if allow1 then _ else _) as [allow m3]. cbn [snd] in H3.
    destruct allow; cbn [fst]; [rewrite bottomInjecting_spawnParticle |]; exact H3.
Qed.

Lemma bottomInjecting_drainQueue (budget : nat) :
  forall g m,
    Diffusion._bottomInjecting m = false ->
    Diffusion._bottomInjecting (fst (Diffusion.drainQueue budget g m)) = false.
Proof.
  induction budget as [| n IH]; intros g m H; cbn [Diffusion.drainQueue]; [exact H |].
  destruct (Diffusion.spawnQueue m) as [| r rest]; [exact H |].
  pose proof (bottomInjecting_drainOne r g m) as H1.
  destruct (Diffusion.drainOne r g m) as [m1 g1]. cbn [fst] in H1.
  apply IH. msimpl. rewrite H1, H. destruct (Diffusion.bottom r); reflexivity.
Qed.

Lemma bottomInjecting_update (dt : R) (m : Diffusion.Manager) :
  Diffusion._bottomInjecting m = false ->
  Diffusion._bottomInjecting (Diffusion.update dt m) = false.
Proof.
  intros H. unfold Diffusion.update.
  assert (H0 : Diffusion._bottomInjecting (Diffusion.debugTick dt m) = false).
  { unfold Diffusion.debugTick.
    destruct (Diffusion._debugForce m); [| exact H].
    destruct (Rgtb _ _); [| exact H].
    unfold Diffusion.addSource, Diffusion.ensurePoints. msimpl.
    destruct (Diffusion.points m); exact H. }
  destruct (Diffusion.points (Diffusion.debugTick dt m)); [| exact H0].
  unfold Diffusion.integrate. destruct (Diffusion.integratePool _ _ _ _). msimpl.
  unfold Diffusion.spawnPhase.
  assert (H1 : Diffusion._bottomInjecting
                 (snd (Diffusion.spawnBudget dt (Diffusion.debugTick dt m))) = false).
  { unfold Diffusion.spawnBudget. destruct (_ && _); exact H0. }
  destruct (Diffusion.spawnBudget dt (Diffusion.debugTick dt m)) as [budget m1].
  cbn [snd] in H1. apply bottomInjecting_drainQueue. exact H1.
Qed.

(** X2. The style that [update] puts on the plume material while it
    spawns a bottom request (override colour, opacity, saturation,
    brightness, indicator gate) never outlives the tick: after
    [update(dt)] the material uniforms are exactly what they were
    before it, and the bottom-injection flag is off again, whatever the
    queue held. *)
Theorem update_restores_plume_style :
  forall (dt : R) (m : Diffusion.Manager) (u : Diffusion.Uniforms),
    Diffusion.points m = Some u ->
    Diffusion._bottomInjecting m = false ->
    Diffusion.points (Diffusion.update dt m) = Some u /\
    Diffusion._bottomInjecting (Diffusion.update dt m) = false.
Proof.
  intros dt m u Hu Hinj. split.
  - rewrite points_update by congruence. exact Hu.
  - apply bottomInjecting_update. exact Hinj.
Qed.

(** A manager with one bottom request queued, through one tick. *)
Lemma update_restores_plume_style_witness :
  let m := Diffusion.addBottomSource 0 0 18 Diffusion.defaultBottomOpts freshManager in
  Diffusion.points m = Some Diffusion.defaultUniforms /\
  Diffusion._bottomInjecting m = false /\
  Diffusion.points (Diffusion.update 0.1 m) = Some Diffusion.defaultUniforms /\
  Diffusion._bottomInjecting (Diffusion.update 0.1 m) = false.
Proof.
  intros m.
  assert (Hu : Diffusion.points m = Some Diffusion.defaultUniforms) by reflexivity.
  assert (Hinj : Diffusion._bottomInjecting m = false) by reflexivity.
  split; [exact Hu | split; [exact Hinj |]].
  exact (update_restores_plume_style 0.1 m Diffusion.defaultUniforms Hu Hinj).
Defined.

(** ** How a tick consumes the queue *)

Lemma queueTotal_acc (q : list Diffusion.Request) :
  forall a,
    fold_left (fun s r => (s + Diffusion.reqCount r)%Z) q a
    = (a + Diffusion.queueTotal q)%Z.
Proof.
  unfold Diffusion.queueTotal.
  induction q as [| r q IH]; intros a; cbn [fold_left]; [lia |].
  rewrite IH, (IH (0 + Diffusion.reqCount r)%Z). lia.
Qed.

Lemma queueTotal_cons (r : Diffusion.Request) (q : list Diffusion.Request) :
  Diffusion.queueTotal (r :: q) = (Diffusion.reqCount r + Diffusion.queueTotal q)%Z.
Proof.
  unfold Diffusion.queueTotal at 1. cbn [fold_left]. rewrite queueTotal_acc. lia.
Qed.

Lemma queueTotal_positive (q : list Diffusion.Request) :
  positiveCounts q -> (Z.of_nat (length q) <= Diffusion.queueTotal q)%Z.
Proof.
  induction 1 as [| r q Hr Hq IH]; [cbn; lia |].
  rewrite queueTotal_cons. cbn [length]. lia.
Qed.

Lemma spawnQueue_spawnParticle (x z : R) (c : Diffusion.RGB) (gated : bool)
      (m : Diffusion.Manager) :
  Diffusion.spawnQueue (Diffusion.spawnParticle x z c gated m) = Diffusion.spawnQueue m.
Proof.
  destruct (spawnParticle_cases x z c gated m) as [-> | (i & q & _ & _ & _ & ->)];
    reflexivity.
Qed.

(** One iteration of the drain loop does not touch the queue itself
    (the loop does, after it). *)
Lemma spawnQueue_drainOne (r : Diffusion.Request) (g : Diffusion.Grid)
      (m : Diffusion.Manager) :
  Diffusion.spawnQueue (fst (Diffusion.drainOne r g m)) = Diffusion.spawnQueue m.
Proof.
  apply (drainOne_preserves
           (fun m' => Diffusion.spawnQueue m' = Diffusion.spawnQueue m));
    intros; try assumption; try reflexivity.
  rewrite spawnQueue_spawnParticle. assumption.
Qed.

(** The drain loop takes one unit off the queue per iteration, spawn or
    no spawn, until the budget or the queue is exhausted. *)
Lemma drainQueue_total (budget : nat) :
  forall g m,
    positiveCounts (Diffusion.spawnQueue m) ->
    let m' := fst (Diffusion.drainQueue budget g m) in
    positiveCounts (Diffusion.spawnQueue m') /\
    Diffusion.queueTotal (Diffusion.spawnQueue m')
    = (Diffusion.queueTotal (Diffusion.spawnQueue m)
       - Z.min (Z.of_nat budget) (Diffusion.queueTotal (Diffusion.spawnQueue m)))%Z.
Proof.
  induction budget as [| n IH]; intros g m Hpos; cbn [Diffusion.drainQueue].
  - cbn [fst]. split; [exact Hpos |].
    pose proof (queueTotal_positive _ Hpos). lia.
  - destruct (Diffusion.spawnQueue m) as [| r rest] eqn:Hq.
    + cbn [fst]. rewrite Hq. split; [exact Hpos |]. cbn. lia.
    + destruct (Diffusion.drainOne r g m) as [m1 g1].
      inversion Hpos as [| r0 q0 Hr Hrest]; subst.
      pose proof (queueTotal_positive _ Hrest) as Hnn.
      set (r' := Diffusion.mkRequest (Diffusion.reqX r) (Diffusion.reqZ r)
                                     (Diffusion.reqCount r - 1) (Diffusion.bottom r)
                                     (Diffusion.style r) (Diffusion.rgb r)).
      set (q := if Z.leb (Diffusion.reqCount r') 0 then rest else r' :: rest).
      assert (Hq' : positiveCounts q /\
                    Diffusion.queueTotal q
                    = (Diffusion.queueTotal (r :: rest) - 1)%Z).
      { subst q. rewrite queueTotal_cons.
        destruct (Z.leb (Diffusion.reqCount r') 0) eqn:E.
        - apply Z.leb_le in E. subst r'. cbn [Diffusion.reqCount] in E.
          split; [exact Hrest | lia].
        - apply Z.leb_gt in E. subst r'. cbn [Diffusion.reqCount] in E.
          split; [constructor; [cbn [Diffusion.reqCount]; lia | exact Hrest] |].
          rewrite queueTotal_cons. cbn [Diffusion.reqCount]. lia. }
      destruct Hq' as [Hposq Htot].
      specialize (IH g1 (Diffusion.set_spawnQueue q m1)).
      change (Diffusion.spawnQueue (Diffusion.set_spawnQueue q m1)) with q in IH.
      destruct (IH Hposq) as [H1 H2]. split; [exact H1 |].
      rewrite H2, Htot. rewrite queueTotal_cons in *. lia.
Qed.

Lemma spawnQueue_spawnBudget (dt : R) (m : Diffusion.Manager) :
  Diffusion.spawnQueue (snd (Diffusion.spawnBudget dt m)) = Diffusion.spawnQueue m.
Proof. unfold Diffusion.spawnBudget. destruct (_ && _); reflexivity. Qed.

Lemma spawnQueue_integrate (dt : R) (m : Diffusion.Manager) :
  Diffusion.spawnQueue (Diffusion.integrate dt m) = Diffusion.spawnQueue m.
Proof.
  unfold Diffusion.integrate. destruct (Diffusion.integratePool _ _ _ _). reflexivity.
Qed.

Lemma spawnPhase_total (dt : R) (m : Diffusion.Manager) :
  positiveCounts (Diffusion.spawnQueue m) ->
  positiveCounts (Diffusion.spawnQueue (Diffusion.spawnPhase dt m)) /\
  Diffusion.queueTotal (Diffusion.spawnQueue (Diffusion.spawnPhase dt m))
  = (Diffusion.queueTotal (Diffusion.spawnQueue m)
     - Z.min (Z.max 0 (fst (Diffusion.spawnBudget dt m)))
             (Diffusion.queueTotal (Diffusion.spawnQueue m)))%Z.
Proof.
  intros Hpos. unfold Diffusion.spawnPhase.
  pose proof (spawnQueue_spawnBudget dt m) as Hq.
  destruct (Diffusion.spawnBudget dt m) as [budget m1]. cbn [fst snd] in *.
  rewrite <- Hq in Hpos.
  destruct (drainQueue_total (Z.to_nat budget) (Diffusion.buildGrid m) m1 Hpos)
    as [H1 H2].
  split; [exact H1 |]. rewrite H2, Hq.
  replace (Z.of_nat (Z.to_nat budget)) with (Z.max 0 budget) by lia. reflexivity.
Qed.

Lemma update_consumes_budget_parts (dt : R) (m : Diffusion.Manager) :
  Diffusion.points m <> None ->
  Diffusion._debugForce m = false ->
  positiveCounts (Diffusion.spawnQueue m) ->
  Diffusion.queueTotal (Diffusion.spawnQueue (Diffusion.update dt m))
  = (Diffusion.queueTotal (Diffusion.spawnQueue m)
     - Z.min (Z.max 0 (fst (Diffusion.spawnBudget dt m)))
             (Diffusion.queueTotal (Diffusion.spawnQueue m)))%Z /\
  positiveCounts (Diffusion.spawnQueue (Diffusion.update dt m)).
Proof.
  intros Hpts Hdbg Hpos.
  unfold Diffusion.update, Diffusion.debugTick. rewrite Hdbg.
  destruct (Diffusion.points m); [| contradiction].
  rewrite spawnQueue_integrate.
  destruct (spawnPhase_total dt m Hpos) as [H1 H2]. split; assumption.
Qed.

(** X3. A tick takes exactly its spawn budget off the queue, or all
    that is left of it: with the point cloud in place, the debug burst
    off and every queued request asking for at least one particle,
    [getPlumeStats().queue] drops in [update(dt)] by
    [min(budget, queue)].  This holds whether or not the spawns were
    let through: a request unit that is suppressed by the density
    gates, or refused by the cap, is consumed all the same. *)
Theorem update_consumes_budget_from_queue :
  forall (dt : R) (m : Diffusion.Manager),
    Diffusion.points m <> None ->
    Diffusion._debugForce m = false ->
    positiveCounts (Diffusion.spawnQueue m) ->
    let budget := Z.max 0 (fst (Diffusion.spawnBudget dt m)) in
    let before := Diffusion.stats_queue (Diffusion.getPlumeStats m) in
    Diffusion.stats_queue (Diffusion.getPlumeStats (Diffusion.update dt m))
    = (before - Z.min budget before)%Z /\
    positiveCounts (Diffusion.spawnQueue (Diffusion.update dt m)).
Proof.
  intros dt m Hpts Hdbg Hpos budget before. subst budget before.
  unfold Diffusion.getPlumeStats. cbn [Diffusion.stats_queue].
  apply update_consumes_budget_parts; assumption.
Qed.

(** A fresh manager with one request for 60 particles, through a tick
    of 0.05 s. *)
Lemma update_consumes_budget_from_queue_witness :
  Diffusion.points queuedManager <> None /\
  Diffusion._debugForce queuedManager = false /\
  positiveCounts (Diffusion.spawnQueue queuedManager) /\
  Diffusion.stats_queue (Diffusion.getPlumeStats (Diffusion.update 0.05 queuedManager))
  = (Diffusion.stats_queue (Diffusion.getPlumeStats queuedManager)
     - Z.min (Z.max 0 (fst (Diffusion.spawnBudget 0.05 queuedManager)))
             (Diffusion.stats_queue (Diffusion.getPlumeStats queuedManager)))%Z.
Proof.
  assert (Hpts : Diffusion.points queuedManager <> None) by discriminate.
  assert (Hdbg : Diffusion._debugForce queuedManager = false) by reflexivity.
  assert (Hpos : positiveCounts (Diffusion.spawnQueue queuedManager)).
  { rewrite queuedManager_queue. constructor; [cbn; lia | constructor]. }
  split; [exact Hpts | split; [exact Hdbg | split; [exact Hpos |]]].
  exact (proj1 (update_consumes_budget_from_queue 0.05 queuedManager Hpts Hdbg Hpos)).
Defined.

(** ** How many particles a tick can spawn *)

(** One iteration of the drain loop leaves the pool as it is or as one
    [spawnParticle] call makes it. *)
Lemma pool_drainOne (r : Diffusion.Request) (g : Diffusion.Grid)
      (m : Diffusion.Manager) :
  exists m3,
    Diffusion.pool m3 = Diffusion.pool m /\
    Diffusion.plumeConfig m3 = Diffusion.plumeConfig m /\
    (Diffusion.pool (fst (Diffusion.drainOne r g m)) = Diffusion.pool m \/
     exists x z c gated,
       Diffusion.pool (fst (Diffusion.drainOne r g m))
       = Diffusion.pool (Diffusion.spawnParticle x z c gated m3)).
Proof.
  unfold Diffusion.drainOne. cbv zeta.
  set (m1 := if Diffusion.bottom r then _ else m).
  set (Q := fun m' => Diffusion.pool m' = Diffusion.pool m /\
                      Diffusion.plumeConfig m' = Diffusion.plumeConfig m).
  assert (HQskip : forall k m', Q m' -> Q (Diffusion.skipRandom k m'))
    by (intros k m' H; exact H).
  assert (H1 : Q m1) by (subst m1 Q; destruct (Diffusion.bottom r); split; reflexivity).
  pose proof (globalGate_preserves Q HQskip m1 H1) as H2.
  destruct (Diffusion.globalGate m1) as [allow1 m2]. cbn [snd] in H2.
  assert (H3 : Q (snd (if allow1 then Diffusion.localGate g r m2 else (false, m2)))).
  { destruct allow1; [apply (localGate_preserves Q HQskip); exact H2 | exact H2]. }
  destruct (if allow1 then _ else _) as [allow m3]. cbn [snd] in H3.
  destruct H3 as [Hp3 Hc3]. exists m3. split; [exact Hp3 | split; [exact Hc3 |]].
  destruct allow; cbn [fst].
  - right. destruct (Diffusion.bottom r); eexists _, _, _, _; msimpl; reflexivity.
  - left. destruct (Diffusion.bottom r); msimpl; exact Hp3.
Qed.

Lemma activeCount_spawnParticle (x z : R) (c : Diffusion.RGB) (gated : bool)
      (m : Diffusion.Manager) :
  (Diffusion.activeCount (Diffusion.pool (Diffusion.spawnParticle x z c gated m))
   <= S (Diffusion.activeCount (Diffusion.pool m)))%nat.
Proof.
  destruct (spawnParticle_cases x z c gated m) as [-> | (i & q & _ & _ & _ & ->)];
    [lia |].
  msimpl. apply activeCount_setNth.
Qed.

Lemma activeCount_drainOne (r : Diffusion.Request) (g : Diffusion.Grid)
      (m : Diffusion.Manager) :
  (Diffusion.activeCount (Diffusion.pool (fst (Diffusion.drainOne r g m)))
   <= S (Diffusion.activeCount (Diffusion.pool m)))%nat.
Proof.
  destruct (pool_drainOne r g m) as (m3 & Hp & _ & [-> | (x & z & c & gated & ->)]);
    [lia |].
  rewrite <- Hp. apply activeCount_spawnParticle.
Qed.

Lemma activeCount_drainQueue (budget : nat) :
  forall g m,
    (Diffusion.activeCount (Diffusion.pool (fst (Diffusion.drainQueue budget g m)))
     <= Diffusion.activeCount (Diffusion.pool m) + budget)%nat.
Proof.
  induction budget as [| n IH]; intros g m; cbn [Diffusion.drainQueue];
    [cbn [fst]; lia |].
  destruct (Diffusion.spawnQueue m) as [| r rest]; [cbn [fst]; lia |].
  pose proof (activeCount_drainOne r g m) as H1.
  destruct (Diffusion.drainOne r g m) as [m1 g1]. cbn [fst] in H1.
  match goal with |- context [Diffusion.drainQueue n g1 ?x] =>
    specialize (IH g1 x); change (Diffusion.pool x) with (Diffusion.pool m1) in IH
  end.
  lia.
Qed.

Lemma pool_spawnBudget (dt : R) (m : Diffusion.Manager) :
  Diffusion.pool (snd (Diffusion.spawnBudget dt m)) = Diffusion.pool m.
Proof. unfold Diffusion.spawnBudget. destruct (_ && _); reflexivity. Qed.

(** X4. A tick never brings more particles to life than its spawn
    budget: after [update(dt)] the number of live particles is at most
    the number before it plus the budget of the tick (and the
    integration pass of the same tick can only lower it). *)
Theorem update_spawns_at_most_budget :
  forall (dt : R) (m : Diffusion.Manager),
    (Diffusion.activeCount (Diffusion.pool (Diffusion.update dt m))
     <= Diffusion.activeCount (Diffusion.pool m) + tickBudget dt m)%nat.
Proof.
  intros dt m. unfold tickBudget, Diffusion.update.
  set (m0 := Diffusion.debugTick dt m).
  assert (H0 : Diffusion.pool m0 = Diffusion.pool m) by apply pool_debugTick.
  destruct (Diffusion.points m0); [| rewrite H0; lia].
  rewrite pool_integrate.
  etransitivity; [apply integratePool_active |].
  unfold Diffusion.spawnPhase.
  pose proof (pool_spawnBudget dt m0) as Hb.
  destruct (Diffusion.spawnBudget dt m0) as [budget m1]. cbn [fst snd] in *.
  etransitivity; [apply activeCount_drainQueue |]. rewrite Hb, H0. lia.
Qed.

(** ** A disabled plume *)

Lemma spawnParticle_disabled (x z : R) (c : Diffusion.RGB) (gated : bool)
      (m : Diffusion.Manager) :
  Diffusion.enabled (Diffusion.plumeConfig m) = false ->
  Diffusion.spawnParticle x z c gated m = m.
Proof. intros H. unfold Diffusion.spawnParticle. rewrite H. reflexivity. Qed.

Lemma pool_spawnPhase_disabled (dt : R) (m : Diffusion.Manager) :
  Diffusion.enabled (Diffusion.plumeConfig m) = false ->
  Diffusion.pool (Diffusion.spawnPhase dt m) = Diffusion.pool m.
Proof.
  intros Hoff.
  apply (spawnPhase_preserves
           (fun m' => Diffusion.enabled (Diffusion.plumeConfig m') = false /\
                      Diffusion.pool m' = Diffusion.pool m));
    try (intros; assumption); [| split; [exact Hoff | reflexivity]].
  intros x z c gated m0 [Hoff0 H].
  rewrite spawnParticle_disabled by exact Hoff0. auto.
Qed.

Lemma setPlumeConfig_frame (a : Diffusion.ConfigArgs) (m : Diffusion.Manager) :
  Diffusion.spawnQueue (Diffusion.setPlumeConfig a m) = Diffusion.spawnQueue m /\
  Diffusion._debugForce (Diffusion.setPlumeConfig a m) = Diffusion._debugForce m /\
  Diffusion._bottomPlumeDisabled (Diffusion.setPlumeConfig a m)
  = Diffusion._bottomPlumeDisabled m.
Proof.
  unfold Diffusion.setPlumeConfig, Diffusion.applyPlumeUniforms, Diffusion.ensurePoints.
  msimpl.
  destruct (Diffusion.a_requireIndicator a), (Diffusion.points m) eqn:E;
    repeat (msimpl; rewrite ?E); repeat split.
Qed.

(** X5. After [plume.disable()] the queue goes on being consumed but
    nothing is spawned: in every later [update(dt)] a slot that is not
    live is left exactly as it is, so the number of live particles
    cannot grow, while the queue still loses [min(budget, queue)]
    units per tick: the requests served while the plume is disabled are
    lost. *)
Theorem disabled_plume_drops_requests :
  forall (dt : R) (m : Diffusion.Manager),
    let m' := Diffusion.plume_disable m in
    (forall i q,
        nth_error (Diffusion.pool m') i = Some q ->
        Diffusion.life q <= 0 ->
        nth_error (Diffusion.pool (Diffusion.update dt m')) i = Some q) /\
    (Diffusion.activeCount (Diffusion.pool (Diffusion.update dt m'))
     <= Diffusion.activeCount (Diffusion.pool m))%nat /\
    (Diffusion._debugForce m = false ->
     positiveCounts (Diffusion.spawnQueue m) ->
     let before := Diffusion.stats_queue (Diffusion.getPlumeStats m) in
     Diffusion.stats_queue (Diffusion.getPlumeStats (Diffusion.update dt m'))
     = (before - Z.min (Z.max 0 (fst (Diffusion.spawnBudget dt m'))) before)%Z).
Proof.
  intros dt m m'.
  assert (Hoff : Diffusion.enabled (Diffusion.plumeConfig m') = false).
  { subst m'. unfold Diffusion.plume_disable. rewrite plumeConfig_setPlumeConfig.
    reflexivity. }
  assert (Hpool : Diffusion.pool m' = Diffusion.pool m) by apply pool_setPlumeConfig.
  destruct (setPlumeConfig_frame (Diffusion.enabledArgs false) m) as (Hq & Hdbg & _).
  fold (Diffusion.plume_disable m) in Hq, Hdbg. fold m' in Hq, Hdbg.
  assert (Hpts : Diffusion.points m' <> None) by apply points_setPlumeConfig.
  assert (Hupd : Diffusion.pool (Diffusion.update dt m')
                 = fst (Diffusion.integratePool dt
                          (Diffusion.spawnPhase dt (Diffusion.debugTick dt m'))
                          (Diffusion.pool m')
                          (Diffusion.randomPos
                             (Diffusion.spawnPhase dt (Diffusion.debugTick dt m'))))).
  { unfold Diffusion.update.
    pose proof (points_debugTick dt m' Hpts) as H0.
    destruct (Diffusion.points (Diffusion.debugTick dt m')) eqn:E; [| congruence].
    rewrite pool_integrate, pool_spawnPhase_disabled, pool_debugTick; [reflexivity |].
    rewrite (proj1 (proj2 (sameSetup_debugTick dt m'))). exact Hoff. }
  split; [| split].
  - intros i q Hi Hdead. rewrite Hupd.
    destruct (integratePool_slot dt
                (Diffusion.spawnPhase dt (Diffusion.debugTick dt m')) _
                (Diffusion.randomPos (Diffusion.spawnPhase dt (Diffusion.debugTick dt m')))
                i q Hi) as (p' & Hp' & Hkeep & _).
    rewrite Hp', (Hkeep Hdead). reflexivity.
  - rewrite Hupd, <- Hpool. apply integratePool_active.
  - intros Hd Hpos before. subst before.
    rewrite <- Hdbg in Hd. rewrite <- Hq in Hpos.
    destruct (update_consumes_budget_parts dt m' Hpts Hd Hpos) as [H _].
    unfold Diffusion.getPlumeStats in *. cbn [Diffusion.stats_queue] in *.
    rewrite H, Hq. reflexivity.
Qed.

(** The queued request of [queuedManager], served while the plume is
    disabled: slot 0 stays dead and the queue shrinks. *)
Lemma disabled_plume_drops_requests_witness :
  let m' := Diffusion.plume_disable queuedManager in
  nth_error (Diffusion.pool m') 0 = Some Diffusion.deadParticle /\
  Diffusion.life Diffusion.deadParticle <= 0 /\
  nth_error (Diffusion.pool (Diffusion.update 0.05 m')) 0 = Some Diffusion.deadParticle /\
  Diffusion._debugForce queuedManager = false /\
  positiveCounts (Diffusion.spawnQueue queuedManager) /\
  Diffusion.stats_queue (Diffusion.getPlumeStats (Diffusion.update 0.05 m'))
  = (Diffusion.stats_queue (Diffusion.getPlumeStats queuedManager)
     - Z.min (Z.max 0 (fst (Diffusion.spawnBudget 0.05 m')))
             (Diffusion.stats_queue (Diffusion.getPlumeStats queuedManager)))%Z.
Proof.
  intros m'.
  assert (H0 : nth_error (Diffusion.pool m') 0 = Some Diffusion.deadParticle).
  { subst m'. unfold Diffusion.plume_disable. rewrite pool_setPlumeConfig. reflexivity. }
  assert (Hd : Diffusion.life Diffusion.deadParticle <= 0) by (cbn; lra).
  assert (Hdbg : Diffusion._debugForce queuedManager = false) by reflexivity.
  assert (Hpos : positiveCounts (Diffusion.spawnQueue queuedManager)).
  { rewrite queuedManager_queue. constructor; [cbn; lia | constructor]. }
  destruct (disabled_plume_drops_requests 0.05 queuedManager) as (Hslot & _ & Hqueue).
  split; [exact H0 | split; [exact Hd | split; [exact (Hslot 0%nat _ H0 Hd) |]]].
  split; [exact Hdbg | split; [exact Hpos | exact (Hqueue Hdbg Hpos)]].
Defined.

(** ** Where and how a particle is spawned *)

Lemma scanPool_first_dead (l : list Diffusion.Particle) :
  forall k a i q,
    nth_error l i = Some q ->
    Diffusion.life q <= 0 ->
    (forall j p, (j < i)%nat -> nth_error l j = Some p -> 0 < Diffusion.life p) ->
    fst (Diffusion.scanPool l k None a) = Some (k + i)%nat.
Proof.
  induction l as [| h t IH]; intros k a i q Hq Hdead Hlive.
  - destruct i; discriminate.
  - cbn [Diffusion.scanPool]. destruct i as [| i]; cbn [nth_error] in Hq.
    + injection Hq as ->.
      assert (E : Rgtb (Diffusion.life q) 0 = false) by (apply Rgtb_false; exact Hdead).
      rewrite E, scanPool_idx_some. f_equal. lia.
    + assert (E : Rgtb (Diffusion.life h) 0 = true).
      { apply Rgtb_true. apply (Hlive 0%nat h); [lia | reflexivity]. }
      rewrite E. rewrite (IH (S k) (S a) i q Hq Hdead).
      * f_equal. lia.
      * intros j p Hj Hp. apply (Hlive (S j) p); [lia | exact Hp].
Qed.

Lemma activeCount_revive (l : list Diffusion.Particle) :
  forall i q p,
    nth_error l i = Some q ->
    Diffusion.life q <= 0 ->
    0 < Diffusion.life p ->
    Diffusion.activeCount (setNth i p l) = S (Diffusion.activeCount l).
Proof.
  induction l as [| h t IH]; intros i q p Hq Hdead Hlive.
  - destruct i; discriminate.
  - destruct i as [| i]; cbn [nth_error setNth Diffusion.activeCount] in *.
    + injection Hq as ->.
      assert (E1 : Rgtb (Diffusion.life q) 0 = false) by (apply Rgtb_false; exact Hdead).
      assert (E2 : Rgtb (Diffusion.life p) 0 = true) by (apply Rgtb_true; exact Hlive).
      rewrite E1, E2. reflexivity.
    + rewrite (IH i q p Hq Hdead Hlive). destruct (Rgtb (Diffusion.life h) 0); reflexivity.
Qed.

Lemma spawnParticle_first_dead (x z : R) (c : Diffusion.RGB) (gated : bool)
      (m : Diffusion.Manager) (i : nat) (q : Diffusion.Particle) :
  Diffusion.enabled (Diffusion.plumeConfig m) = true ->
  INR (Diffusion.activeCount (Diffusion.pool m))
  < Diffusion.maxActive (Diffusion.plumeConfig m) ->
  nth_error (Diffusion.pool m) i = Some q ->
  Diffusion.life q <= 0 ->
  (forall j p, (j < i)%nat -> nth_error (Diffusion.pool m) j = Some p ->
               0 < Diffusion.life p) ->
  Diffusion.spawnParticle x z c gated m
  = Diffusion.skipRandom 9
      (Diffusion.set_pool
         (setNth i (Diffusion.freshParticle x z c gated m) (Diffusion.pool m)) m).
Proof.
  intros Hon Hcap Hq Hdead Hfirst.
  unfold Diffusion.spawnParticle. rewrite Hon. cbn [negb].
  pose proof (scanPool_active (Diffusion.pool m) 0 None 0) as Hact.
  pose proof (scanPool_first_dead (Diffusion.pool m) 0 0 i q Hq Hdead Hfirst) as Hidx.
  destruct (Diffusion.scanPool (Diffusion.pool m) 0 None 0) as [idx active].
  cbn [fst snd Nat.add] in Hact, Hidx. subst idx active.
  assert (E : Rgeb (INR (Diffusion.activeCount (Diffusion.pool m)))
                   (Diffusion.maxActive (Diffusion.plumeConfig m)) = false)
    by (apply Rgeb_false; exact Hcap).
  rewrite E. reflexivity.
Qed.

(** X6. With the plume enabled and the live count below [maxActive],
    [spawnParticle] reuses the lowest-numbered slot that is not live:
    that slot becomes a live particle with [life = 1], the requested
    colour, [gate] 1 or 0 as requested, and no fade in progress; no
    other slot of the pool changes; the live count goes up by exactly
    one; and nine random draws are consumed. *)
Theorem spawnParticle_reuses_first_dead_slot :
  forall (x z : R) (c : Diffusion.RGB) (gated : bool) (m : Diffusion.Manager)
         (i : nat) (q : Diffusion.Particle),
    Diffusion.enabled (Diffusion.plumeConfig m) = true ->
    INR (Diffusion.activeCount (Diffusion.pool m))
    < Diffusion.maxActive (Diffusion.plumeConfig m) ->
    nth_error (Diffusion.pool m) i = Some q ->
    Diffusion.life q <= 0 ->
    (forall j p, (j < i)%nat -> nth_error (Diffusion.pool m) j = Some p ->
                 0 < Diffusion.life p) ->
    let m' := Diffusion.spawnParticle x z c gated m in
    (exists p,
        nth_error (Diffusion.pool m') i = Some p /\
        Diffusion.life p = 1 /\
        Diffusion.color p = c /\
        Diffusion.gate p = (if gated then 1 else 0) /\
        Diffusion.fadeTimer p = 0 /\ Diffusion.fadeDuration p = 0) /\
    (forall j, j <> i ->
               nth_error (Diffusion.pool m') j = nth_error (Diffusion.pool m) j) /\
    Diffusion.activeCount (Diffusion.pool m')
    = S (Diffusion.activeCount (Diffusion.pool m)) /\
    Diffusion.randomPos m' = (Diffusion.randomPos m + 9)%nat.
Proof.
  intros x z c gated m i q Hon Hcap Hq Hdead Hfirst m'.
  subst m'.
  rewrite (spawnParticle_first_dead x z c gated m i q Hon Hcap Hq Hdead Hfirst).
  msimpl. split; [| split; [| split]].
  - exists (Diffusion.freshParticle x z c gated m).
    split; [apply (nth_error_setNth_same _ _ _ _ Hq) |].
    unfold Diffusion.freshParticle. cbv zeta.
    cbn [Diffusion.life Diffusion.color Diffusion.gate Diffusion.fadeTimer
         Diffusion.fadeDuration]. repeat split.
  - intros j Hj. apply nth_error_setNth_other. congruence.
  - apply (activeCount_revive _ i q); [exact Hq | exact Hdead |].
    unfold Diffusion.freshParticle. cbv zeta. cbn [Diffusion.life]. lra.
  - reflexivity.
Qed.

Lemma freshPoints_spawnable :
  let m := Diffusion.ensurePoints freshManager in
  Diffusion.enabled (Diffusion.plumeConfig m) = true /\
  INR (Diffusion.activeCount (Diffusion.pool m))
  < Diffusion.maxActive (Diffusion.plumeConfig m) /\
  nth_error (Diffusion.pool m) 0 = Some Diffusion.deadParticle.
Proof.
  intros m. split; [reflexivity | split; [| reflexivity]].
  change (Diffusion.pool m) with (repeat Diffusion.deadParticle Diffusion.maxParticles).
  rewrite activeCount_repeat_dead.
  change (Diffusion.plumeConfig m) with Diffusion.defaultPlumeConfig.
  rewrite defaultPlumeConfig_maxActive. cbn [INR]. lra.
Qed.

Lemma spawnParticle_reuses_first_dead_slot_facts :
  exists p,
    nth_error (Diffusion.pool (Diffusion.spawnParticle 0.1 0.2 (0, 1, 0) true
                                 (Diffusion.ensurePoints freshManager))) 0 = Some p /\
    Diffusion.life p = 1.
Proof.
  destruct freshPoints_spawnable as (Hon & Hcap & Hq).
  rewrite (spawnParticle_first_dead 0.1 0.2 (0, 1, 0) true _ 0 Diffusion.deadParticle
             Hon Hcap Hq).
  - msimpl. eexists. split; [apply (nth_error_setNth_same _ _ _ _ Hq) |].
    unfold Diffusion.freshParticle. cbv zeta. cbn [Diffusion.life]. reflexivity.
  - cbn [Diffusion.life Diffusion.deadParticle]. lra.
  - intros j p Hj. lia.
Qed.

(** A fresh manager: slot 0 is the first slot that is not live. *)
Lemma spawnParticle_reuses_first_dead_slot_witness :
  let m := Diffusion.ensurePoints freshManager in
  let m' := Diffusion.spawnParticle 0.1 0.2 (0, 1, 0) true m in
  Diffusion.enabled (Diffusion.plumeConfig m) = true /\
  INR (Diffusion.activeCount (Diffusion.pool m))
  < Diffusion.maxActive (Diffusion.plumeConfig m) /\
  nth_error (Diffusion.pool m) 0 = Some Diffusion.deadParticle /\
  Diffusion.life Diffusion.deadParticle <= 0 /\
  Diffusion.activeCount (Diffusion.pool m') = S (Diffusion.activeCount (Diffusion.pool m)) /\
  Diffusion.randomPos m' = (Diffusion.randomPos m + 9)%nat.
Proof.
  intros m m'.
  assert (Hon : Diffusion.enabled (Diffusion.plumeConfig m) = true) by reflexivity.
  assert (Hcap : INR (Diffusion.activeCount (Diffusion.pool m))
                 < Diffusion.maxActive (Diffusion.plumeConfig m)).
  { change (Diffusion.pool m) with (repeat Diffusion.deadParticle Diffusion.maxParticles).
    rewrite activeCount_repeat_dead.
    change (Diffusion.plumeConfig m) with Diffusion.defaultPlumeConfig.
    rewrite defaultPlumeConfig_maxActive. cbn [INR]. lra. }
  assert (Hq : nth_error (Diffusion.pool m) 0 = Some Diffusion.deadParticle)
    by reflexivity.
  assert (Hdead : Diffusion.life Diffusion.deadParticle <= 0) by (cbn; lra).
  assert (Hfirst : forall j p, (j < 0)%nat -> nth_error (Diffusion.pool m) j = Some p ->
                               0 < Diffusion.life p) by (intros j p Hj; lia).
  destruct (spawnParticle_reuses_first_dead_slot 0.1 0.2 (0, 1, 0) true m 0
              Diffusion.deadParticle Hon Hcap Hq Hdead Hfirst) as (_ & _ & Hact & Hpos).
  split; [exact Hon | split; [exact Hcap | split; [exact Hq | split; [exact Hdead |]]]].
  split; [exact Hact | exact Hpos].
Defined.

Lemma Math_hypot_polar (theta s : R) :
  0 <= s -> Math_hypot (cos theta * s) (sin theta * s) = s.
Proof.
  intros Hs. rewrite Math_hypot_scale by exact Hs. unfold Math_hypot.
  replace (cos theta * cos theta + sin theta * sin theta)
    with (Rsqr (sin theta) + Rsqr (cos theta)) by (unfold Rsqr; ring).
  rewrite sin2_cos2, sqrt_1. ring.
Qed.

Lemma Math_hypot_unit (theta : R) : Math_hypot (cos theta) (sin theta) = 1.
Proof.
  rewrite <- (Math_hypot_polar theta 1) by lra. f_equal; ring.
Qed.

(** X7. Every slot that a [spawnParticle(localX, localZ)] call changes
    holds, for draws in [0, 1), a particle that
    - lies within half the lateral spread of the requested point on
      each axis (spread 0.16 during bottom injection, else 0.09);
    - lies in the band [bottom + 0.04, bottom + 0.09) above the water
      bottom during bottom injection, else in the band
      (surface - 0.30, surface - 0.18] below the surface;
    - has a horizontal speed in [0.2, 0.7), a vertical velocity in
      [-0.01, 0.04), a drift of magnitude in [0.02, 0.05) and a unit
      expansion direction. *)
Theorem spawnParticle_places_within_band :
  forall (x z : R) (c : Diffusion.RGB) (gated : bool) (m : Diffusion.Manager)
         (i : nat) (p : Diffusion.Particle),
    unitTape (Diffusion.randomTape m) ->
    nth_error (Diffusion.pool (Diffusion.spawnParticle x z c gated m)) i = Some p ->
    nth_error (Diffusion.pool m) i <> Some p ->
    let spread := if Diffusion._bottomInjecting m then 0.16 else 0.09 in
    let bottomY := Diffusion.waterBottomY (Diffusion.env m) in
    let surfaceY := Diffusion.waterSurfaceY (Diffusion.env m) in
    x - spread / 2 <= Diffusion.posX p < x + spread / 2 /\
    z - spread / 2 <= Diffusion.posZ p < z + spread / 2 /\
    (if Diffusion._bottomInjecting m
     then bottomY + 0.04 <= Diffusion.posY p < bottomY + 0.09
     else surfaceY - 0.30 < Diffusion.posY p <= surfaceY - 0.18) /\
    0.2 <= Math_hypot (Diffusion.velX p) (Diffusion.velZ p) < 0.7 /\
    -0.01 <= Diffusion.velY p < 0.04 /\
    0.02 <= Math_hypot (Diffusion.driftX p) (Diffusion.driftZ p) < 0.05 /\
    Math_hypot (Diffusion.expandX p) (Diffusion.expandZ p) = 1.
Proof.
  intros x z c gated m i p Htape Hp Hchanged spread bottomY surfaceY.
  destruct (spawnParticle_cases x z c gated m) as [E | (j & d & Hj & _ & _ & E)];
    rewrite E in Hp; [contradiction |].
  revert Hp. msimpl. intros Hp.
  destruct (Nat.eq_dec j i) as [-> | Hne];
    [| rewrite nth_error_setNth_other in Hp by exact Hne; contradiction].
  rewrite (nth_error_setNth_same _ _ _ _ Hj) in Hp. injection Hp as <-.
  unfold Diffusion.freshParticle, Diffusion.peekRandom. cbv zeta.
  cbn [Diffusion.posX Diffusion.posY Diffusion.posZ Diffusion.velX Diffusion.velY
       Diffusion.velZ Diffusion.driftX Diffusion.driftZ Diffusion.expandX
       Diffusion.expandZ].
  set (t := Diffusion.randomTape m) in *. set (n := Diffusion.randomPos m).
  pose proof (Htape (n + 0)%nat) as H0. pose proof (Htape (n + 1)%nat) as H1.
  pose proof (Htape (n + 2)%nat) as H2. pose proof (Htape (n + 4)%nat) as H4.
  pose proof (Htape (n + 5)%nat) as H5. pose proof (Htape (n + 7)%nat) as H7.
  rewrite !Math_hypot_polar by lra. rewrite Math_hypot_unit.
  subst spread bottomY surfaceY.
  destruct (Diffusion._bottomInjecting m); repeat split; lra.
Qed.

(** The first spawn on a fresh manager (all draws 0.5). *)
Lemma spawnParticle_places_within_band_witness :
  let m := Diffusion.ensurePoints freshManager in
  exists p,
    unitTape (Diffusion.randomTape m) /\
    nth_error (Diffusion.pool (Diffusion.spawnParticle 0.1 0.2 (0, 1, 0) true m)) 0
    = Some p /\
    nth_error (Diffusion.pool m) 0 <> Some p /\
    0.1 - 0.09 / 2 <= Diffusion.posX p < 0.1 + 0.09 / 2 /\
    0.2 <= Math_hypot (Diffusion.velX p) (Diffusion.velZ p) < 0.7.
Proof.
  cbv zeta.
  assert (Htape : unitTape (Diffusion.randomTape (Diffusion.ensurePoints freshManager))).
  { intros k.
    rewrite (proj1 (proj2 (proj2 (proj2 (proj2 (sameSetup_ensurePoints freshManager)))))).
    unfold freshManager, Diffusion.createDiffusionManager. msimpl. cbv beta. lra. }
  destruct spawnParticle_reuses_first_dead_slot_facts as (p & Hp & Hlife).
  assert (Hch : nth_error (Diffusion.pool (Diffusion.ensurePoints freshManager)) 0
                <> Some p).
  { rewrite (proj2 (proj2 freshPoints_spawnable)).
    intros H. injection H as <-.
    cbn [Diffusion.life Diffusion.deadParticle] in Hlife. lra. }
  exists p. split; [exact Htape | split; [exact Hp | split; [exact Hch |]]].
  destruct (spawnParticle_places_within_band 0.1 0.2 (0, 1, 0) true
              (Diffusion.ensurePoints freshManager) 0 p Htape Hp Hch)
    as (Hx & _ & _ & Hv & _).
  split; [exact Hx | exact Hv].
Defined.

(** ** [reset] *)

Lemma greenSum_zero (n : nat) :
  forall l, (length l <= n)%nat -> Forall (fun b => b = O) l ->
            Diffusion.greenSum l = O.
Proof.
  induction n as [| n IH]; intros l Hlen Hall.
  - destruct l; [reflexivity | cbn in Hlen; lia].
  - destruct l as [| a [| b [| c [| d rest]]]]; try reflexivity.
    cbn [Diffusion.greenSum].
    inversion Hall as [| ? ? _ H1]; subst. inversion H1 as [| ? ? Hb H2]; subst.
    inversion H2 as [| ? ? _ H3]; subst. inversion H3 as [| ? ? _ H4]; subst.
    rewrite IH; [reflexivity | cbn [length] in Hlen; lia | exact H4].
Qed.

Lemma canvasMean_cleared (l : list nat) :
  Diffusion.canvasMean (map (fun _ => O) l) = 0.
Proof.
  unfold Diffusion.canvasMean.
  rewrite (greenSum_zero (length (map (fun _ : nat => O) l))); [| lia |].
  - cbn [INR]. unfold Rdiv. apply Rmult_0_l.
  - apply Forall_forall. intros b Hb. apply in_map_iff in Hb as (? & <- & _).
    reflexivity.
Qed.

Lemma activeCount_all_dead (l : list Diffusion.Particle) :
  Forall (fun p => Diffusion.life p <= 0) l -> Diffusion.activeCount l = O.
Proof.
  induction 1 as [| p l Hp _ IH]; [reflexivity |].
  cbn [Diffusion.activeCount].
  assert (E : Rgtb (Diffusion.life p) 0 = false) by (apply Rgtb_false; exact Hp).
  rewrite E. exact IH.
Qed.

(** X8. [reset] empties the indicator canvas (its mean becomes 0),
    zeroes the bound global concentration and puts every slot of the
    pool at the origin, at rest, with [life = 0]; it leaves the spawn
    queue, the configuration, the point cloud, the bottom-plume lockout
    and the last sampled mean as they are. *)
Theorem reset_clears_field_and_pool_only :
  forall (m : Diffusion.Manager),
    let m' := Diffusion.reset m in
    Forall atOrigin (Diffusion.pool m') /\
    Diffusion.activeCount (Diffusion.pool m') = O /\
    length (Diffusion.pool m') = length (Diffusion.pool m) /\
    Diffusion.canvasMean (Diffusion.indicatorCanvas m') = 0 /\
    Diffusion.globalConc m' = option_map (fun _ => 0) (Diffusion.waterUniforms m) /\
    Diffusion.isIndicatorEnabled m' = Diffusion.isIndicatorEnabled m /\
    Diffusion.spawnQueue m' = Diffusion.spawnQueue m /\
    Diffusion.plumeConfig m' = Diffusion.plumeConfig m /\
    Diffusion.points m' = Diffusion.points m /\
    Diffusion._bottomPlumeDisabled m' = Diffusion._bottomPlumeDisabled m /\
    Diffusion._lastMean m' = Diffusion._lastMean m.
Proof.
  intros m m'.
  assert (Hpool : Diffusion.pool m' = map Diffusion.resetParticle (Diffusion.pool m)).
  { subst m'. unfold Diffusion.reset. msimpl.
    destruct (Diffusion.waterUniforms m); reflexivity. }
  assert (Hcanvas : Diffusion.indicatorCanvas m'
                    = map (fun _ => O) (Diffusion.indicatorCanvas m)).
  { subst m'. unfold Diffusion.reset. msimpl.
    destruct (Diffusion.waterUniforms m); reflexivity. }
  rewrite Hpool, Hcanvas.
  split; [| split; [| split; [| split; [| split]]]].
  - apply Forall_forall. intros p Hp. apply in_map_iff in Hp as (q & <- & _).
    unfold atOrigin. cbn. repeat split.
  - apply activeCount_all_dead, all_dead_map.
    intros p. rewrite life_resetParticle. lra.
  - apply length_map.
  - apply canvasMean_cleared.
  - subst m'. unfold Diffusion.reset, Diffusion.globalConc. msimpl.
    destruct (Diffusion.waterUniforms m) eqn:E; repeat (msimpl; rewrite ?E); reflexivity.
  - subst m'. unfold Diffusion.reset, Diffusion.isIndicatorEnabled. msimpl.
    destruct (Diffusion.waterUniforms m) eqn:E; repeat (msimpl; rewrite ?E);
      repeat split.
Qed.

Lemma reset_accumulators (m : Diffusion.Manager) :
  Diffusion._diffuseAccum (Diffusion.reset m) = Diffusion._diffuseAccum m /\
  Diffusion._concAccum (Diffusion.reset m) = Diffusion._concAccum m.
Proof.
  unfold Diffusion.reset. msimpl.
  destruct (Diffusion.waterUniforms m); split; reflexivity.
Qed.

(** X9. [reset] does not reset the last sampled mean of the indicator
    field.  If that mean was above the 0.01 threshold, the first
    executed [step] tick after the reset that does not re-sample the
    canvas takes the growth branch with the stale mean: the global
    concentration, which the reset had put at 0, becomes
    [0.015 * min(1, 2.5 * mean)], which is positive although the canvas
    is empty. *)
Theorem step_after_reset_uses_stale_mean :
  forall (dt : R) (m : Diffusion.Manager) (w : Diffusion.WaterUniforms),
    Diffusion.waterUniforms m = Some w ->
    0.01 < Diffusion._lastMean m ->
    Diffusion.stepExecutes dt (Diffusion.reset m) = true ->
    Diffusion.stepResamples dt (Diffusion.reset m) = false ->
    Diffusion.canvasMean (Diffusion.indicatorCanvas (Diffusion.reset m)) = 0 /\
    Diffusion.globalConc (Diffusion.reset m) = Some 0 /\
    Diffusion.globalConc (Diffusion.step dt (Diffusion.reset m))
    = Some (0.015 * Math_min 1 (Diffusion._lastMean m * 2.5)) /\
    0 < 0.015 * Math_min 1 (Diffusion._lastMean m * 2.5).
Proof.
  intros dt m w Hw Hmean Hex Hres.
  assert (Hc : Diffusion.globalConc (Diffusion.reset m) = Some 0).
  { unfold Diffusion.reset, Diffusion.globalConc. msimpl. rewrite Hw. reflexivity. }
  assert (Hl : Diffusion._lastMean (Diffusion.reset m) = Diffusion._lastMean m).
  { unfold Diffusion.reset. msimpl. rewrite Hw. reflexivity. }
  split; [| split; [exact Hc | split]].
  - unfold Diffusion.reset. msimpl. rewrite Hw. msimpl. apply canvasMean_cleared.
  - rewrite (globalConc_step dt _ 0 Hc), Hex.
    unfold Diffusion.stepConc, Diffusion.stepTarget, Diffusion.stepMean.
    rewrite Hres, Hl.
    assert (E : Rgtb (Diffusion._lastMean m) 0.01 = true) by (apply Rgtb_true; exact Hmean).
    rewrite E. cbv zeta. f_equal. lra.
  - unfold Math_min, Rmin. destruct (Rle_dec _ _); lra.
Qed.

(** A bound manager whose last sample had a mean of 0.2, reset and then
    stepped by 0.1 s. *)
Lemma step_after_reset_uses_stale_mean_witness :
  Diffusion.waterUniforms sampledManager = Some (Diffusion.mkWater 0 (Some 0)) /\
  0.01 < Diffusion._lastMean sampledManager /\
  Diffusion.stepExecutes 0.1 (Diffusion.reset sampledManager) = true /\
  Diffusion.stepResamples 0.1 (Diffusion.reset sampledManager) = false /\
  Diffusion.globalConc (Diffusion.step 0.1 (Diffusion.reset sampledManager))
  = Some (0.015 * Math_min 1 (Diffusion._lastMean sampledManager * 2.5)).
Proof.
  assert (Hw : Diffusion.waterUniforms sampledManager
               = Some (Diffusion.mkWater 0 (Some 0))) by reflexivity.
  assert (Hm : 0.01 < Diffusion._lastMean sampledManager).
  { unfold sampledManager. msimpl. lra. }
  destruct (reset_accumulators sampledManager) as [Hd Hc].
  change (Diffusion._diffuseAccum sampledManager) with 0 in Hd.
  change (Diffusion._concAccum sampledManager) with 0 in Hc.
  assert (He : Diffusion.stepExecutes 0.1 (Diffusion.reset sampledManager) = true).
  { unfold Diffusion.stepExecutes. apply negb_true_iff, Rltb_false. rewrite Hd. lra. }
  assert (Hr : Diffusion.stepResamples 0.1 (Diffusion.reset sampledManager) = false).
  { unfold Diffusion.stepResamples. apply Rgeb_false. rewrite Hd, Hc. lra. }
  split; [exact Hw | split; [exact Hm | split; [exact He | split; [exact Hr |]]]].
  exact (proj1 (proj2 (proj2 (step_after_reset_uses_stale_mean
                                0.1 sampledManager _ Hw Hm He Hr)))).
Defined.

(** ** [clearPlume] *)

Lemma integratePool_all_dead (dt : R) (m : Diffusion.Manager)
      (l : list Diffusion.Particle) :
  forall pos,
    Diffusion.activeCount l = O ->
    Diffusion.activeCount (fst (Diffusion.integratePool dt m l pos)) = O.
Proof.
  intros pos H. pose proof (integratePool_active dt m l pos). lia.
Qed.

(** With an empty queue and nothing alive, and the debug burst off, a
    tick changes neither. *)
Lemma idle_update (dt : R) (m : Diffusion.Manager) :
  Diffusion._debugForce m = false ->
  Diffusion.spawnQueue m = [] ->
  Diffusion.activeCount (Diffusion.pool m) = O ->
  Diffusion._debugForce (Diffusion.update dt m) = false /\
  Diffusion.spawnQueue (Diffusion.update dt m) = [] /\
  Diffusion.activeCount (Diffusion.pool (Diffusion.update dt m)) = O.
Proof.
  intros Hdbg Hq Hdead.
  split; [rewrite (proj1 (proj2 (proj2 (proj2 (sameSetup_update dt m))))); exact Hdbg |].
  unfold Diffusion.update, Diffusion.debugTick. rewrite Hdbg.
  destruct (Diffusion.points m); [| split; assumption].
  rewrite spawnQueue_integrate, pool_integrate.
  assert (Hs : Diffusion.spawnQueue (Diffusion.spawnPhase dt m) = [] /\
               Diffusion.pool (Diffusion.spawnPhase dt m) = Diffusion.pool m).
  { unfold Diffusion.spawnPhase.
    pose proof (spawnQueue_spawnBudget dt m) as H1.
    pose proof (pool_spawnBudget dt m) as H2.
    destruct (Diffusion.spawnBudget dt m) as [budget m1]. cbn [snd] in H1, H2.
    rewrite Hq in H1.
    destruct (Z.to_nat budget); cbn [Diffusion.drainQueue]; rewrite ?H1; cbn [fst];
      split; assumption. }
  destruct Hs as [Hs1 Hs2]. split; [exact Hs1 |].
  apply integratePool_all_dead. rewrite Hs2. exact Hdead.
Qed.

(** X10. After [clearPlume()], on a manager in which particles are live
    only once the point cloud exists and with the debug burst off,
    no particle is alive and the queue is empty, and both stay so
    through any number of [update] ticks: nothing that was requested
    before the call is spawned after it. *)
Theorem clearPlume_leaves_nothing_to_spawn :
  forall (m : Diffusion.Manager) (dts : list R),
    cloudOrDead m ->
    Diffusion._debugForce m = false ->
    let m' := Diffusion.runTicks dts (Diffusion.clearPlume m) in
    Diffusion.stats_active (Diffusion.getPlumeStats m') = O /\
    Diffusion.stats_queue (Diffusion.getPlumeStats m') = 0%Z /\
    Diffusion.spawnQueue m' = [].
Proof.
  intros m dts Hcloud Hdbg m'.
  assert (H0 : Diffusion._debugForce (Diffusion.clearPlume m) = false /\
               Diffusion.spawnQueue (Diffusion.clearPlume m) = [] /\
               Diffusion.activeCount (Diffusion.pool (Diffusion.clearPlume m)) = O).
  { unfold Diffusion.clearPlume.
    destruct (Diffusion.points m) eqn:E; msimpl;
      (split; [exact Hdbg | split; [reflexivity |]]).
    - apply activeCount_all_dead, all_dead_map. intros p. rewrite life_killParticle. lra.
    - apply activeCount_all_dead, Hcloud, E. }
  assert (H : Diffusion._debugForce m' = false /\
              Diffusion.spawnQueue m' = [] /\
              Diffusion.activeCount (Diffusion.pool m') = O).
  { subst m'. revert H0. generalize (Diffusion.clearPlume m).
    unfold Diffusion.runTicks.
    induction dts as [| dt rest IH]; intros m0 H0; cbn [fold_left]; [exact H0 |].
    apply IH. destruct H0 as (Ha & Hb & Hc). apply idle_update; assumption. }
  destruct H as (_ & Hq & Ha).
  unfold Diffusion.getPlumeStats. cbn [Diffusion.stats_active Diffusion.stats_queue].
  rewrite Hq. split; [exact Ha | split; reflexivity].
Qed.

(** [mixedQueueManager] (two live particles, two requests), cleared and
    run for three ticks. *)
Lemma clearPlume_leaves_nothing_to_spawn_witness :
  let m' := Diffusion.runTicks [0.1; 0.1; 0.1] (Diffusion.clearPlume mixedQueueManager) in
  cloudOrDead mixedQueueManager /\
  Diffusion._debugForce mixedQueueManager = false /\
  Diffusion.stats_active (Diffusion.getPlumeStats m') = O /\
  Diffusion.spawnQueue m' = [].
Proof.
  intros m'.
  assert (Hcloud : cloudOrDead mixedQueueManager) by (intros H; discriminate H).
  assert (Hdbg : Diffusion._debugForce mixedQueueManager = false) by reflexivity.
  destruct (clearPlume_leaves_nothing_to_spawn mixedQueueManager [0.1; 0.1; 0.1]
              Hcloud Hdbg) as (Ha & _ & Hq).
  split; [exact Hcloud | split; [exact Hdbg | split; [exact Ha | exact Hq]]].
Defined.

(** ** [clearBottomPlumeParticles] and the value of [fadeOutBottomPlumes] *)

Lemma clearBottomParticle_cases (p : Diffusion.Particle) :
  (liveUngated p /\
   Diffusion.clearBottomParticle p = Diffusion.setFade 0 0 (Diffusion.killParticle p)) \/
  (~ liveUngated p /\ Diffusion.clearBottomParticle p = p).
Proof.
  unfold Diffusion.clearBottomParticle, liveUngated.
  cmp_case (Rgtb (Diffusion.life p) 0); cbn [andb].
  - cmp_case (Rltb (Diffusion.gate p) 0.5); [left; auto | right].
    split; [intros [_ H]; lra | reflexivity].
  - right. split; [intros [H _]; lra | reflexivity].
Qed.

Lemma countCleared_active (l : list Diffusion.Particle) :
  (Diffusion.activeCount (map Diffusion.clearBottomParticle l) + Diffusion.countCleared l
   = Diffusion.activeCount l)%nat.
Proof.
  induction l as [| p rest IH]; [reflexivity |].
  cbn [map Diffusion.activeCount Diffusion.countCleared].
  destruct (clearBottomParticle_cases p) as [[[Hl Hg] E] | [Hn E]]; rewrite E.
  - assert (E1 : Rgtb (Diffusion.life p) 0 = true) by (apply Rgtb_true; exact Hl).
    assert (E2 : Rltb (Diffusion.gate p) 0.5 = true) by (apply Rltb_true; exact Hg).
    rewrite E1, E2. cbn [andb Diffusion.setFade Diffusion.killParticle Diffusion.life].
    assert (E3 : Rgtb 0 0 = false) by (apply Rgtb_false; lra).
    rewrite E3. lia.
  - assert (E0 : Rgtb (Diffusion.life p) 0 && Rltb (Diffusion.gate p) 0.5 = false).
    { cmp_case (Rgtb (Diffusion.life p) 0); [| reflexivity].
      cmp_case (Rltb (Diffusion.gate p) 0.5); [| reflexivity].
      exfalso. apply Hn. split; assumption. }
    rewrite E0. destruct (Rgtb (Diffusion.life p) 0); lia.
Qed.

(** X11. With the point cloud in place, [clearBottomPlumeParticles]
    kills exactly the live bottom-plume particles (live, [gate < 0.5]):
    each of them ends with [life = 0] and its fade cancelled, every
    other slot (dead, or live and gated) is left exactly as it is; the
    value returned is the number of particles killed, which is the drop
    of the live count; and the queue loses its bottom requests and
    nothing else, the remaining requests keeping their order. *)
Theorem clearBottomPlumeParticles_kills_ungated_only :
  forall (m : Diffusion.Manager) (u : Diffusion.Uniforms),
    Diffusion.points m = Some u ->
    let m' := Diffusion.clearBottomPlumeParticles m in
    (forall i q,
        nth_error (Diffusion.pool m) i = Some q ->
        exists q',
          nth_error (Diffusion.pool m') i = Some q' /\
          (liveUngated q ->
           Diffusion.life q' = 0 /\ Diffusion.fadeDuration q' = 0 /\
           Diffusion.fadeTimer q' = 0 /\ Diffusion.gate q' = Diffusion.gate q) /\
          (~ liveUngated q -> q' = q)) /\
    (exists cleared,
        Diffusion.clearBottomPlumeParticles_result m = Some cleared /\
        (Diffusion.activeCount (Diffusion.pool m') + cleared
         = Diffusion.activeCount (Diffusion.pool m))%nat) /\
    Diffusion.spawnQueue m' = filter notBottom (Diffusion.spawnQueue m).
Proof.
  intros m u Hu m'.
  assert (Hpool : Diffusion.pool m' = map Diffusion.clearBottomParticle (Diffusion.pool m)).
  { subst m'. unfold Diffusion.clearBottomPlumeParticles. rewrite Hu. reflexivity. }
  split; [| split].
  - intros i q Hq. rewrite Hpool, nth_error_map, Hq. cbn [option_map].
    eexists. split; [reflexivity |].
    destruct (clearBottomParticle_cases q) as [[Hl E] | [Hn E]]; rewrite E.
    + split; [intros _; cbn; repeat split | intros H; contradiction].
    + split; [intros H; contradiction | reflexivity].
  - exists (Diffusion.countCleared (Diffusion.pool m)). split.
    + unfold Diffusion.clearBottomPlumeParticles_result. rewrite Hu. reflexivity.
    + rewrite Hpool. apply countCleared_active.
  - subst m'. unfold Diffusion.clearBottomPlumeParticles. rewrite Hu. msimpl.
    apply purgeBottom_filter.
Qed.

Lemma mixedQueueManager_facts :
  Diffusion.points mixedQueueManager = Some Diffusion.defaultUniforms /\
  nth_error (Diffusion.pool mixedQueueManager) 1 = Some ungatedParticle /\
  liveUngated ungatedParticle.
Proof.
  split; [reflexivity | split; [reflexivity |]].
  unfold liveUngated. cbn [Diffusion.life Diffusion.gate ungatedParticle]. lra.
Qed.

(** The ungated particle of [mixedQueueManager] is killed. *)
Lemma clearBottomPlumeParticles_kills_ungated_only_witness :
  Diffusion.points mixedQueueManager = Some Diffusion.defaultUniforms /\
  nth_error (Diffusion.pool mixedQueueManager) 1 = Some ungatedParticle /\
  liveUngated ungatedParticle /\
  exists q',
    nth_error (Diffusion.pool (Diffusion.clearBottomPlumeParticles mixedQueueManager)) 1
    = Some q' /\
    Diffusion.life q' = 0.
Proof.
  destruct mixedQueueManager_facts as (Hu & Hq & Hlive).
  destruct (clearBottomPlumeParticles_kills_ungated_only mixedQueueManager _ Hu)
    as (Hslots & _ & _).
  destruct (Hslots 1%nat ungatedParticle Hq) as (q' & Hq' & Hkill & _).
  split; [exact Hu | split; [exact Hq | split; [exact Hlive |]]].
  exists q'. split; [exact Hq' | exact (proj1 (Hkill Hlive))].
Defined.

Lemma fadeParticle_cases (d : R) (p : Diffusion.Particle) :
  (liveUngated p /\ Diffusion.fadeParticle d p = Diffusion.setFade 0 d p) \/
  (~ liveUngated p /\ Diffusion.fadeParticle d p = p).
Proof.
  unfold Diffusion.fadeParticle, liveUngated.
  cmp_case (Rgtb (Diffusion.life p) 0); cbn [andb].
  - cmp_case (Rltb (Diffusion.gate p) 0.5).
    + left. split; [auto |].
      assert (E : Rleb (Diffusion.life p) 0 = false) by (apply Rleb_false; exact Hcmp).
      rewrite E. reflexivity.
    + right. split; [intros [_ H]; lra | reflexivity].
  - right. split; [intros [H _]; lra | reflexivity].
Qed.

Lemma countAffected_countCleared (l : list Diffusion.Particle) :
  Diffusion.countAffected l = Diffusion.countCleared l.
Proof.
  induction l as [| p rest IH]; [reflexivity |].
  cbn [Diffusion.countAffected Diffusion.countCleared]. rewrite IH.
  cmp_case (Rgtb (Diffusion.life p) 0); cbn [andb]; [| reflexivity].
  destruct (Rltb (Diffusion.gate p) 0.5); [| reflexivity].
  assert (E : Rleb (Diffusion.life p) 0 = false) by (apply Rleb_false; exact Hcmp).
  rewrite E. reflexivity.
Qed.

(** X12. With the point cloud in place, [fadeOutBottomPlumes(d)] starts
    a fade of duration [d] (timer at 0) on exactly the live bottom-plume
    particles and leaves every other slot as it is; it changes no
    particle's life and no gate, and, unlike
    [clearBottomPlumeParticles], it leaves the spawn queue alone.  The
    value it returns is the number of live bottom-plume particles, the
    same number that [clearBottomPlumeParticles] would return: the
    inner test [life <= 0] of its loop never fires. *)
Theorem fadeOutBottomPlumes_marks_live_ungated :
  forall (d : R) (m : Diffusion.Manager) (u : Diffusion.Uniforms),
    Diffusion.points m = Some u ->
    let m' := Diffusion.fadeOutBottomPlumes d m in
    (forall i q,
        nth_error (Diffusion.pool m) i = Some q ->
        exists q',
          nth_error (Diffusion.pool m') i = Some q' /\
          Diffusion.life q' = Diffusion.life q /\
          Diffusion.gate q' = Diffusion.gate q /\
          (liveUngated q ->
           Diffusion.fadeDuration q' = d /\ Diffusion.fadeTimer q' = 0) /\
          (~ liveUngated q -> q' = q)) /\
    Some (Diffusion.fadeOutBottomPlumes_result m)
    = Diffusion.clearBottomPlumeParticles_result m /\
    Diffusion.spawnQueue m' = Diffusion.spawnQueue m.
Proof.
  intros d m u Hu m'. split; [| split].
  - intros i q Hq. subst m'.
    rewrite (fadeOutBottomPlumes_slot d m i q ltac:(congruence) Hq).
    eexists. split; [reflexivity |].
    destruct (fadeParticle_cases d q) as [[Hl E] | [Hn E]]; rewrite E.
    + cbn [Diffusion.setFade Diffusion.life Diffusion.gate Diffusion.fadeDuration
           Diffusion.fadeTimer].
      split; [reflexivity | split; [reflexivity | split]].
      * intros _. split; reflexivity.
      * intros Hn. contradiction.
    + split; [reflexivity | split; [reflexivity | split]].
      * intros Hl. contradiction.
      * intros _. reflexivity.
  - unfold Diffusion.fadeOutBottomPlumes_result,
      Diffusion.clearBottomPlumeParticles_result.
    rewrite Hu, countAffected_countCleared. reflexivity.
  - subst m'. unfold Diffusion.fadeOutBottomPlumes. rewrite Hu. reflexivity.
Qed.

(** The ungated particle of [mixedQueueManager] gets a fade of 0.6 s. *)
Lemma fadeOutBottomPlumes_marks_live_ungated_witness :
  Diffusion.points mixedQueueManager = Some Diffusion.defaultUniforms /\
  nth_error (Diffusion.pool mixedQueueManager) 1 = Some ungatedParticle /\
  liveUngated ungatedParticle /\
  exists q',
    nth_error (Diffusion.pool (Diffusion.fadeOutBottomPlumes 0.6 mixedQueueManager)) 1
    = Some q' /\
    Diffusion.fadeDuration q' = 0.6 /\ Diffusion.fadeTimer q' = 0.
Proof.
  destruct mixedQueueManager_facts as (Hu & Hq & Hlive).
  destruct (fadeOutBottomPlumes_marks_live_ungated 0.6 mixedQueueManager _ Hu)
    as (Hslots & _ & _).
  destruct (Hslots 1%nat ungatedParticle Hq) as (q' & Hq' & _ & _ & Hfade & _).
  split; [exact Hu | split; [exact Hq | split; [exact Hlive |]]].
  exists q'. split; [exact Hq' | exact (Hfade Hlive)].
Defined.

(** ** The pool stays well formed *)

Lemma Forall_setNth {A} (P : A -> Prop) (l : list A) :
  forall i x, P x -> Forall P l -> Forall P (setNth i x l).
Proof.
  induction l as [| h t IH]; intros i x Hx Hl.
  - destruct i; constructor.
  - inversion Hl; subst. destruct i; cbn [setNth]; constructor; auto.
Qed.

Lemma wellFormedSlot_fresh (x z : R) (c : Diffusion.RGB) (gated : bool)
      (m : Diffusion.Manager) :
  wellFormedSlot (Diffusion.freshParticle x z c gated m).
Proof.
  unfold wellFormedSlot, Diffusion.freshParticle. cbv zeta.
  cbn [Diffusion.gate Diffusion.life]. split; [destruct gated; auto | lra].
Qed.

Lemma wellFormedSlot_integrate (dt : R) (m : Diffusion.Manager) (r0 r1 r2 r3 : R)
      (p : Diffusion.Particle) :
  wellFormedSlot p -> wellFormedSlot (Diffusion.integrateParticle dt m r0 r1 r2 r3 p).
Proof.
  intros [Hg _]. split; [rewrite integrateParticle_gate; exact Hg |].
  apply (integrateParticle_life dt m r0 r1 r2 r3 p).
Qed.

Lemma wellFormed_integratePool (dt : R) (m : Diffusion.Manager)
      (l : list Diffusion.Particle) :
  forall pos, Forall wellFormedSlot l ->
              Forall wellFormedSlot (fst (Diffusion.integratePool dt m l pos)).
Proof.
  induction l as [| q rest IH]; intros pos Hl; [constructor |].
  inversion Hl as [| ? ? Hq Hrest]; subst. cbn [Diffusion.integratePool].
  destruct (Rleb (Diffusion.life q) 0).
  - specialize (IH pos Hrest).
    destruct (Diffusion.integratePool dt m rest pos). cbn [fst] in *.
    constructor; assumption.
  - specialize (IH (pos + 4)%nat Hrest).
    destruct (Diffusion.integratePool dt m rest (pos + 4)). cbn [fst] in *.
    constructor; [apply wellFormedSlot_integrate; exact Hq | exact IH].
Qed.

Lemma wellFormedPool_map (f : Diffusion.Particle -> Diffusion.Particle)
      (m m' : Diffusion.Manager) :
  (forall p, wellFormedSlot p -> wellFormedSlot (f p)) ->
  Diffusion.pool m' = map f (Diffusion.pool m) ->
  wellFormedPool m -> wellFormedPool m'.
Proof.
  intros Hf Hp [Hlen Hall]. unfold wellFormedPool. rewrite Hp, length_map.
  split; [exact Hlen |].
  apply Forall_forall. intros p Hin. apply in_map_iff in Hin as (q & <- & Hq).
  apply Hf. rewrite Forall_forall in Hall. auto.
Qed.

Lemma wellFormedPool_same (m m' : Diffusion.Manager) :
  Diffusion.pool m' = Diffusion.pool m -> wellFormedPool m -> wellFormedPool m'.
Proof. unfold wellFormedPool. intros ->. auto. Qed.

Lemma wellFormedPool_spawnParticle (x z : R) (c : Diffusion.RGB) (gated : bool)
      (m : Diffusion.Manager) :
  wellFormedPool m -> wellFormedPool (Diffusion.spawnParticle x z c gated m).
Proof.
  intros [Hlen Hall].
  destruct (spawnParticle_cases x z c gated m) as [-> | (i & q & _ & _ & _ & ->)];
    [split; assumption |].
  unfold wellFormedPool. msimpl. rewrite length_setNth. split; [exact Hlen |].
  apply Forall_setNth; [apply wellFormedSlot_fresh | exact Hall].
Qed.

Lemma wellFormedPool_update (dt : R) (m : Diffusion.Manager) :
  wellFormedPool m -> wellFormedPool (Diffusion.update dt m).
Proof.
  intros H. unfold Diffusion.update.
  assert (H0 : wellFormedPool (Diffusion.debugTick dt m))
    by (apply (wellFormedPool_same m); [apply pool_debugTick | exact H]).
  destruct (Diffusion.points (Diffusion.debugTick dt m)); [| exact H0].
  assert (H1 : wellFormedPool (Diffusion.spawnPhase dt (Diffusion.debugTick dt m))).
  { apply (spawnPhase_preserves wellFormedPool); try (intros; assumption).
    intros. apply wellFormedPool_spawnParticle. assumption. }
  destruct H1 as [Hlen Hall]. unfold wellFormedPool. rewrite pool_integrate.
  split; [rewrite integratePool_length; exact Hlen |].
  apply wellFormed_integratePool. exact Hall.
Qed.

Lemma pool_set_points (v : option Diffusion.Uniforms) (m : Diffusion.Manager) :
  Diffusion.pool (Diffusion.set_points v m) = Diffusion.pool m.
Proof. reflexivity. Qed.

Lemma pool_set_debugForce (v : bool) (m : Diffusion.Manager) :
  Diffusion.pool (Diffusion.set_debugForce v m) = Diffusion.pool m.
Proof. reflexivity. Qed.

Lemma pool_ensurePoints (m : Diffusion.Manager) :
  Diffusion.pool (Diffusion.ensurePoints m) = Diffusion.pool m.
Proof. unfold Diffusion.ensurePoints. destruct (Diffusion.points m); reflexivity. Qed.

Lemma pool_enablePlumeDebug (m : Diffusion.Manager) :
  Diffusion.pool (Diffusion.enablePlumeDebug m) = Diffusion.pool m.
Proof.
  unfold Diffusion.enablePlumeDebug. cbv zeta.
  rewrite pool_set_points, pool_setPlumeConfig, pool_setPlumeStyle, pool_setPlumeColor,
    pool_set_debugForce.
  apply pool_ensurePoints.
Qed.

Lemma pool_disablePlumeDebug (m : Diffusion.Manager) :
  Diffusion.pool (Diffusion.disablePlumeDebug m) = Diffusion.pool m.
Proof.
  unfold Diffusion.disablePlumeDebug. cbv zeta.
  rewrite pool_set_points, pool_setPlumeColor. reflexivity.
Qed.

Lemma wellFormedPool_runOp (m : Diffusion.Manager) (o : Diffusion.Op) :
  wellFormedPool m -> wellFormedPool (Diffusion.runOp m o).
Proof.
  intros H. destruct o; cbn [Diffusion.runOp].
  - exact H.
  - apply (wellFormedPool_same m); [apply pool_step | exact H].
  - apply (wellFormedPool_same m); [| exact H].
    unfold Diffusion.addSource, Diffusion.ensurePoints.
    destruct (Diffusion.points m); reflexivity.
  - apply (wellFormedPool_same m); [| exact H].
    unfold Diffusion.addBottomSource, Diffusion.ensurePoints.
    destruct (Diffusion._bottomPlumeDisabled m); [reflexivity |].
    destruct (Diffusion.points m); reflexivity.
  - apply wellFormedPool_update. exact H.
  - apply (wellFormedPool_map Diffusion.resetParticle m); [| | exact H].
    + intros p [Hg _]. split; [exact Hg | cbn; lra].
    + unfold Diffusion.reset. msimpl.
      destruct (Diffusion.waterUniforms m); reflexivity.
  - apply (wellFormedPool_same m); [apply pool_setPlumeStyle | exact H].
  - apply (wellFormedPool_same m); [apply pool_setPlumeColor | exact H].
  - apply (wellFormedPool_same m); [apply pool_setPlumeConfig | exact H].
  - unfold Diffusion.clearPlume. destruct (Diffusion.points m).
    + apply (wellFormedPool_map Diffusion.killParticle m); [| reflexivity | exact H].
      intros p [Hg _]. split; [exact Hg | cbn; lra].
    + exact H.
  - unfold Diffusion.clearBottomPlumeParticles. destruct (Diffusion.points m).
    + apply (wellFormedPool_map Diffusion.clearBottomParticle m);
        [| reflexivity | exact H].
      intros p [Hg Hl].
      destruct (clearBottomParticle_cases p) as [[_ ->] | [_ ->]];
        [split; [exact Hg | cbn; lra] | split; assumption].
    + exact H.
  - unfold Diffusion.fadeOutBottomPlumes. destruct (Diffusion.points m).
    + apply (wellFormedPool_map (Diffusion.fadeParticle durationSec) m);
        [| reflexivity | exact H].
      intros p [Hg Hl].
      destruct (fadeParticle_cases durationSec p) as [[_ ->] | [_ ->]];
        split; assumption.
    + exact H.
  - apply (wellFormedPool_same m); [| exact H].
    unfold Diffusion.disableBottomPlumes. destruct clearExistingQueue; reflexivity.
  - exact H.
  - exact H.
  - apply (wellFormedPool_same m); [apply pool_enablePlumeDebug | exact H].
  - apply (wellFormedPool_same m); [apply pool_disablePlumeDebug | exact H].
Qed.

(** X13. On every manager reached from [createDiffusionManager] by API
    calls, the pool keeps its 1000 slots, every slot's [gate] is
    exactly 0 or 1 (so the tests [gate < 0.5] split the particles into
    bottom-plume and surface particles with nothing in between), and no
    slot's [life] is negative. *)
Theorem pool_stays_well_formed :
  forall (e : Diffusion.Env) (tape : nat -> R) (ops : list Diffusion.Op),
    let m := Diffusion.runOps ops (Diffusion.createDiffusionManager e tape) in
    length (Diffusion.pool m) = 1000%nat /\
    Forall (fun p => (Diffusion.gate p = 0 \/ Diffusion.gate p = 1) /\
                     0 <= Diffusion.life p) (Diffusion.pool m).
Proof.
  intros e tape ops m.
  assert (H : wellFormedPool m).
  { subst m. unfold Diffusion.runOps.
    assert (H0 : wellFormedPool (Diffusion.createDiffusionManager e tape)).
    { unfold wellFormedPool, Diffusion.createDiffusionManager. msimpl.
      split; [apply repeat_length |].
      apply Forall_forall. intros p Hin. apply repeat_spec in Hin. subst p.
      unfold wellFormedSlot. cbn [Diffusion.gate Diffusion.life Diffusion.deadParticle].
      split; [left; reflexivity | lra]. }
    revert H0. generalize (Diffusion.createDiffusionManager e tape).
    induction ops as [| o ops IH]; intros m0 H0; cbn [fold_left]; [exact H0 |].
    apply IH, wellFormedPool_runOp, H0. }
  exact H.
Qed.

(** ** The curve uniforms mirror the configuration *)

Lemma mirror_same (m m' : Diffusion.Manager) :
  Diffusion.points m' = Diffusion.points m ->
  Diffusion.plumeConfig m' = Diffusion.plumeConfig m ->
  uniformsMirrorConfig m -> uniformsMirrorConfig m'.
Proof. unfold uniformsMirrorConfig. intros -> ->. auto. Qed.

Lemma mirror_ensurePoints (m : Diffusion.Manager) :
  uniformsMirrorConfig m -> uniformsMirrorConfig (Diffusion.ensurePoints m).
Proof.
  unfold uniformsMirrorConfig, Diffusion.ensurePoints.
  destruct (Diffusion.points m) eqn:E; [rewrite E; auto |].
  msimpl. intros (H1 & H2 & H3). auto.
Qed.

Lemma mirror_map_points (f : Diffusion.Uniforms -> Diffusion.Uniforms)
      (m : Diffusion.Manager) :
  (forall u, Diffusion.uLifePow (f u) = Diffusion.uLifePow u /\
             Diffusion.uAlphaPow (f u) = Diffusion.uAlphaPow u /\
             Diffusion.uMinAlpha (f u) = Diffusion.uMinAlpha u) ->
  uniformsMirrorConfig m ->
  uniformsMirrorConfig (Diffusion.set_points (option_map f (Diffusion.points m)) m).
Proof.
  intros Hf. unfold uniformsMirrorConfig. msimpl.
  destruct (Diffusion.points m) as [u |]; cbn [option_map]; [| auto].
  destruct (Hf u) as (-> & -> & ->). auto.
Qed.

Lemma mirror_setPlumeColor (c : option Z) (m : Diffusion.Manager) :
  uniformsMirrorConfig m -> uniformsMirrorConfig (Diffusion.setPlumeColor c m).
Proof.
  intros H. unfold Diffusion.setPlumeColor. cbv zeta.
  apply mirror_map_points; [| apply mirror_ensurePoints; exact H].
  intros u. destruct c; repeat split.
Qed.

Lemma mirror_setPlumeStyle (a : Diffusion.StyleArgs) (m : Diffusion.Manager) :
  uniformsMirrorConfig m -> uniformsMirrorConfig (Diffusion.setPlumeStyle a m).
Proof.
  intros H. apply mirror_ensurePoints in H. revert H.
  unfold Diffusion.setPlumeStyle, uniformsMirrorConfig. cbv zeta.
  destruct (Diffusion.points (Diffusion.ensurePoints m)) as [u |] eqn:E;
    [| rewrite E; auto].
  msimpl. cbn [Diffusion.uLifePow Diffusion.uAlphaPow Diffusion.uMinAlpha
               Diffusion.sizeCurveExp Diffusion.alphaCurveExp Diffusion.minAlpha].
  intros (H1 & H2 & H3). destruct (Diffusion.s_lifePow a); cbn [Diffusion.ifDefined]; auto.
Qed.

Lemma mirror_applyPlumeUniforms (m : Diffusion.Manager) :
  Diffusion.points m <> None -> uniformsMirrorConfig (Diffusion.applyPlumeUniforms m).
Proof.
  intros Hp. unfold Diffusion.applyPlumeUniforms, uniformsMirrorConfig.
  destruct (Diffusion.points m) as [u |] eqn:E; [| contradiction].
  msimpl. cbn [Diffusion.uLifePow Diffusion.uAlphaPow Diffusion.uMinAlpha]. auto.
Qed.

Lemma mirror_setPlumeConfig (a : Diffusion.ConfigArgs) (m : Diffusion.Manager) :
  uniformsMirrorConfig (Diffusion.setPlumeConfig a m).
Proof.
  unfold Diffusion.setPlumeConfig. cbv zeta.
  apply mirror_applyPlumeUniforms, points_ensurePoints.
Qed.

Lemma points_step (dt : R) (m : Diffusion.Manager) :
  Diffusion.points (Diffusion.step dt m) = Diffusion.points m.
Proof.
  unfold Diffusion.step.
  destruct (negb _); [reflexivity |]. cbv zeta.
  match goal with
  | |- context [match ?x with Some _ => _ | None => _ end] => destruct x
  end; destruct (Diffusion.stepResamples dt m); reflexivity.
Qed.

Lemma mirror_addSource (x z : R) (n : Z) (m : Diffusion.Manager) :
  uniformsMirrorConfig m -> uniformsMirrorConfig (Diffusion.addSource x z n m).
Proof.
  intros H. unfold Diffusion.addSource. cbv zeta.
  apply (mirror_same (Diffusion.ensurePoints m)); [reflexivity | reflexivity |].
  apply mirror_ensurePoints. exact H.
Qed.

Lemma points_update_debugTick (dt : R) (m : Diffusion.Manager) :
  Diffusion.points (Diffusion.update dt m) = Diffusion.points (Diffusion.debugTick dt m).
Proof.
  unfold Diffusion.update.
  destruct (Diffusion.points (Diffusion.debugTick dt m)) eqn:E; [| exact E].
  rewrite points_integrate, points_spawnPhase. exact E.
Qed.

Lemma mirror_update (dt : R) (m : Diffusion.Manager) :
  uniformsMirrorConfig m -> uniformsMirrorConfig (Diffusion.update dt m).
Proof.
  intros H.
  apply (mirror_same (Diffusion.debugTick dt m)).
  - apply points_update_debugTick.
  - rewrite (proj1 (proj2 (sameSetup_update dt m))).
    symmetry. apply (sameSetup_debugTick dt m).
  - unfold Diffusion.debugTick.
    destruct (Diffusion._debugForce m); [| exact H].
    destruct (Rgtb _ _); [apply mirror_addSource |]; exact H.
Qed.

Lemma mirror_withRequire (v : R) (m : Diffusion.Manager) :
  uniformsMirrorConfig m ->
  uniformsMirrorConfig
    (Diffusion.set_points (option_map (Diffusion.withRequire v) (Diffusion.points m)) m).
Proof. apply mirror_map_points. intros u. repeat split. Qed.

Lemma mirror_runOp (m : Diffusion.Manager) (o : Diffusion.Op) :
  uniformsMirrorConfig m -> uniformsMirrorConfig (Diffusion.runOp m o).
Proof.
  intros H. destruct o; cbn [Diffusion.runOp].
  - exact H.
  - apply (mirror_same m); [apply points_step | apply plumeConfig_step | exact H].
  - apply mirror_addSource. exact H.
  - unfold Diffusion.addBottomSource.
    destruct (Diffusion._bottomPlumeDisabled m); [exact H |]. cbv zeta.
    apply (mirror_same (Diffusion.ensurePoints m)); [reflexivity | reflexivity |].
    apply mirror_ensurePoints. exact H.
  - apply mirror_update. exact H.
  - apply (mirror_same m); [| | exact H]; unfold Diffusion.reset; msimpl;
      destruct (Diffusion.waterUniforms m); reflexivity.
  - apply mirror_setPlumeStyle. exact H.
  - apply mirror_setPlumeColor. exact H.
  - apply mirror_setPlumeConfig.
  - apply (mirror_same m); [| | exact H]; unfold Diffusion.clearPlume;
      destruct (Diffusion.points m) eqn:E; msimpl; rewrite ?E; reflexivity.
  - apply (mirror_same m); [| | exact H]; unfold Diffusion.clearBottomPlumeParticles;
      destruct (Diffusion.points m) eqn:E; msimpl; rewrite ?E; reflexivity.
  - apply (mirror_same m); [| | exact H]; unfold Diffusion.fadeOutBottomPlumes;
      destruct (Diffusion.points m) eqn:E; msimpl; rewrite ?E; reflexivity.
  - apply (mirror_same m); [| | exact H]; unfold Diffusion.disableBottomPlumes;
      destruct clearExistingQueue; reflexivity.
  - exact H.
  - exact H.
  - unfold Diffusion.enablePlumeDebug. cbv zeta.
    apply mirror_withRequire, mirror_setPlumeConfig.
  - unfold Diffusion.disablePlumeDebug. cbv zeta.
    apply mirror_withRequire, mirror_setPlumeColor. exact H.
Qed.

(** X14. On every manager reached from [createDiffusionManager] by API
    calls, once the plume material exists its three curve uniforms
    mirror the configuration: [uLifePow = sizeCurveExp],
    [uAlphaPow = alphaCurveExp] and [uMinAlpha = minAlpha].  Neither
    [setPlumeStyle({ lifePow })], nor a [setPlumeConfig] made before
    the material exists, nor the temporary style of a bottom request
    lets shader and configuration drift apart. *)
Theorem curve_uniforms_mirror_config :
  forall (e : Diffusion.Env) (tape : nat -> R) (ops : list Diffusion.Op)
         (u : Diffusion.Uniforms),
    let m := Diffusion.runOps ops (Diffusion.createDiffusionManager e tape) in
    Diffusion.points m = Some u ->
    Diffusion.uLifePow u = Diffusion.sizeCurveExp (Diffusion.plumeConfig m) /\
    Diffusion.uAlphaPow u = Diffusion.alphaCurveExp (Diffusion.plumeConfig m) /\
    Diffusion.uMinAlpha u = Diffusion.minAlpha (Diffusion.plumeConfig m).
Proof.
  intros e tape ops u m Hu.
  assert (H : uniformsMirrorConfig m).
  { subst m. unfold Diffusion.runOps.
    assert (H0 : uniformsMirrorConfig (Diffusion.createDiffusionManager e tape)).
    { unfold uniformsMirrorConfig, Diffusion.createDiffusionManager. msimpl.
      repeat split. }
    revert H0. generalize (Diffusion.createDiffusionManager e tape). clear Hu.
    induction ops as [| o ops IH]; intros m0 H0; cbn [fold_left]; [exact H0 |].
    apply IH, mirror_runOp, H0. }
  unfold uniformsMirrorConfig in H. rewrite Hu in H. exact H.
Qed.

(** A style change, then a request. *)
Lemma curve_uniforms_mirror_config_witness :
  let ops := [Diffusion.OpSetPlumeStyle
                (Diffusion.mkStyleArgs None None None None (Some 2));
              Diffusion.OpAddSource 0 0 5] in
  let m := Diffusion.runOps ops (Diffusion.createDiffusionManager exampleEnv
                                   (fun _ => 0.5)) in
  exists u,
    Diffusion.points m = Some u /\
    Diffusion.uLifePow u = Diffusion.sizeCurveExp (Diffusion.plumeConfig m).
Proof.
  cbv zeta.
  match goal with
  | |- exists u, Diffusion.points ?m = Some u /\ _ =>
      destruct (Diffusion.points m) as [u |] eqn:E
  end.
  - exists u. split; [reflexivity |].
    exact (proj1 (curve_uniforms_mirror_config exampleEnv (fun _ => 0.5) _ u E)).
  - exfalso. revert E. cbn [Diffusion.runOps fold_left Diffusion.runOp].
    unfold Diffusion.addSource. cbv zeta. msimpl. apply points_ensurePoints.
Defined.

(** ** The debug burst *)

Lemma queue_tape_ensurePoints (m : Diffusion.Manager) :
  Diffusion.spawnQueue (Diffusion.ensurePoints m) = Diffusion.spawnQueue m /\
  Diffusion.randomPos (Diffusion.ensurePoints m) = Diffusion.randomPos m.
Proof.
  unfold Diffusion.ensurePoints. destruct (Diffusion.points m); split; reflexivity.
Qed.

Lemma queue_tape_setPlumeColor (c : option Z) (m : Diffusion.Manager) :
  Diffusion.spawnQueue (Diffusion.setPlumeColor c m) = Diffusion.spawnQueue m /\
  Diffusion.randomPos (Diffusion.setPlumeColor c m) = Diffusion.randomPos m.
Proof.
  unfold Diffusion.setPlumeColor, Diffusion.ensurePoints. msimpl.
  destruct (Diffusion.points m); split; reflexivity.
Qed.

Lemma queue_tape_setPlumeStyle (a : Diffusion.StyleArgs) (m : Diffusion.Manager) :
  Diffusion.spawnQueue (Diffusion.setPlumeStyle a m) = Diffusion.spawnQueue m /\
  Diffusion.randomPos (Diffusion.setPlumeStyle a m) = Diffusion.randomPos m.
Proof.
  unfold Diffusion.setPlumeStyle, Diffusion.ensurePoints. msimpl.
  destruct (Diffusion.points m) eqn:E; repeat (msimpl; rewrite ?E); split; reflexivity.
Qed.

Lemma queue_tape_setPlumeConfig (a : Diffusion.ConfigArgs) (m : Diffusion.Manager) :
  Diffusion.spawnQueue (Diffusion.setPlumeConfig a m) = Diffusion.spawnQueue m /\
  Diffusion.randomPos (Diffusion.setPlumeConfig a m) = Diffusion.randomPos m.
Proof.
  unfold Diffusion.setPlumeConfig, Diffusion.applyPlumeUniforms, Diffusion.ensurePoints.
  msimpl.
  destruct (Diffusion.a_requireIndicator a), (Diffusion.points m) eqn:E;
    repeat (msimpl; rewrite ?E); split; reflexivity.
Qed.

Lemma addSource_effect (x z : R) (n : Z) (m : Diffusion.Manager) :
  Diffusion.spawnQueue (Diffusion.addSource x z n m)
  = Diffusion.spawnQueue m ++ [Diffusion.mkRequest x z n false None None] /\
  Diffusion.randomPos (Diffusion.addSource x z n m) = Diffusion.randomPos m /\
  Diffusion.plumeConfig (Diffusion.addSource x z n m) = Diffusion.plumeConfig m.
Proof.
  unfold Diffusion.addSource, Diffusion.ensurePoints.
  destruct (Diffusion.points m); repeat split.
Qed.

(** The requests of a burst: single particles for the surface layer,
    within [lim] of the centre. *)
Lemma burstRing_effect (per : nat) (rad : R) :
  0 <= rad ->
  forall m,
    exists added,
      Diffusion.spawnQueue (Diffusion.burstRing per rad m)
      = Diffusion.spawnQueue m ++ added /\
      length added = per /\
      Forall (burstRequest rad) added /\
      Diffusion.randomPos (Diffusion.burstRing per rad m)
      = (Diffusion.randomPos m + per)%nat /\
      Diffusion.plumeConfig (Diffusion.burstRing per rad m) = Diffusion.plumeConfig m.
Proof.
  intros Hrad. induction per as [| k IH]; intros m; cbn [Diffusion.burstRing].
  - exists []. rewrite app_nil_r, Nat.add_0_r. repeat split. constructor.
  - cbv zeta.
    match goal with |- context [Diffusion.burstRing k rad ?x] => set (m1 := x) end.
    destruct (IH m1) as (added & Hq & Hlen & Hall & Hpos & Hcfg).
    match type of m1 with _ => idtac end.
    destruct (addSource_effect
                (cos (Diffusion.peekRandom m 0 * PI * 2) * rad)
                (sin (Diffusion.peekRandom m 0 * PI * 2) * rad) 1
                (Diffusion.skipRandom 1 m)) as (Hq1 & Hpos1 & Hcfg1).
    fold m1 in Hq1, Hpos1, Hcfg1.
    eexists (_ :: added). rewrite Hq, Hq1, Hpos, Hpos1, Hcfg, Hcfg1.
    rewrite <- app_assoc. cbn [app length].
    split; [reflexivity | split; [lia | split; [| split]]].
    + constructor; [| exact Hall].
      unfold burstRequest. cbn [Diffusion.reqCount Diffusion.bottom Diffusion.reqX
                                Diffusion.reqZ].
      rewrite Math_hypot_polar by exact Hrad. repeat split. lra.
    + unfold Diffusion.skipRandom. msimpl. lia.
    + reflexivity.
Qed.

Lemma burstRequest_weaken (rad lim : R) (l : list Diffusion.Request) :
  rad <= lim -> Forall (burstRequest rad) l -> Forall (burstRequest lim) l.
Proof.
  intros Hle H. eapply Forall_impl; [| exact H].
  intros r (H1 & H2 & H3). repeat split; try assumption. lra.
Qed.

Lemma burstRings_effect (per rings : nat) :
  forall ring m,
    exists added,
      Diffusion.spawnQueue (Diffusion.burstRings rings ring per m)
      = Diffusion.spawnQueue m ++ added /\
      length added = (rings * per)%nat /\
      Forall (burstRequest (0.02 * (INR ring + INR rings - 1))) added /\
      Diffusion.randomPos (Diffusion.burstRings rings ring per m)
      = (Diffusion.randomPos m + rings * per)%nat /\
      Diffusion.plumeConfig (Diffusion.burstRings rings ring per m)
      = Diffusion.plumeConfig m.
Proof.
  induction rings as [| n IH]; intros ring m; cbn [Diffusion.burstRings].
  - exists []. rewrite app_nil_r. cbn [Nat.mul length]. rewrite Nat.add_0_r.
    repeat split. constructor.
  - assert (Hrad : 0 <= 0.02 * INR ring) by (pose proof (pos_INR ring); lra).
    destruct (burstRing_effect per (0.02 * INR ring) Hrad m)
      as (a1 & Hq1 & Hl1 & Ha1 & Hp1 & Hc1).
    destruct (IH (S ring) (Diffusion.burstRing per (0.02 * INR ring) m))
      as (a2 & Hq2 & Hl2 & Ha2 & Hp2 & Hc2).
    exists (a1 ++ a2). rewrite Hq2, Hq1, Hp2, Hp1, Hc2, Hc1, <- app_assoc.
    rewrite length_app, Hl1, Hl2.
    split; [reflexivity | split; [cbn [Nat.mul]; lia | split; [| split]]].
    + rewrite !S_INR in *. pose proof (pos_INR n).
      apply Forall_app. split.
      * eapply burstRequest_weaken; [| exact Ha1]. lra.
      * eapply burstRequest_weaken; [| exact Ha2]. lra.
    + cbn [Nat.mul]. lia.
    + reflexivity.
Qed.

(** X15. [debugPlumeBurst({ count })] queues exactly
    [10 * max(1, floor(count / 10))] requests behind those already
    queued (so a [count] below 10, or even negative, still queues ten,
    and [count] is otherwise rounded down to a multiple of ten); each
    is a single-particle surface request within 0.18 of the centre;
    one random draw is consumed per request; and the call leaves the
    configuration at [spawnRate = 240], [maxActive = 900],
    [lifeSeconds = 2.2]. *)
Theorem debugPlumeBurst_queues_ten_rings :
  forall (count : R) (overrideColor : option Z) (m : Diffusion.Manager),
    let m' := Diffusion.debugPlumeBurst count overrideColor m in
    let per := Z.max 1 (Math_floor (count / 10)) in
    exists added,
      Diffusion.spawnQueue m' = Diffusion.spawnQueue m ++ added /\
      Z.of_nat (length added) = (10 * per)%Z /\
      Forall (fun r => Diffusion.reqCount r = 1%Z /\ Diffusion.bottom r = false /\
                       Math_hypot (Diffusion.reqX r) (Diffusion.reqZ r) <= 0.18) added /\
      Diffusion.randomPos m' = (Diffusion.randomPos m + length added)%nat /\
      Diffusion.spawnRate (Diffusion.plumeConfig m') = 240 /\
      Diffusion.maxActive (Diffusion.plumeConfig m') = 900 /\
      Diffusion.lifeSeconds (Diffusion.plumeConfig m') = 2.2.
Proof.
  intros count overrideColor m m' per. subst m'. unfold Diffusion.debugPlumeBurst.
  cbv zeta.
  match goal with |- context [Diffusion.burstRings 10 0 _ ?x] => set (m4 := x) end.
  destruct (burstRings_effect (Diffusion.burstPer count) 10 0 m4)
    as (added & Hq & Hlen & Hall & Hpos & Hcfg).
  exists added. rewrite Hq, Hpos, Hcfg, Hlen.
  assert (Hfr : Diffusion.spawnQueue m4 = Diffusion.spawnQueue m /\
                Diffusion.randomPos m4 = Diffusion.randomPos m).
  { subst m4.
    destruct (queue_tape_setPlumeConfig
                (Diffusion.mkArgs (Some 240) None (Some 2.2) (Some 900) None None (Some 0)
                                  None None None None None None None)
                (Diffusion.setPlumeStyle
                   (Diffusion.mkStyleArgs (Some 0.6) (Some 1) (Some 1) (Some 0.4) None)
                   (Diffusion.setPlumeColor overrideColor (Diffusion.ensurePoints m))))
      as [-> ->].
    destruct (queue_tape_setPlumeStyle
                (Diffusion.mkStyleArgs (Some 0.6) (Some 1) (Some 1) (Some 0.4) None)
                (Diffusion.setPlumeColor overrideColor (Diffusion.ensurePoints m)))
      as [-> ->].
    destruct (queue_tape_setPlumeColor overrideColor (Diffusion.ensurePoints m))
      as [-> ->].
    apply queue_tape_ensurePoints. }
  destruct Hfr as [-> ->].
  split; [reflexivity | split; [| split; [| split; [reflexivity |]]]].
  - unfold Diffusion.burstPer. subst per. lia.
  - eapply Forall_impl; [| exact Hall]. intros r (H1 & H2 & H3).
    repeat split; try assumption. cbn [INR] in H3. lra.
  - subst m4. rewrite plumeConfig_setPlumeConfig.
    cbn [Diffusion.setPlumeConfig_fields Diffusion.spawnRate Diffusion.maxActive
         Diffusion.lifeSeconds Diffusion.a_spawnRate Diffusion.a_maxActive
         Diffusion.a_lifeSeconds Diffusion.ifDefined].
    rewrite INR_maxParticles. unfold Math_min, Math_max.
    rewrite (Rmax_right 0 240), (Rmax_right 0 900), (Rmax_right 0.05 2.2),
      (Rmin_right 1000 900) by lra.
    repeat split.
Qed.

(** ** The throttle and the fade of the indicator field *)

Lemma Math_pow_le_base (b e : R) :
  0 < b < 1 -> 1 <= e -> Math_pow b e <= b.
Proof.
  intros [Hb0 Hb1] He. unfold Math_pow, Rpower.
  assert (Hln : ln b < 0) by (rewrite <- ln_1; apply ln_increasing; lra).
  rewrite <- (exp_ln b) at 2 by exact Hb0.
  destruct (Req_dec (e * ln b) (ln b)) as [-> | Hne]; [lra |].
  apply Rlt_le, exp_increasing. nra.
Qed.

(** X16. [step(dt)] is throttled to 30 Hz and fades the indicator field
    slowly.  While the accumulated time stays below 1/30 s the call only
    adds [dt] to the accumulator: canvas, global concentration and the
    sampling state are untouched.  A call that reaches 1/30 s runs one
    tick for the whole accumulated time and resets the accumulator; the
    canvas is redrawn from its blurred copies with an alpha in
    [0.998, 0.999], however long the accumulated time: a long pause
    takes at most 0.2 percent off the field, not more. *)
Theorem step_is_throttled_and_fades_slowly :
  forall (dt : R) (m : Diffusion.Manager),
    (Diffusion._diffuseAccum m + dt < 1 / 30 ->
     Diffusion.indicatorCanvas (Diffusion.step dt m) = Diffusion.indicatorCanvas m /\
     Diffusion.globalConc (Diffusion.step dt m) = Diffusion.globalConc m /\
     Diffusion._lastMean (Diffusion.step dt m) = Diffusion._lastMean m /\
     Diffusion._concAccum (Diffusion.step dt m) = Diffusion._concAccum m /\
     Diffusion._diffuseAccum (Diffusion.step dt m) = Diffusion._diffuseAccum m + dt) /\
    (1 / 30 <= Diffusion._diffuseAccum m + dt ->
     Diffusion._diffuseAccum (Diffusion.step dt m) = 0 /\
     exists alpha,
       0.998 <= alpha <= 0.999 /\
       Diffusion.indicatorCanvas (Diffusion.step dt m)
       = Diffusion.canvasBlurBlend (Diffusion.env m) alpha (Diffusion.indicatorCanvas m)).
Proof.
  intros dt m. split; intros H.
  - assert (E : Diffusion.stepExecutes dt m = false).
    { unfold Diffusion.stepExecutes. apply negb_false_iff, Rltb_true. exact H. }
    unfold Diffusion.step. rewrite E. cbn [negb]. repeat split.
  - assert (E : Diffusion.stepExecutes dt m = true).
    { unfold Diffusion.stepExecutes. apply negb_true_iff, Rltb_false. exact H. }
    assert (Hm : Diffusion._diffuseAccum (Diffusion.step dt m) = 0 /\
                 Diffusion.indicatorCanvas (Diffusion.step dt m)
                 = Diffusion.stepCanvas dt m).
    { unfold Diffusion.step. rewrite E. cbn [negb]. cbv zeta.
      destruct (Diffusion.stepResamples dt m); msimpl;
        destruct (Diffusion.waterUniforms m) eqn:Hw; repeat (msimpl; rewrite ?Hw);
        split; reflexivity. }
    destruct Hm as [Hacc Hcanvas]. split; [exact Hacc |].
    rewrite Hcanvas. unfold Diffusion.stepCanvas. cbv zeta.
    eexists. split; [| reflexivity]. split; [apply Math_max_r |].
    unfold Math_max at 1. apply Rmax_lub; [| lra].
    apply Math_pow_le_base; [lra | apply Math_max_l].
Qed.

(** A bound fresh manager: a call of 0.01 s only accumulates, a call of
    0.1 s runs a tick. *)
Lemma step_is_throttled_and_fades_slowly_witness :
  Diffusion._diffuseAccum boundManager + 0.01 < 1 / 30 /\
  Diffusion._diffuseAccum (Diffusion.step 0.01 boundManager)
  = Diffusion._diffuseAccum boundManager + 0.01 /\
  1 / 30 <= Diffusion._diffuseAccum boundManager + 0.1 /\
  Diffusion._diffuseAccum (Diffusion.step 0.1 boundManager) = 0.
Proof.
  assert (H0 : Diffusion._diffuseAccum boundManager = 0) by reflexivity.
  assert (H1 : Diffusion._diffuseAccum boundManager + 0.01 < 1 / 30)
    by (rewrite H0; lra).
  assert (H2 : 1 / 30 <= Diffusion._diffuseAccum boundManager + 0.1)
    by (rewrite H0; lra).
  split; [exact H1 | split; [| split; [exact H2 |]]].
  - exact (proj2 (proj2 (proj2 (proj2
             (proj1 (step_is_throttled_and_fades_slowly 0.01 boundManager) H1))))).
  - exact (proj1 (proj2 (step_is_throttled_and_fades_slowly 0.1 boundManager) H2)).
Defined.

(** * Further properties of the powder *)

(** ** Grains stay inside the beaker *)








Lemma dissolvePhase_grains (dt : R) (b : Powder.Batch) :
  sameGeometry b (Powder.dissolvePhase dt b) /\
  Powder.grains (Powder.dissolvePhase dt b) = Powder.grains b.
Proof. unfold Powder.dissolvePhase. cbv zeta. split; [repeat split | reflexivity]. Qed.





(** ** Settled flags *)

Lemma sameSettled_refl (l : list Powder.Grain) : sameSettled l l.
Proof. induction l; constructor; auto. Qed.

Lemma sameSettled_trans (a b c : list Powder.Grain) :
  sameSettled a b -> sameSettled b c -> sameSettled a c.
Proof.
  unfold sameSettled. intros H. revert c.
  induction H as [| x y l l' Hxy _ IH]; intros c Hc; inversion Hc; subst;
    constructor; [congruence | apply IH; assumption].
Qed.

Lemma keepsSettled_trans (a b c : list Powder.Grain) :
  keepsSettled a b -> keepsSettled b c -> keepsSettled a c.
Proof.
  unfold keepsSettled. intros H. revert c.
  induction H as [| x y l l' Hxy _ IH]; intros c Hc; inversion Hc; subst;
    constructor; [auto | apply IH; assumption].
Qed.

Lemma sameSettled_keeps (l l' : list Powder.Grain) :
  sameSettled l l' -> keepsSettled l l'.
Proof.
  intros H. eapply Forall2_impl; [| exact H]. cbn. intros g g' -> E. exact E.
Qed.

Lemma keepsSettled_count (l l' : list Powder.Grain) :
  keepsSettled l l' -> (Powder.settledCount l <= Powder.settledCount l')%nat.
Proof.
  induction 1 as [| g g' l l' Hg _ IH]; [cbn; lia |].
  rewrite !settledCount_cons.
  destruct (Powder.settled g); [rewrite (Hg eq_refl); lia |].
  destruct (Powder.settled g'); lia.
Qed.

Lemma sameSettled_count (l l' : list Powder.Grain) :
  sameSettled l l' -> Powder.settledCount l' = Powder.settledCount l.
Proof.
  induction 1 as [| g g' l l' Hg _ IH]; [reflexivity |].
  rewrite !settledCount_cons, Hg, IH. reflexivity.
Qed.

Lemma dropGrain_keeps_settled (dt : R) (b : Powder.Batch) (acc : Powder.DropAcc)
      (g : Powder.Grain) :
  Powder.settled g = true -> Powder.settled (fst (Powder.dropGrain dt b acc g)) = true.
Proof.
  intros Hs. unfold Powder.dropGrain. cbv zeta.
  repeat match goal with
         | |- context [let '(a, b) := ?c in _] => destruct c as [? ?]
         end.
  cbn [fst Powder.settled]. rewrite Hs.
  match goal with |- (if ?c then _ else _) = _ => destruct c end; reflexivity.
Qed.

Lemma dropLoop_keeps_settled (dt : R) (b : Powder.Batch) (l : list Powder.Grain) :
  forall acc, keepsSettled l (fst (Powder.dropLoop dt b acc l)).
Proof.
  induction l as [| g rest IH]; intros acc; cbn [Powder.dropLoop]; [constructor |].
  pose proof (dropGrain_keeps_settled dt b acc g) as Hg.
  destruct (Powder.dropGrain dt b acc g) as [g' acc1]. cbn [fst] in Hg.
  specialize (IH acc1).
  destruct (Powder.dropLoop dt b acc1 rest) as [rest' acc2]. cbn [fst] in *.
  constructor; assumption.
Qed.

Lemma swirlGrain_settled (dt : R) (b : Powder.Batch) (g : Powder.Grain) :
  Powder.settled (Powder.swirlGrain dt b g) = Powder.settled g.
Proof.
  unfold Powder.swirlGrain. cbv zeta.
  repeat match goal with
         | |- context [let '(a, b) := ?c in _] => destruct c as [? ?]
         end.
  reflexivity.
Qed.

Lemma swirlPhase_settled (dt : R) (b : Powder.Batch) :
  sameSettled (Powder.grains b) (Powder.grains (Powder.swirlPhase dt b)).
Proof.
  unfold Powder.swirlPhase. cbn [Powder.grains].
  induction (Powder.grains b) as [| g rest IH]; cbn [map]; constructor;
    [apply swirlGrain_settled | exact IH].
Qed.

(** After the drop phase of a tick, if there is one: the settled flags
    are kept, and they are the same when the batch was not dropping. *)
Lemma updateBatch_settled (dt : R) (n : nat) (b : Powder.Batch) :
  keepsSettled (Powder.grains b) (Powder.grains (fst (Powder.updateBatch dt n b))) /\
  (Powder.dropping b = false ->
   sameSettled (Powder.grains b) (Powder.grains (fst (Powder.updateBatch dt n b)))).
Proof.
  unfold Powder.updateBatch.
  destruct (Powder.dead b);
    [cbn [fst]; split; [apply sameSettled_keeps |]; auto using sameSettled_refl |].
  destruct (negb (Powder.visible b) && negb (Powder.dropping b)
            && negb (Powder.swirling b) && negb (Powder.dissolveActive b));
    [cbn [fst]; split; [apply sameSettled_keeps |]; auto using sameSettled_refl |].
  set (b1c := if Powder.dropping b then Powder.dropPhase dt n b else (b, [])).
  assert (H1 : keepsSettled (Powder.grains b) (Powder.grains (fst b1c)) /\
               (Powder.dropping b = false -> fst b1c = b)).
  { subst b1c. destruct (Powder.dropping b).
    - split; [| discriminate]. unfold Powder.dropPhase.
      pose proof (dropLoop_keeps_settled dt b (Powder.grains b)
                    (Powder.mkDropAcc (Powder.enterNotified b) 0 [])) as H.
      destruct (Powder.dropLoop dt b _ (Powder.grains b)) as [gs acc]. exact H.
    - split; [apply sameSettled_keeps, sameSettled_refl | reflexivity]. }
  destruct b1c as [b1 calls]. cbn [fst] in *. destruct H1 as [Hk1 He1].
  set (b2 := if negb (Powder.dropping b1) && Powder.swirling b1
             then Powder.swirlPhase dt b1 else b1).
  assert (H2 : sameSettled (Powder.grains b1) (Powder.grains b2)).
  { subst b2. destruct (negb (Powder.dropping b1) && Powder.swirling b1);
      [apply swirlPhase_settled | apply sameSettled_refl]. }
  assert (H3 : Powder.grains (if Powder.dissolveActive b2
                              then Powder.dissolvePhase dt b2 else b2)
               = Powder.grains b2).
  { destruct (Powder.dissolveActive b2); [apply dissolvePhase_grains | reflexivity]. }
  rewrite H3. split.
  - eapply keepsSettled_trans; [exact Hk1 | apply sameSettled_keeps, H2].
  - intros Hd. rewrite (He1 Hd) in H2. exact H2.
Qed.

(** X18. [update] never clears a settled flag and never changes the
    number of grains of a batch: grain by grain, a flag that is set
    stays set, so the number of settled grains (which decides when the
    batch feeds the bottom plume) never goes down; and outside the
    dropping state no flag changes at all, so swirling a batch does not
    unsettle it. *)
Theorem settled_flags_are_never_cleared :
  forall (dt : R) (n : nat) (b : Powder.Batch),
    let b' := fst (Powder.updateBatch dt n b) in
    length (Powder.grains b') = length (Powder.grains b) /\
    (forall i g,
        nth_error (Powder.grains b) i = Some g ->
        Powder.settled g = true ->
        exists g', nth_error (Powder.grains b') i = Some g' /\
                   Powder.settled g' = true) /\
    (Powder.settledCount (Powder.grains b) <= Powder.settledCount (Powder.grains b'))%nat /\
    (Powder.dropping b = false ->
     Powder.settledCount (Powder.grains b') = Powder.settledCount (Powder.grains b)).
Proof.
  intros dt n b b'. destruct (updateBatch_settled dt n b) as [Hk Hs]. fold b' in Hk, Hs.
  split; [symmetry; exact (Forall2_length Hk) | split; [| split]].
  - unfold keepsSettled in Hk. revert Hk.
    generalize (Powder.grains b) (Powder.grains b'). intros l l' H.
    induction H as [| x y l l' Hxy _ IH]; intros i g Hi Hg.
    + destruct i; discriminate.
    + destruct i as [| i]; cbn [nth_error] in *.
      * injection Hi as ->. exists y. split; [reflexivity | auto].
      * eauto.
  - apply keepsSettled_count. exact Hk.
  - intros Hd. apply sameSettled_count, Hs, Hd.
Qed.

(** The idle batch of scenario C keeps its 25 settled grains. *)
Lemma settled_flags_are_never_cleared_witness :
  Powder.dropping idleBatch = false /\
  Powder.settledCount (Powder.grains (fst (Powder.updateBatch 0.1 25 idleBatch)))
  = Powder.settledCount (Powder.grains idleBatch).
Proof.
  assert (Hd : Powder.dropping idleBatch = false) by reflexivity.
  split; [exact Hd |].
  exact (proj2 (proj2 (proj2 (settled_flags_are_never_cleared 0.1 25 idleBatch))) Hd).
Defined.

(** ** The water-entry callback *)

Lemma dropGrain_notifies (dt : R) (b : Powder.Batch) (acc : Powder.DropAcc)
      (g : Powder.Grain) :
  let acc' := snd (Powder.dropGrain dt b acc g) in
  exists cs,
    Powder.accCalls acc' = Powder.accCalls acc ++ cs /\
    Forall (entersWaterOf b) cs /\
    (length cs
     + notifyBudget (Powder.onEnterWater b) (Powder.accNotified acc')
                    (Powder.waterSurfaceY b)
     <= notifyBudget (Powder.onEnterWater b) (Powder.accNotified acc)
                     (Powder.waterSurfaceY b))%nat.
Proof.
  unfold Powder.dropGrain. cbv zeta.
  set (inWater := match Powder.waterSurfaceY b with
                  | Some w => Rleb (Powder.vY (Powder.position b) + Powder.gY g) (w - 0.001)
                  | None => false
                  end).
  set (notify := inWater && negb (Powder.accNotified acc) && Powder.onEnterWater b).
  repeat match goal with
         | |- context [let '(a, b) := ?c in _] => destruct c as [? ?]
         end.
  cbn [snd Powder.accCalls Powder.accNotified].
  eexists. split; [reflexivity |].
  unfold notifyBudget. subst notify inWater.
  destruct (Powder.waterSurfaceY b) as [w |] eqn:Hw;
    destruct (Powder.accNotified acc), (Powder.onEnterWater b);
    cbn [andb negb orb]; rewrite ?andb_false_r; cbn [andb negb orb length Nat.add];
    try (split; [constructor | lia]);
    match goal with |- context [Rleb ?a ?c] => destruct (Rleb a c) end;
    cbn [andb negb orb length Nat.add]; split; try constructor; try lia; try constructor.
  eexists. split; [reflexivity | cbn [Powder.vY]; exact Hw].
Qed.

Lemma dropLoop_notifies (dt : R) (b : Powder.Batch) (l : list Powder.Grain) :
  forall acc,
    let acc' := snd (Powder.dropLoop dt b acc l) in
    exists cs,
      Powder.accCalls acc' = Powder.accCalls acc ++ cs /\
      Forall (entersWaterOf b) cs /\
      (length cs
       + notifyBudget (Powder.onEnterWater b) (Powder.accNotified acc')
                      (Powder.waterSurfaceY b)
       <= notifyBudget (Powder.onEnterWater b) (Powder.accNotified acc)
                       (Powder.waterSurfaceY b))%nat.
Proof.
  induction l as [| g rest IH]; intros acc; cbn [Powder.dropLoop].
  - cbn [snd]. exists []. rewrite app_nil_r. split; [reflexivity |].
    split; [constructor | cbn [length]; lia].
  - destruct (dropGrain_notifies dt b acc g) as (c1 & Hc1 & Hf1 & Hb1).
    destruct (Powder.dropGrain dt b acc g) as [g' acc1]. cbn [snd] in *.
    destruct (IH acc1) as (c2 & Hc2 & Hf2 & Hb2).
    destruct (Powder.dropLoop dt b acc1 rest) as [rest' acc2]. cbn [snd] in *.
    exists (c1 ++ c2). rewrite Hc2, Hc1, app_assoc, length_app.
    split; [reflexivity | split; [apply Forall_app; auto | lia]].
Qed.

(** The callbacks of one tick of one batch, and what is left of the
    batch's budget of callbacks. *)
Lemma updateBatch_notifies (dt : R) (n : nat) (b : Powder.Batch) :
  let b' := fst (Powder.updateBatch dt n b) in
  let calls := snd (Powder.updateBatch dt n b) in
  Powder.onEnterWater b' = Powder.onEnterWater b /\
  Powder.waterSurfaceY b' = Powder.waterSurfaceY b /\
  Forall (entersWaterOf b) calls /\
  (length calls + batchNotifyBudget b' <= batchNotifyBudget b)%nat.
Proof.
  cbv zeta. unfold Powder.updateBatch.
  destruct (Powder.dead b);
    [cbn [fst snd length]; repeat split; [constructor | lia] |].
  destruct (negb (Powder.visible b) && negb (Powder.dropping b)
            && negb (Powder.swirling b) && negb (Powder.dissolveActive b));
    [cbn [fst snd length]; repeat split; [constructor | lia] |].
  set (b1c := if Powder.dropping b then Powder.dropPhase dt n b else (b, [])).
  assert (H1 : Powder.onEnterWater (fst b1c) = Powder.onEnterWater b /\
               Powder.waterSurfaceY (fst b1c) = Powder.waterSurfaceY b /\
               Forall (entersWaterOf b) (snd b1c) /\
               (length (snd b1c) + batchNotifyBudget (fst b1c) <= batchNotifyBudget b)%nat).
  { subst b1c. destruct (Powder.dropping b);
      [| cbn [fst snd length]; repeat split; [constructor | lia]].
    unfold Powder.dropPhase.
    destruct (dropLoop_notifies dt b (Powder.grains b)
                (Powder.mkDropAcc (Powder.enterNotified b) 0 []))
      as (cs & Hcs & Hf & Hb).
    destruct (Powder.dropLoop dt b _ (Powder.grains b)) as [gs acc].
    cbn [fst snd Powder.accCalls Powder.accNotified app] in *. subst cs.
    unfold batchNotifyBudget.
    cbn [Powder.onEnterWater Powder.enterNotified Powder.waterSurfaceY].
    repeat split; assumption. }
  destruct b1c as [b1 calls]. cbn [fst snd] in *.
  destruct H1 as (Ho1 & Hw1 & Hf1 & Hb1).
  set (b2 := if negb (Powder.dropping b1) && Powder.swirling b1
             then Powder.swirlPhase dt b1 else b1).
  assert (H2 : Powder.onEnterWater b2 = Powder.onEnterWater b1 /\
               Powder.waterSurfaceY b2 = Powder.waterSurfaceY b1 /\
               Powder.enterNotified b2 = Powder.enterNotified b1).
  { subst b2. destruct (negb (Powder.dropping b1) && Powder.swirling b1);
      repeat split. }
  destruct H2 as (Ho2 & Hw2 & Hn2).
  set (b3 := if Powder.dissolveActive b2 then Powder.dissolvePhase dt b2 else b2).
  assert (H3 : Powder.onEnterWater b3 = Powder.onEnterWater b2 /\
               Powder.waterSurfaceY b3 = Powder.waterSurfaceY b2 /\
               Powder.enterNotified b3 = Powder.enterNotified b2).
  { subst b3. destruct (Powder.dissolveActive b2); repeat split. }
  destruct H3 as (Ho3 & Hw3 & Hn3).
  split; [congruence | split; [congruence | split; [exact Hf1 |]]].
  unfold batchNotifyBudget in *. rewrite Ho3, Hw3, Hn3, Ho2, Hw2, Hn2. exact Hb1.
Qed.

Lemma runBatch_notifies (dts : list R) (n : nat) :
  forall b,
    Forall (entersWaterOf b) (snd (runBatch dts n b)) /\
    (length (snd (runBatch dts n b)) + batchNotifyBudget (fst (runBatch dts n b))
     <= batchNotifyBudget b)%nat.
Proof.
  induction dts as [| dt rest IH]; intros b; cbn [runBatch].
  - cbn [fst snd length]. split; [constructor | lia].
  - destruct (updateBatch_notifies dt n b) as (Ho & Hw & Hf & Hb).
    destruct (Powder.updateBatch dt n b) as [b1 c1]. cbn [fst snd] in *.
    destruct (IH b1) as [Hf2 Hb2].
    destruct (runBatch rest n b1) as [b2 c2]. cbn [fst snd] in *.
    rewrite length_app. split; [| lia].
    apply Forall_app. split; [exact Hf |].
    eapply Forall_impl; [| exact Hf2].
    intros c (p & -> & Hp). exists p. split; [reflexivity | congruence].
Qed.

(** X19. Over any run of [update] ticks a batch calls its
    [onEnterWater] callback at most once, and not at all when it has
    already notified, when no callback was supplied or when the water
    surface is unknown.  [update] makes no other call on behalf of the
    batch itself, the point handed to the callback lies at the height
    of the water surface, and after the call the batch is marked as
    having notified. *)
Theorem onEnterWater_called_at_most_once :
  forall (dts : list R) (n : nat) (b : Powder.Batch),
    let b' := fst (runBatch dts n b) in
    let calls := snd (runBatch dts n b) in
    (length calls <= 1)%nat /\
    (forall c, In c calls ->
               exists p, c = Powder.CallOnEnterWater p /\
                         Powder.waterSurfaceY b = Some (Powder.vY p)) /\
    (Powder.enterNotified b = true \/ Powder.onEnterWater b = false \/
     Powder.waterSurfaceY b = None -> calls = []) /\
    (calls <> [] -> Powder.enterNotified b' = true).
Proof.
  intros dts n b b' calls. destruct (runBatch_notifies dts n b) as [Hf Hb].
  fold b' calls in Hf, Hb.
  assert (Hle : (batchNotifyBudget b <= 1)%nat).
  { unfold batchNotifyBudget, notifyBudget. destruct (_ || _); lia. }
  split; [lia | split; [| split]].
  - intros c Hin. rewrite Forall_forall in Hf. exact (Hf c Hin).
  - intros Hno.
    assert (H0 : batchNotifyBudget b = O).
    { unfold batchNotifyBudget, notifyBudget.
      destruct Hno as [-> | [-> | ->]]; cbn [negb orb]; rewrite ?orb_true_r; reflexivity. }
    destruct calls; [reflexivity | cbn [length] in Hb; lia].
  - intros Hne.
    assert (H0 : batchNotifyBudget b' = O) by (destruct calls; [congruence | cbn in Hb; lia]).
    assert (Hone : batchNotifyBudget b = 1%nat) by (destruct calls; [congruence | cbn in Hb; lia]).
    unfold batchNotifyBudget, notifyBudget in H0, Hone.
    assert (HO : Powder.onEnterWater b' = Powder.onEnterWater b /\
                 Powder.waterSurfaceY b' = Powder.waterSurfaceY b).
    { subst b'. clear. revert b.
      induction dts as [| dt rest IH]; intros b; cbn [runBatch]; [split; reflexivity |].
      destruct (updateBatch_notifies dt n b) as (Ho & Hw & _).
      destruct (Powder.updateBatch dt n b) as [b1 c1]. cbn [fst] in *.
      specialize (IH b1). destruct (runBatch rest n b1) as [b2 c2]. cbn [fst] in *.
      split; [rewrite (proj1 IH); exact Ho | rewrite (proj2 IH); exact Hw]. }
    destruct HO as [HO HW]. rewrite HO, HW in H0.
    destruct (Powder.enterNotified b'); [reflexivity |].
    destruct (Powder.enterNotified b), (Powder.onEnterWater b), (Powder.waterSurfaceY b);
      cbn in H0, Hone; discriminate.
Qed.

(** The idle batch of scenario C has no callback: three ticks, no call. *)
Lemma onEnterWater_called_at_most_once_witness :
  (Powder.enterNotified idleBatch = true \/ Powder.onEnterWater idleBatch = false \/
   Powder.waterSurfaceY idleBatch = None) /\
  snd (runBatch [0.1; 0.1; 0.1] 25 idleBatch) = [].
Proof.
  assert (H : Powder.enterNotified idleBatch = true \/
              Powder.onEnterWater idleBatch = false \/
              Powder.waterSurfaceY idleBatch = None) by (right; left; reflexivity).
  split; [exact H |].
  exact (proj1 (proj2 (proj2 (onEnterWater_called_at_most_once
                                [0.1; 0.1; 0.1] 25 idleBatch))) H).
Defined.

(** ** The rate of the bottom bursts *)

Lemma emitLoop_bursts (s : Powder.System) (d : Powder.Handle) (bs : list Powder.Batch) :
  (length (Powder.bottomSourceCalls (fst (Powder.emitLoop s d bs))) <= 1)%nat /\
  Forall standardBurst (Powder.bottomSourceCalls (fst (Powder.emitLoop s d bs))).
Proof.
  induction bs as [| b rest IH]; cbn [Powder.emitLoop];
    [cbn; split; [lia | constructor] |].
  destruct (_ || _); [exact IH |].
  destruct (Nat.ltb _ _); [exact IH |].
  unfold Powder.emitFrom.
  destruct (Powder.settledSums (Powder.grains b)) as [[sx sz] sc].
  assert (Hburst : forall lx lz,
             standardBurst
               (Powder.CallAddBottomSource lx lz (Z.of_nat Powder.plumePerBurst)
                  (Diffusion.mkBottomOpts (Powder.reactionColor (Powder.chemPHScore s))
                                          false 0.70 0.23 1.00))).
  { intros lx lz. eexists _, _, _. split; [reflexivity |]. split; [reflexivity |].
    cbn [Diffusion.o_color]. unfold Powder.reactionColor.
    destruct (Powder.chemPHScore s); [destruct (Rgtb _ _) |]; auto. }
  destruct (Powder._beakerGroup b);
    (destruct (Powder.has_addBottomSource d);
     [| cbn [fst]; rewrite fallbackSources_calls; cbn; split; [lia | constructor]]);
    (destruct (Powder.isIndicatorEnabled d) as [[|] |];
     cbn [fst Powder.bottomSourceCalls filter Powder.isBottomCall length];
     (split; [lia |]);
     first [ apply Forall_nil | apply Forall_cons; [apply Hburst | apply Forall_nil] ]).
Qed.

Lemma emitPhase_bursts (dt : R) (s : Powder.System) :
  0 <= dt ->
  0 <= Powder.plumeSpawnAccum s ->
  let s' := fst (Powder.emitPhase dt s) in
  let calls := Powder.bottomSourceCalls (snd (Powder.emitPhase dt s)) in
  0 <= Powder.plumeSpawnAccum s' /\
  Powder.plumeSpawnInterval * INR (length calls) + Powder.plumeSpawnAccum s'
  <= Powder.plumeSpawnAccum s + dt /\
  Forall standardBurst calls.
Proof.
  intros Hdt Hacc. cbv zeta. unfold Powder.emitPhase, Powder.plumeSpawnInterval.
  destruct (Powder.diffusion s) as [d |];
    [| cbn [fst snd Powder.bottomSourceCalls filter length INR];
       split; [lra | split; [lra | constructor]]].
  destruct (existsb Powder.swirling (Powder.batches s));
    [cbn [fst snd Powder.bottomSourceCalls filter length INR];
     split; [lra | split; [lra | constructor]] |].
  cmp_case (Rgeb (Powder.plumeSpawnAccum s + dt) 0.12).
  - destruct (emitLoop_bursts s d (Powder.batches s)) as [Hlen Hall].
    destruct (Powder.emitLoop s d (Powder.batches s)) as [calls used].
    cbn [fst snd Powder.plumeSpawnAccum] in *.
    split; [lra | split; [| exact Hall]].
    assert (Hk : INR (length (Powder.bottomSourceCalls calls)) <= 1)
      by (change 1 with (INR 1); apply le_INR; exact Hlen).
    pose proof (pos_INR (length (Powder.bottomSourceCalls calls))). nra.
  - cbn [fst snd Powder.plumeSpawnAccum Powder.bottomSourceCalls filter length INR].
    split; [lra | split; [lra | constructor]].
Qed.

Lemma update_bursts (dt : R) (s : Powder.System) :
  0 <= dt ->
  0 <= Powder.plumeSpawnAccum s ->
  let s' := fst (Powder.update dt s) in
  let calls := Powder.bottomSourceCalls (snd (Powder.update dt s)) in
  0 <= Powder.plumeSpawnAccum s' /\
  Powder.plumeSpawnInterval * INR (length calls) + Powder.plumeSpawnAccum s'
  <= Powder.plumeSpawnAccum s + dt /\
  Forall standardBurst calls.
Proof.
  intros Hdt Hacc. cbv zeta. unfold Powder.update.
  pose proof (updateBatches_calls dt (Powder.count s) (Powder.batches s)) as Hc1.
  destruct (Powder.updateBatches dt (Powder.count s) (Powder.batches s)) as [bs c1].
  cbn [snd] in Hc1.
  match goal with |- context [Powder.emitPhase dt ?x] => set (s1 := x) end.
  pose proof (emitPhase_bursts dt s1 Hdt Hacc) as H.
  destruct (Powder.emitPhase dt s1) as [s2 c2]. cbn [fst snd] in *.
  rewrite bottomSourceCalls_app, Hc1. exact H.
Qed.

(** X20. The powder feeds the bottom plume at a bounded rate.  Over any
    run of frames with non-negative [dt], whatever diffusion object is
    attached in each frame, the number of [addBottomSource] calls made
    is at most the elapsed time (plus the time already accumulated)
    divided by the burst interval of 0.12 s; and every such call asks
    for 18 particles, with [ignoreIndicator: false], in blue or green. *)
Theorem bottom_bursts_are_rate_limited :
  forall (frames : list (R * option Powder.Handle)) (s : Powder.System),
    Forall (fun f => 0 <= fst f) frames ->
    0 <= Powder.plumeSpawnAccum s ->
    let calls := Powder.bottomSourceCalls (snd (runUpdates frames s)) in
    0.12 * INR (length calls) <= Powder.plumeSpawnAccum s + sumR (map fst frames) /\
    Forall standardBurst calls.
Proof.
  intros frames s Hdts Hacc calls. subst calls.
  assert (H : 0 <= Powder.plumeSpawnAccum (fst (runUpdates frames s)) /\
              Powder.plumeSpawnInterval
              * INR (length (Powder.bottomSourceCalls (snd (runUpdates frames s))))
              + Powder.plumeSpawnAccum (fst (runUpdates frames s))
              <= Powder.plumeSpawnAccum s + sumR (map fst frames) /\
              Forall standardBurst (Powder.bottomSourceCalls (snd (runUpdates frames s)))).
  { revert s Hacc. induction Hdts as [| [dt d] rest Hdt _ IH]; intros s Hacc;
      cbn [runUpdates map sumR fold_right].
    - cbn [fst snd Powder.bottomSourceCalls filter length INR].
      split; [exact Hacc | split; [lra | constructor]].
    - cbn [fst] in Hdt. fold (sumR (map fst rest)).
      pose proof (update_bursts dt (Powder.setDiffusionManager d s) Hdt Hacc) as H1.
      destruct (Powder.update dt (Powder.setDiffusionManager d s)) as [s1 c1].
      cbn [fst snd] in H1. destruct H1 as (Ha1 & Hb1 & Hf1).
      specialize (IH s1 Ha1).
      destruct (runUpdates rest s1) as [s2 c2]. cbn [fst snd] in *.
      destruct IH as (Ha2 & Hb2 & Hf2).
      rewrite bottomSourceCalls_app, length_app, plus_INR.
      change (Powder.plumeSpawnAccum (Powder.setDiffusionManager d s))
        with (Powder.plumeSpawnAccum s) in Hb1.
      split; [exact Ha2 | split; [nra | apply Forall_app; auto]]. }
  destruct H as (Ha & Hb & Hf). unfold Powder.plumeSpawnInterval in Hb.
  split; [lra | exact Hf].
Qed.

(** Scenario C with the indicator on: one frame of 0.2 s. *)
Lemma bottom_bursts_are_rate_limited_witness :
  Forall (fun f => 0 <= fst f) burstFrames /\
  0 <= Powder.plumeSpawnAccum scenarioCOn /\
  0.12 * INR (length (Powder.bottomSourceCalls (snd (runUpdates burstFrames scenarioCOn))))
  <= Powder.plumeSpawnAccum scenarioCOn + sumR (map fst burstFrames).
Proof.
  assert (H1 : Forall (fun f => 0 <= fst f) burstFrames).
  { unfold burstFrames. constructor; [cbn [fst]; lra | constructor]. }
  assert (H2 : 0 <= Powder.plumeSpawnAccum scenarioCOn).
  { unfold scenarioCOn. cbn [Powder.plumeSpawnAccum]. lra. }
  split; [exact H1 | split; [exact H2 |]].
  exact (proj1 (bottom_bursts_are_rate_limited burstFrames scenarioCOn H1 H2)).
Defined.

(** ** No emission while a batch is swirling *)

Lemma updateBatches_enter_only (dt : R) (n : nat) (bs : list Powder.Batch) :
  Forall (fun c => exists p, c = Powder.CallOnEnterWater p)
         (snd (Powder.updateBatches dt n bs)).
Proof.
  induction bs as [| b rest IH]; cbn [Powder.updateBatches]; [constructor |].
  destruct (updateBatch_notifies dt n b) as (_ & _ & Hf & _).
  destruct (Powder.updateBatch dt n b) as [b' c1].
  destruct (Powder.updateBatches dt n rest) as [rest' c2]. cbn [snd] in *.
  apply Forall_app. split; [| exact IH].
  eapply Forall_impl; [| exact Hf]. intros c (p & -> & _). exists p. reflexivity.
Qed.

Lemma batches_emitPhase (dt : R) (s : Powder.System) :
  Powder.batches (fst (Powder.emitPhase dt s)) = Powder.batches s.
Proof.
  unfold Powder.emitPhase.
  destruct (Powder.diffusion s); [| reflexivity].
  destruct (existsb _ _); [reflexivity |].
  destruct (Rgeb _ _); [destruct (Powder.emitLoop _ _ _) |]; reflexivity.
Qed.

Lemma update_silent_while_swirling (dt : R) (s : Powder.System) :
  existsb Powder.swirling (Powder.batches (fst (Powder.update dt s))) = true ->
  Forall (fun c => exists p, c = Powder.CallOnEnterWater p) (snd (Powder.update dt s)) /\
  Powder.plumeSpawnAccum (fst (Powder.update dt s)) = Powder.plumeSpawnAccum s.
Proof.
  unfold Powder.update.
  pose proof (updateBatches_enter_only dt (Powder.count s) (Powder.batches s)) as Hc1.
  destruct (Powder.updateBatches dt (Powder.count s) (Powder.batches s)) as [bs c1].
  cbn [snd] in Hc1.
  match goal with |- context [Powder.emitPhase dt ?x] => set (s1 := x) end.
  pose proof (batches_emitPhase dt s1) as Hb.
  assert (He : existsb Powder.swirling (Powder.batches s1) = true ->
               Powder.emitPhase dt s1 = (s1, [])).
  { intros H. unfold Powder.emitPhase. rewrite H.
    destruct (Powder.diffusion s1); reflexivity. }
  destruct (Powder.emitPhase dt s1) as [s2 c2]. cbn [fst snd] in *.
  rewrite Hb. intros Hsw. specialize (He Hsw). injection He as -> ->.
  rewrite app_nil_r. split; [exact Hc1 | reflexivity].
Qed.

(** X21. A frame at whose end some batch is swirling makes no call on
    the diffusion object at all, neither [addBottomSource] nor
    [addSource], however many grains have settled and whatever the
    indicator says; the only calls of the frame are water-entry
    callbacks.  The burst timer is not advanced either: it stands
    still while the powder is being stirred. *)
Theorem no_emission_while_swirling :
  forall (dt : R) (s : Powder.System),
    existsb Powder.swirling (Powder.batches (fst (Powder.update dt s))) = true ->
    Forall (fun c => exists p, c = Powder.CallOnEnterWater p) (snd (Powder.update dt s)) /\
    Powder.plumeSpawnAccum (fst (Powder.update dt s)) = Powder.plumeSpawnAccum s.
Proof.
  intros dt s. apply update_silent_while_swirling.
Qed.

(** ** The end of a swirl and of a dissolve *)

Lemma dropPhase_other_fields (dt : R) (n : nat) (b : Powder.Batch) :
  let b' := fst (Powder.dropPhase dt n b) in
  Powder.visible b' = Powder.visible b /\
  Powder.materialOpacity b' = Powder.materialOpacity b /\
  Powder.swirling b' = Powder.swirling b /\
  Powder.swirlElapsed b' = Powder.swirlElapsed b /\
  Powder.swirlDuration b' = Powder.swirlDuration b /\
  Powder.dissolveActive b' = Powder.dissolveActive b /\
  Powder.dissolveElapsed b' = Powder.dissolveElapsed b /\
  Powder.dissolveDurationSec b' = Powder.dissolveDurationSec b /\
  Powder.dead b' = Powder.dead b.
Proof.
  cbv zeta. unfold Powder.dropPhase.
  destruct (Powder.dropLoop dt b _ (Powder.grains b)) as [gs acc].
  cbn [fst]. repeat split.
Qed.

(** The swirl and dissolve state of a live batch after one tick. *)
Lemma updateBatch_swirl_dissolve (dt : R) (n : nat) (b : Powder.Batch) :
  Powder.dead b = false ->
  let b' := fst (Powder.updateBatch dt n b) in
  Powder.dead b' = false /\
  Powder.swirlDuration b' = Powder.swirlDuration b /\
  Powder.dissolveDurationSec b' = Powder.dissolveDurationSec b /\
  (Powder.dropping b = false -> Powder.dropping b' = false) /\
  (Powder.swirling b = false ->
   Powder.swirling b' = false /\ Powder.swirlElapsed b' = Powder.swirlElapsed b) /\
  (Powder.dropping b = false -> Powder.swirling b = true ->
   Powder.swirlElapsed b' = Powder.swirlElapsed b + dt /\
   Powder.swirling b'
   = negb (Rgeb (Powder.swirlElapsed b + dt) (Powder.swirlDuration b))) /\
  (Powder.dissolveActive b = false ->
   Powder.dissolveActive b' = false /\
   Powder.visible b' = Powder.visible b /\
   Powder.materialOpacity b' = Powder.materialOpacity b) /\
  (Powder.dissolveActive b = true ->
   let opacity :=
     Math_max 0 (1 - Math_min 1 ((Powder.dissolveElapsed b + dt) / dissolveDuration b)) in
   Powder.dissolveElapsed b' = Powder.dissolveElapsed b + dt /\
   Powder.materialOpacity b' = opacity /\
   Powder.dissolveActive b' = negb (Rleb opacity 0.02) /\
   Powder.visible b' = if Rleb opacity 0.02 then false else Powder.visible b).
Proof.
  intros Hlive. cbv zeta. unfold Powder.updateBatch. rewrite Hlive.
  destruct (negb (Powder.visible b) && negb (Powder.dropping b)
            && negb (Powder.swirling b) && negb (Powder.dissolveActive b)) eqn:Eskip.
  { cbn [fst]. apply andb_true_iff in Eskip as [Eskip Hd].
    apply andb_true_iff in Eskip as [Eskip Hs].
    apply negb_true_iff in Hd, Hs. rewrite Hd, Hs.
    repeat first [split | intro]; try assumption; try reflexivity; discriminate. }
  set (b1c := if Powder.dropping b then Powder.dropPhase dt n b else (b, [])).
  assert (H1 : Powder.visible (fst b1c) = Powder.visible b /\
               Powder.materialOpacity (fst b1c) = Powder.materialOpacity b /\
               Powder.swirling (fst b1c) = Powder.swirling b /\
               Powder.swirlElapsed (fst b1c) = Powder.swirlElapsed b /\
               Powder.swirlDuration (fst b1c) = Powder.swirlDuration b /\
               Powder.dissolveActive (fst b1c) = Powder.dissolveActive b /\
               Powder.dissolveElapsed (fst b1c) = Powder.dissolveElapsed b /\
               Powder.dissolveDurationSec (fst b1c) = Powder.dissolveDurationSec b /\
               Powder.dead (fst b1c) = Powder.dead b).
  { subst b1c. destruct (Powder.dropping b);
      [apply dropPhase_other_fields | cbn [fst]; repeat split]. }
  assert (H1d : Powder.dropping b = false -> Powder.dropping (fst b1c) = false).
  { subst b1c. intros H. rewrite H. exact H. }
  destruct b1c as [b1 calls]. cbn [fst] in *.
  destruct H1 as (Hv1 & Ho1 & Hs1 & He1 & Hdu1 & Hda1 & Hde1 & Hdd1 & Hdead1).
  set (b2 := if negb (Powder.dropping b1) && Powder.swirling b1
             then Powder.swirlPhase dt b1 else b1).
  assert (H2 : Powder.visible b2 = Powder.visible b1 /\
               Powder.materialOpacity b2 = Powder.materialOpacity b1 /\
               Powder.dropping b2 = Powder.dropping b1 /\
               Powder.swirlDuration b2 = Powder.swirlDuration b1 /\
               Powder.dissolveActive b2 = Powder.dissolveActive b1 /\
               Powder.dissolveElapsed b2 = Powder.dissolveElapsed b1 /\
               Powder.dissolveDurationSec b2 = Powder.dissolveDurationSec b1 /\
               Powder.dead b2 = Powder.dead b1 /\
               (Powder.swirling b1 = false ->
                Powder.swirling b2 = false /\
                Powder.swirlElapsed b2 = Powder.swirlElapsed b1) /\
               (Powder.dropping b1 = false -> Powder.swirling b1 = true ->
                Powder.swirlElapsed b2 = Powder.swirlElapsed b1 + dt /\
                Powder.swirling b2
                = negb (Rgeb (Powder.swirlElapsed b1 + dt) (Powder.swirlDuration b1)))).
  { subst b2. destruct (Powder.dropping b1) eqn:Ed1, (Powder.swirling b1) eqn:Esw;
      cbn [negb andb]; unfold Powder.swirlPhase; cbv zeta;
      cbn [Powder.visible Powder.materialOpacity Powder.dropping Powder.swirlDuration
           Powder.dissolveActive Powder.dissolveElapsed Powder.dissolveDurationSec
           Powder.dead Powder.swirling Powder.swirlElapsed];
      repeat first [split | intro]; try discriminate; try assumption; try reflexivity;
      rewrite ?Ed1, ?Esw; try reflexivity;
      match goal with |- context [Rgeb ?a ?c] => destruct (Rgeb a c) end; reflexivity. }
  destruct H2 as (Hv2 & Ho2 & Hdr2 & Hdu2 & Hda2 & Hde2 & Hdd2 & Hdead2 & Hsw2a & Hsw2b).
  set (b3 := if Powder.dissolveActive b2 then Powder.dissolvePhase dt b2 else b2).
  assert (H3 : Powder.dropping b3 = Powder.dropping b2 /\
               Powder.swirling b3 = Powder.swirling b2 /\
               Powder.swirlElapsed b3 = Powder.swirlElapsed b2 /\
               Powder.swirlDuration b3 = Powder.swirlDuration b2 /\
               Powder.dissolveDurationSec b3 = Powder.dissolveDurationSec b2 /\
               Powder.dead b3 = Powder.dead b2 /\
               (Powder.dissolveActive b2 = false -> b3 = b2) /\
               (Powder.dissolveActive b2 = true -> b3 = Powder.dissolvePhase dt b2)).
  { subst b3. destruct (Powder.dissolveActive b2);
      repeat split; try discriminate; reflexivity. }
  destruct H3 as (Hdr3 & Hs3 & He3 & Hdu3 & Hdd3 & Hdead3 & Hoff3 & Hon3).
  split; [congruence | split; [congruence | split; [congruence |]]].
  split; [intros H; rewrite Hdr3, Hdr2; auto |].
  split; [intros H; rewrite <- Hs1 in H; destruct (Hsw2a H); split; congruence |].
  split.
  { intros Hd Hs. rewrite <- Hs1 in Hs. destruct (Hsw2b (H1d Hd) Hs) as [A B].
    split; congruence. }
  split.
  { intros Hd. rewrite <- Hda1, <- Hda2 in Hd. rewrite (Hoff3 Hd).
    split; [exact Hd | split; congruence]. }
  intros Hd. rewrite <- Hda1, <- Hda2 in Hd. rewrite (Hon3 Hd).
  unfold Powder.dissolvePhase, dissolveDuration. cbv zeta.
  cbn [Powder.dissolveElapsed Powder.materialOpacity Powder.dissolveActive
       Powder.visible].
  rewrite Hde2, Hde1, Hdd2, Hdd1, Hv2, Hv1, Hd.
  repeat split; destruct (Rleb _ _); reflexivity.
Qed.

Lemma runBatch_cons (dt : R) (rest : list R) (n : nat) (b : Powder.Batch) :
  fst (runBatch (dt :: rest) n b) = fst (runBatch rest n (fst (Powder.updateBatch dt n b))).
Proof.
  cbn [runBatch]. destruct (Powder.updateBatch dt n b) as [b1 c1]. cbn [fst].
  destruct (runBatch rest n b1) as [b2 c2]. reflexivity.
Qed.

Lemma runBatch_swirl_stays_off (dts : list R) (n : nat) :
  forall b, Powder.dead b = false -> Powder.swirling b = false ->
            Powder.swirling (fst (runBatch dts n b)) = false.
Proof.
  induction dts as [| dt rest IH]; intros b Hlive Hs; [exact Hs |].
  rewrite runBatch_cons.
  destruct (updateBatch_swirl_dissolve dt n b Hlive) as (Hl & _ & _ & _ & Hoff & _).
  apply IH; [exact Hl | apply Hoff, Hs].
Qed.

(** X22. A swirl ends when its time is up.  For a live batch that is
    swirling (and no longer dropping), after any non-empty run of
    [update] ticks with non-negative [dt] whose sum brings the swirl
    timer to the swirl duration or beyond, the batch is no longer
    swirling; nothing but the timer can end the swirl earlier, and
    nothing restarts it. *)
Theorem swirl_ends_after_its_duration :
  forall (dts : list R) (n : nat) (b : Powder.Batch),
    Powder.dead b = false ->
    Powder.dropping b = false ->
    Powder.swirling b = true ->
    Forall (fun dt => 0 <= dt) dts ->
    dts <> [] ->
    (Powder.swirlDuration b <= Powder.swirlElapsed b + sumR dts ->
     Powder.swirling (fst (runBatch dts n b)) = false) /\
    (Powder.swirlElapsed b + sumR dts < Powder.swirlDuration b ->
     Powder.swirling (fst (runBatch dts n b)) = true /\
     Powder.swirlElapsed (fst (runBatch dts n b)) = Powder.swirlElapsed b + sumR dts).
Proof.
  induction dts as [| dt rest IH]; intros n b Hlive Hdrop Hsw Hdts Hne; [congruence |].
  inversion Hdts as [| ? ? Hdt Hrest]; subst.
  assert (Hsum : 0 <= sumR rest).
  { clear -Hrest. induction Hrest as [| x l Hx _ IHl]; cbn [sumR fold_right]; [lra |].
    fold (sumR l). lra. }
  rewrite runBatch_cons. cbn [sumR fold_right]. fold (sumR rest).
  destruct (updateBatch_swirl_dissolve dt n b Hlive)
    as (Hl & Hdu & _ & Hdr & _ & Hon & _).
  destruct (Hon Hdrop Hsw) as [He1 Hs1].
  set (b1 := fst (Powder.updateBatch dt n b)) in *.
  cmp_case (Rgeb (Powder.swirlElapsed b + dt) (Powder.swirlDuration b));
    cbn [negb] in Hs1.
  - split; [intros _; apply runBatch_swirl_stays_off; assumption | intros H; lra].
  - destruct rest as [| dt2 rest2].
    + cbn [sumR fold_right runBatch fst]. split; [intros H; lra |].
      intros _. split; [exact Hs1 | rewrite He1; lra].
    + destruct (IH n b1 Hl (Hdr Hdrop) Hs1 Hrest ltac:(discriminate)) as [IH1 IH2].
      rewrite Hdu, He1 in IH1, IH2. split.
      * intros H. apply IH1. lra.
      * intros H. destruct IH2 as [A B]; [lra |]. split; [exact A | rewrite B; lra].
Qed.

Lemma runBatch_hidden_stays (dts : list R) (n : nat) :
  forall b, Powder.dead b = false -> Powder.dissolveActive b = false ->
            Powder.dissolveActive (fst (runBatch dts n b)) = false /\
            Powder.visible (fst (runBatch dts n b)) = Powder.visible b /\
            Powder.materialOpacity (fst (runBatch dts n b)) = Powder.materialOpacity b.
Proof.
  induction dts as [| dt rest IH]; intros b Hlive Hd; [repeat split; exact Hd |].
  rewrite runBatch_cons.
  destruct (updateBatch_swirl_dissolve dt n b Hlive)
    as (Hl & _ & _ & _ & _ & _ & Hoff & _).
  destruct (Hoff Hd) as (A & B & C).
  destruct (IH _ Hl A) as (A' & B' & C'). repeat split; congruence.
Qed.

Lemma dissolveDuration_pos (b : Powder.Batch) : 0 < dissolveDuration b.
Proof.
  unfold dissolveDuration.
  eapply Rlt_le_trans; [| apply Math_max_l]. lra.
Qed.

(** The opacity written by a dissolve tick is at most 0.02 exactly when
    the dissolve timer has reached 98 percent of the duration. *)
Lemma dissolve_opacity (e dur : R) :
  0 < dur ->
  let opacity := Math_max 0 (1 - Math_min 1 (e / dur)) in
  0 <= opacity /\ (opacity <= 0.02 <-> 0.98 * dur <= e) /\ (0 <= e -> opacity <= 1).
Proof.
  intros Hdur opacity. subst opacity.
  assert (Hinv : 0 < / dur) by (apply Rinv_0_lt_compat; exact Hdur).
  assert (Hdiv : forall c, c <= e / dur <-> c * dur <= e).
  { intros c. unfold Rdiv. split; intros H.
    - apply Rmult_le_compat_r with (r := dur) in H; [| lra].
      rewrite Rmult_assoc, Rinv_l in H by lra. lra.
    - apply Rmult_le_reg_r with dur; [exact Hdur |].
      rewrite Rmult_assoc, Rinv_l by lra. lra. }
  unfold Math_max, Math_min, Rmax, Rmin.
  destruct (Rle_dec 1 (e / dur)) as [H1 | H1];
    destruct (Rle_dec 0 _) as [H0 | H0]; (split; [lra |]).
  - apply Hdiv in H1. split; [split; intros; lra | intros; lra].
  - lra.
  - split; [| intros He; assert (0 <= e / dur) by (apply Hdiv; lra); lra].
    split; intros H.
    + apply Hdiv. lra.
    + apply Hdiv in H. lra.
  - split; [| intros; lra]. split; intros H; [lra |].
    apply Hdiv in H. lra.
Qed.

(** X23. A dissolve hides the batch when its time is up.  For a live
    batch with the dissolve fade active, after any non-empty run of
    [update] ticks with non-negative [dt] that brings the dissolve
    timer to 98 percent of the dissolve duration
    ([max(0.001, dissolveDurationSec || 1)]) or beyond, the batch is
    invisible, the fade is over and the material opacity is within
    [0, 0.02]; it stays so whatever ticks follow. *)
Theorem dissolve_hides_the_batch :
  forall (dts : list R) (n : nat) (b : Powder.Batch),
    Powder.dead b = false ->
    Powder.dissolveActive b = true ->
    Forall (fun dt => 0 <= dt) dts ->
    dts <> [] ->
    0.98 * dissolveDuration b <= Powder.dissolveElapsed b + sumR dts ->
    let b' := fst (runBatch dts n b) in
    Powder.visible b' = false /\
    Powder.dissolveActive b' = false /\
    0 <= Powder.materialOpacity b' <= 0.02.
Proof.
  induction dts as [| dt rest IH]; intros n b Hlive Hact Hdts Hne Hsum b';
    [congruence |].
  inversion Hdts as [| ? ? Hdt Hrest]; subst.
  subst b'. rewrite runBatch_cons.
  destruct (updateBatch_swirl_dissolve dt n b Hlive)
    as (Hl & _ & Hdd & _ & _ & _ & _ & Hon).
  destruct (Hon Hact) as (He1 & Ho1 & Ha1 & Hv1).
  set (b1 := fst (Powder.updateBatch dt n b)) in *.
  destruct (dissolve_opacity (Powder.dissolveElapsed b + dt) (dissolveDuration b)
              (dissolveDuration_pos b)) as (Hpos & Hiff & _).
  assert (Hdur1 : dissolveDuration b1 = dissolveDuration b)
    by (unfold dissolveDuration; rewrite Hdd; reflexivity).
  cmp_case (Rleb (Math_max 0 (1 - Math_min 1 ((Powder.dissolveElapsed b + dt)
                                               / dissolveDuration b))) 0.02);
    cbn [negb] in Ha1.
  - destruct (runBatch_hidden_stays rest n b1 Hl Ha1) as (A & B & C).
    rewrite A, B, C, Hv1, Ho1. repeat split; lra.
  - destruct rest as [| dt2 rest2].
    + exfalso. cbn [sumR fold_right] in Hsum.
      assert (0.98 * dissolveDuration b <= Powder.dissolveElapsed b + dt) by lra.
      apply Hiff in H. lra.
    + apply IH; try assumption; [discriminate |].
      rewrite Hdur1, He1. cbn [sumR fold_right] in *. lra.
Qed.

Lemma stirredBatch_facts :
  Powder.dead stirredBatch = false /\
  Powder.dropping stirredBatch = false /\
  Powder.swirling stirredBatch = true /\
  Powder.swirlElapsed stirredBatch = 0 /\
  Powder.swirlDuration stirredBatch = 2.4 /\
  Powder.dissolveActive stirredBatch = true /\
  Powder.dissolveElapsed stirredBatch = 0 /\
  dissolveDuration stirredBatch = 2.4.
Proof.
  assert (Hd : Math_max 0.2 (1.4 + 1.0) = 2.4)
    by (unfold Math_max; rewrite Rmax_right by lra; lra).
  unfold dissolveDuration, stirredBatch, Powder.swirlBatch, idleBatch.
  cbn [Powder.visible Powder.dropping negb Powder.dead Powder.swirling
       Powder.swirlElapsed Powder.swirlDuration Powder.dissolveActive
       Powder.dissolveElapsed Powder.dissolveDurationSec
       Powder.sw_durationSec Powder.sw_dissolve Powder.sw_dissolveDurationSec].
  rewrite Hd. repeat split; try reflexivity.
  destruct (Req_dec_T 2.4 0) as [H | _]; [lra |].
  unfold Math_max. rewrite Rmax_right by lra. reflexivity.
Qed.

Lemma no_emission_while_swirling_witness :
  existsb Powder.swirling (Powder.batches (fst (Powder.update 0.1 stirredSystem))) = true /\
  Forall (fun c => exists p, c = Powder.CallOnEnterWater p)
         (snd (Powder.update 0.1 stirredSystem)) /\
  Powder.plumeSpawnAccum (fst (Powder.update 0.1 stirredSystem))
  = Powder.plumeSpawnAccum stirredSystem.
Proof.
  assert (H : existsb Powder.swirling
                (Powder.batches (fst (Powder.update 0.1 stirredSystem))) = true).
  { unfold Powder.update.
    change (Powder.batches stirredSystem) with [stirredBatch].
    change (Powder.count stirredSystem) with 25%nat.
    cbn [Powder.updateBatches].
    destruct stirredBatch_facts as (Hl & Hdr & Hsw & He & Hdu & _).
    destruct (updateBatch_swirl_dissolve 0.1 25 stirredBatch Hl)
      as (_ & _ & _ & _ & _ & Hon & _).
    destruct (Hon Hdr Hsw) as [_ Hs]. rewrite He, Hdu in Hs.
    destruct (Powder.updateBatch 0.1 25 stirredBatch) as [b1 c1]. cbn [fst] in Hs.
    match goal with |- context [Powder.emitPhase ?d ?x] =>
      pose proof (batches_emitPhase d x) as Hb;
      destruct (Powder.emitPhase d x) as [s2 c2] end.
    cbn [fst Powder.batches] in *. rewrite Hb. cbn [existsb]. rewrite Hs.
    cmp_case (Rgeb (0 + 0.1) 2.4); [lra | reflexivity]. }
  split; [exact H |].
  exact (no_emission_while_swirling 0.1 stirredSystem H).
Defined.

Lemma swirl_ends_after_its_duration_witness :
  Powder.swirling (fst (runBatch [1; 1; 1] 25 stirredBatch)) = false.
Proof.
  destruct stirredBatch_facts as (Hl & Hdr & Hsw & He & Hdu & _).
  refine (proj1 (swirl_ends_after_its_duration [1; 1; 1] 25 stirredBatch
                   Hl Hdr Hsw _ _) _).
  - repeat constructor; lra.
  - discriminate.
  - rewrite He, Hdu. cbn [sumR fold_right]. lra.
Defined.

Lemma dissolve_hides_the_batch_witness :
  Powder.visible (fst (runBatch [1; 1; 1] 25 stirredBatch)) = false /\
  Powder.dissolveActive (fst (runBatch [1; 1; 1] 25 stirredBatch)) = false /\
  0 <= Powder.materialOpacity (fst (runBatch [1; 1; 1] 25 stirredBatch)) <= 0.02.
Proof.
  destruct stirredBatch_facts as (Hl & _ & _ & _ & _ & Hact & He & Hdu).
  refine (dissolve_hides_the_batch [1; 1; 1] 25 stirredBatch Hl Hact _ _ _).
  - repeat constructor; lra.
  - discriminate.
  - rewrite He, Hdu. cbn [sumR fold_right]. lra.
Defined.

(** ** Pouring: [spawnAt] *)

Lemma resetAll_length (defs : Powder.Defaults) (cfg : Powder.SpawnCfg) (tape : nat -> R)
      (n : nat) :
  forall pos, length (Powder.resetAll defs cfg tape pos n) = n.
Proof.
  induction n as [| k IH]; intros pos; cbn [Powder.resetAll length];
    [reflexivity | rewrite IH; reflexivity].
Qed.

Lemma resetAll_unsettled (defs : Powder.Defaults) (cfg : Powder.SpawnCfg)
      (tape : nat -> R) (n : nat) :
  forall pos, Forall (fun g => Powder.settled g = false)
                     (Powder.resetAll defs cfg tape pos n).
Proof.
  induction n as [| k IH]; intros pos; cbn [Powder.resetAll]; constructor;
    [reflexivity | apply IH].
Qed.

(** X24. Pouring adds one batch and touches no other.  [spawnAt] leaves
    the existing batches as they are and appends exactly one batch: it
    is shown at the spawn point, opaque, falling from time zero,
    neither swirling nor dissolving, with [count] grains none of which
    is settled; its floor is always more than 0.01 below the spawn
    point, the given floor when that is low enough and otherwise 0.5
    below the spawn point.  The pour takes [12 * count] random draws
    (two reset passes of six draws per grain), leaves the burst timer
    alone, and calls nothing on the diffusion object but
    [enableBottomPlumes]. *)
Theorem spawnAt_appends_falling_batch :
  forall (defs : Powder.Defaults) (worldPos : Powder.Vec3) (o : Powder.SpawnOpts)
         (meth : Powder.Methods) (s : Powder.System),
    let s' := fst (Powder.spawnAt defs worldPos o meth s) in
    let calls := snd (Powder.spawnAt defs worldPos o meth s) in
    (exists b,
        Powder.batches s' = Powder.batches s ++ [b] /\
        freshlyPoured worldPos b /\
        length (Powder.grains b) = Powder.count s /\
        (Powder.bottomYWorld b = Powder.orDefault (Powder.so_bottomYWorld o) 0 \/
         Powder.bottomYWorld b = Powder.vY worldPos - 0.5)) /\
    Powder.randomPos s' = (Powder.randomPos s + 12 * Powder.count s)%nat /\
    Powder.plumeSpawnAccum s' = Powder.plumeSpawnAccum s /\
    Powder.count s' = Powder.count s /\
    Powder.diffusion s' = Powder.diffusion s /\
    (calls = [] \/ calls = [Powder.CallEnableBottomPlumes]) /\
    (Powder.diffusion s = None -> calls = []).
Proof.
  intros defs worldPos o meth s. cbv zeta. unfold Powder.spawnAt.
  cbn [fst snd Powder.batches Powder.randomPos Powder.plumeSpawnAccum Powder.count
       Powder.diffusion].
  split; [| repeat split].
  - eexists. split; [reflexivity |].
    unfold freshlyPoured.
    cbn [Powder.visible Powder.position Powder.materialOpacity Powder.dropping
         Powder.dropElapsed Powder.bottomYWorld Powder.swirling Powder.dissolveActive
         Powder.dead Powder.enterNotified Powder.grains Powder.makeBatch].
    repeat split; try reflexivity.
    + cmp_case (Rltb (Powder.orDefault (Powder.so_bottomYWorld o) 0)
                     (Powder.vY worldPos - 0.01)); lra.
    + apply resetAll_unsettled.
    + apply resetAll_length.
    + destruct (Rltb _ _); [left | right]; reflexivity.
  - lia.
  - destruct (Powder.diffusion s); [destruct (Powder.has_enableBottomPlumes meth) |];
      auto.
  - intros ->. reflexivity.
Qed.

Lemma resetParticle_band (defs : Powder.Defaults) (cfg : Powder.SpawnCfg)
      (tape : nat -> R) (pos : nat) :
  unitTape tape ->
  let jitter := Powder.orDefault (Powder.cfg_radialJitter cfg)
                                 (Powder.defaultRadialJitter defs) in
  let vSpread := Powder.orDefault (Powder.cfg_verticalSpread cfg)
                                  (Powder.defaultVerticalSpread defs) in
  let range := Powder.orDefault (Powder.cfg_velocityYRange cfg)
                                (Powder.defaultVelocityYRange defs) in
  0 <= jitter -> 0 <= vSpread -> fst range <= snd range ->
  withinSpawnBand jitter vSpread (fst range) (snd range)
                  (Powder.resetParticle defs cfg tape pos).
Proof.
  intros Ht jitter vSpread range Hj Hv Hr.
  unfold Powder.resetParticle. fold jitter vSpread range. cbv zeta.
  unfold withinSpawnBand.
  cbn [Powder.gX Powder.gY Powder.gZ Powder.gVX Powder.gVY Powder.gVZ].
  pose proof (Ht pos) as H0. pose proof (Ht (pos + 2)%nat) as H2.
  pose proof (Ht (pos + 3)%nat) as H3. pose proof (Ht (pos + 4)%nat) as H4.
  pose proof (Ht (pos + 5)%nat) as H5.
  repeat split.
  - rewrite Math_hypot_polar by nra. nra.
  - nra.
  - nra.
  - nra.
  - nra.
  - lra.
  - lra.
  - lra.
  - lra.
Qed.

Lemma resetAll_band (defs : Powder.Defaults) (cfg : Powder.SpawnCfg)
      (tape : nat -> R) (n : nat) :
  unitTape tape ->
  let jitter := Powder.orDefault (Powder.cfg_radialJitter cfg)
                                 (Powder.defaultRadialJitter defs) in
  let vSpread := Powder.orDefault (Powder.cfg_verticalSpread cfg)
                                  (Powder.defaultVerticalSpread defs) in
  let range := Powder.orDefault (Powder.cfg_velocityYRange cfg)
                                (Powder.defaultVelocityYRange defs) in
  0 <= jitter -> 0 <= vSpread -> fst range <= snd range ->
  forall pos, Forall (withinSpawnBand jitter vSpread (fst range) (snd range))
                     (Powder.resetAll defs cfg tape pos n).
Proof.
  intros Ht jitter vSpread range Hj Hv Hr.
  induction n as [| k IH]; intros pos; cbn [Powder.resetAll]; constructor;
    [apply resetParticle_band; assumption | apply IH].
Qed.

(** X25. A poured batch starts inside its spawn band.  With random
    draws in [[0, 1)], a non-negative radial jitter and vertical spread
    and a velocity range given in order (each the per-spawn override or
    else the default of the powder), every grain of the batch that
    [spawnAt] adds lies within the jitter radius of the batch's axis,
    between the spawn point and [verticalSpread] below it, never above
    it; its vertical speed is inside the velocity range and its
    horizontal speed is at most 0.09 along each axis. *)
Theorem spawnAt_grains_within_band :
  forall (defs : Powder.Defaults) (worldPos : Powder.Vec3) (o : Powder.SpawnOpts)
         (meth : Powder.Methods) (s : Powder.System) (b : Powder.Batch),
    let jitter := Powder.orDefault (Powder.cfg_radialJitter (Powder.so_cfg o))
                                   (Powder.defaultRadialJitter defs) in
    let vSpread := Powder.orDefault (Powder.cfg_verticalSpread (Powder.so_cfg o))
                                    (Powder.defaultVerticalSpread defs) in
    let range := Powder.orDefault (Powder.cfg_velocityYRange (Powder.so_cfg o))
                                  (Powder.defaultVelocityYRange defs) in
    unitTape (Powder.randomTape s) ->
    0 <= jitter -> 0 <= vSpread -> fst range <= snd range ->
    Powder.batches (fst (Powder.spawnAt defs worldPos o meth s))
    = Powder.batches s ++ [b] ->
    Forall (withinSpawnBand jitter vSpread (fst range) (snd range)) (Powder.grains b).
Proof.
  intros defs worldPos o meth s b jitter vSpread range Ht Hj Hv Hr.
  unfold Powder.spawnAt. cbn [fst Powder.batches]. intros Hb.
  apply app_inj_tail in Hb as [_ <-]. cbn [Powder.grains].
  apply resetAll_band; assumption.
Qed.

Lemma spawnAt_grains_within_band_witness :
  exists b,
    Powder.batches (fst (Powder.spawnAt standardDefaults (Powder.mkVec3 0 1 0) plainPour
                                        managerMethods scenarioCOn))
    = Powder.batches scenarioCOn ++ [b] /\
    Forall (withinSpawnBand 0.35 0.25 (-0.2) 0.25) (Powder.grains b).
Proof.
  eexists. split; [reflexivity |].
  refine (spawnAt_grains_within_band standardDefaults (Powder.mkVec3 0 1 0) plainPour
            managerMethods scenarioCOn _ _ _ _ _ eq_refl).
  - intros k. change (Powder.randomTape scenarioCOn k) with 0.5. lra.
  - change (0 <= 0.35). lra.
  - change (0 <= 0.25). lra.
  - change (-0.2 <= 0.25). lra.
Defined.

(** ** Stirring: [startSwirl] and [stopSwirl] *)

Lemma swirlBatch_started (o : Powder.SwirlOpts) (b : Powder.Batch) :
  swirlStarted o b (Powder.swirlBatch o b).
Proof.
  unfold swirlStarted, Powder.swirlBatch, sameGeometry.
  destruct (Powder.visible b) eqn:Ev; cbn [negb].
  2: { repeat first [split | intro]; try reflexivity; try assumption; discriminate. }
  destruct (Powder.dropping b) eqn:Ed.
  { repeat first [split | intro]; try reflexivity; try assumption; discriminate. }
  cbn [Powder.grains Powder.position Powder.bottomYWorld Powder.beakerCenterWorld
       Powder.beakerRadius Powder.visible Powder.dropping Powder.dead
       Powder.swirling Powder.swirlElapsed Powder.swirlDuration Powder.swirlStrength
       Powder.swirlInward Powder.swirlDrag Powder.swirlDir Powder.materialOpacity
       Powder.dissolveActive Powder.dissolveElapsed].
  assert (Hdur : 0.2 <= Math_max 0.2 (Powder.sw_durationSec o + 1.0))
    by apply Math_max_l.
  assert (Hdd : 0.1 <= match Powder.sw_dissolveDurationSec o with
                       | None => Math_max 0.2 (Powder.sw_durationSec o + 1.0)
                       | Some d => Math_max 0.1 d
                       end).
  { destruct (Powder.sw_dissolveDurationSec o); [apply Math_max_l | lra]. }
  repeat split; try reflexivity; try assumption; try apply Math_max_l.
  - intros [H | H]; discriminate.
  - destruct (Powder.sw_clockwise o); [right | left]; reflexivity.
  - unfold dissolveDuration. cbn [Powder.dissolveDurationSec].
    destruct (Req_dec_T _ 0) as [Hzero | _]; [rewrite Hzero in Hdd; lra |].
    unfold Math_max in *. apply Rmax_right. lra.
Qed.

(** X26. Stirring starts a bounded swirl on the settled, visible
    batches only.  [startSwirl] leaves every hidden or still falling
    batch exactly as it was.  Every other batch keeps its grains, place
    and visibility and starts swirling from time zero, fully opaque,
    for at least 0.2 s, with non-negative strength, inward pull and
    drag and a direction of 1 or -1; its dissolve timer starts from
    zero with a duration of at least 0.1 s, so that [update] fades it
    over exactly that duration.  The burst timer is left alone.  On the
    diffusion object it only ever asks to disable the bottom plumes
    with the queue cleared, to fade them over at least 0.05 s, or (when
    there is no fade method) to clear them. *)
Theorem startSwirl_starts_bounded_swirl :
  forall (o : Powder.SwirlOpts) (meth : Powder.Methods) (s : Powder.System),
    let s' := fst (Powder.startSwirl o meth s) in
    Forall2 (swirlStarted o) (Powder.batches s) (Powder.batches s') /\
    Powder.plumeSpawnAccum s' = Powder.plumeSpawnAccum s /\
    Powder.randomPos s' = Powder.randomPos s /\
    Forall (stirCall meth) (snd (Powder.startSwirl o meth s)) /\
    (Powder.diffusion s = None -> snd (Powder.startSwirl o meth s) = []).
Proof.
  intros o meth s. cbv zeta. unfold Powder.startSwirl.
  cbn [fst snd Powder.batches Powder.plumeSpawnAccum Powder.randomPos].
  split; [| split; [reflexivity | split; [reflexivity | split]]].
  - induction (Powder.batches s) as [| b rest IH]; cbn [map]; constructor;
      [apply swirlBatch_started | exact IH].
  - assert (Hf : 0.05 <= Powder.effectiveFade o).
    { unfold Powder.effectiveFade.
      destruct (Powder.sw_bottomPlumeFadeSec o); apply Math_max_l. }
    destruct (Powder.diffusion s); [| constructor].
    apply Forall_app. split.
    + destruct (Powder.has_disableBottomPlumes meth);
        [apply Forall_cons; [reflexivity | apply Forall_nil] | apply Forall_nil].
    + destruct (Powder.has_fadeOutBottomPlumes meth) eqn:Ef;
        [apply Forall_cons; [exact Hf | apply Forall_nil] |].
      destruct (Powder.has_clearBottomPlumeParticles meth);
        [apply Forall_cons; [exact Ef | apply Forall_nil] | apply Forall_nil].
  - intros ->. reflexivity.
Qed.

Lemma updateBatches_map (dt : R) (n : nat) (bs : list Powder.Batch) :
  fst (Powder.updateBatches dt n bs) = map (fun b => fst (Powder.updateBatch dt n b)) bs.
Proof.
  induction bs as [| b rest IH]; cbn [Powder.updateBatches map]; [reflexivity |].
  destruct (Powder.updateBatch dt n b) as [b' c1].
  destruct (Powder.updateBatches dt n rest) as [rest' c2].
  cbn [fst] in *. rewrite IH. reflexivity.
Qed.

Lemma batches_update (dt : R) (s : Powder.System) :
  Powder.batches (fst (Powder.update dt s))
  = map (fun b => fst (Powder.updateBatch dt (Powder.count s) b)) (Powder.batches s).
Proof.
  rewrite <- updateBatches_map. unfold Powder.update.
  destruct (Powder.updateBatches dt (Powder.count s) (Powder.batches s)) as [bs c1].
  match goal with |- context [Powder.emitPhase dt ?x] =>
    pose proof (batches_emitPhase dt x) as Hb;
    destruct (Powder.emitPhase dt x) as [s2 c2] end.
  cbn [fst Powder.batches] in *. exact Hb.
Qed.

Lemma updateBatch_dead (dt : R) (n : nat) (b : Powder.Batch) :
  Powder.dead b = true -> Powder.updateBatch dt n b = (b, []).
Proof. intros H. unfold Powder.updateBatch. rewrite H. reflexivity. Qed.

(** X27. The frame after stirring starts is silent.  If the powder has
    a visible batch that has finished falling, then after [startSwirl]
    (whatever its options) an [update] shorter than 0.2 s makes no call
    on the diffusion object, only water-entry callbacks of batches
    still falling, and does not advance the burst timer. *)
Theorem startSwirl_silences_next_frame :
  forall (o : Powder.SwirlOpts) (meth : Powder.Methods) (s : Powder.System) (dt : R),
    (exists b, In b (Powder.batches s) /\
               Powder.visible b = true /\ Powder.dropping b = false) ->
    dt < 0.2 ->
    let s1 := fst (Powder.startSwirl o meth s) in
    onlyEnterWater (snd (Powder.update dt s1)) /\
    Powder.plumeSpawnAccum (fst (Powder.update dt s1)) = Powder.plumeSpawnAccum s.
Proof.
  intros o meth s dt (b & Hin & Hv & Hd) Hdt s1.
  assert (Hsw : existsb Powder.swirling (Powder.batches (fst (Powder.update dt s1)))
                = true).
  { rewrite batches_update. apply existsb_exists.
    exists (fst (Powder.updateBatch dt (Powder.count s1) (Powder.swirlBatch o b))).
    split.
    - apply in_map_iff. exists (Powder.swirlBatch o b). split; [reflexivity |].
      subst s1. unfold Powder.startSwirl. cbn [fst Powder.batches].
      apply in_map. exact Hin.
    - destruct (swirlBatch_started o b) as (_ & _ & _ & Hd1 & _ & _ & Hon).
      destruct (Hon Hv Hd) as (Hs1 & He1 & Hdur & _).
      rewrite Hd in Hd1.
      destruct (Powder.dead (Powder.swirlBatch o b)) eqn:Edead.
      + rewrite updateBatch_dead by exact Edead. exact Hs1.
      + destruct (updateBatch_swirl_dissolve dt (Powder.count s1) _ Edead)
          as (_ & _ & _ & _ & _ & Hrun & _).
        destruct (Hrun Hd1 Hs1) as [_ Hs2]. rewrite Hs2, He1.
        cmp_case (Rgeb (0 + dt) (Powder.swirlDuration (Powder.swirlBatch o b)));
          [lra | reflexivity]. }
  destruct (update_silent_while_swirling dt s1 Hsw) as [Hc Ha].
  split; [exact Hc | rewrite Ha; reflexivity].
Qed.

Lemma startSwirl_silences_next_frame_witness :
  onlyEnterWater
    (snd (Powder.update 0.1 (fst (Powder.startSwirl Powder.defaultSwirlOpts managerMethods
                                                     scenarioCOn)))) /\
  Powder.plumeSpawnAccum
    (fst (Powder.update 0.1 (fst (Powder.startSwirl Powder.defaultSwirlOpts managerMethods
                                                     scenarioCOn))))
  = Powder.plumeSpawnAccum scenarioCOn.
Proof.
  refine (startSwirl_silences_next_frame Powder.defaultSwirlOpts managerMethods
            scenarioCOn 0.1 _ _).
  - exists idleBatch. split; [left; reflexivity | split; reflexivity].
  - lra.
Defined.

Lemma updateBatches_stay_unswirled (dt : R) (n : nat) (bs : list Powder.Batch) :
  Forall (fun b => Powder.swirling b = false) bs ->
  Forall (fun b => Powder.swirling b = false)
         (map (fun b => fst (Powder.updateBatch dt n b)) bs).
Proof.
  intros H. induction H as [| b rest Hb _ IH]; cbn [map]; constructor; [| exact IH].
  destruct (Powder.dead b) eqn:Edead.
  - rewrite updateBatch_dead by exact Edead. exact Hb.
  - destruct (updateBatch_swirl_dissolve dt n b Edead) as (_ & _ & _ & _ & Hoff & _).
    apply Hoff, Hb.
Qed.

Lemma existsb_swirling_none (bs : list Powder.Batch) :
  Forall (fun b => Powder.swirling b = false) bs -> existsb Powder.swirling bs = false.
Proof.
  intros H. induction H as [| b rest Hb _ IH]; cbn [existsb]; [reflexivity |].
  rewrite Hb, IH. reflexivity.
Qed.

(** X28. Stopping the stir restarts the burst timer.  [stopSwirl] ends
    the swirl of every batch, touching neither its grains nor its
    dissolve fade, and sets the burst timer to zero.  So an [update]
    shorter than the burst interval of 0.12 s that follows it makes no
    call on the diffusion object, however long the timer had run
    before: with a diffusion object set the timer then stands at [dt],
    and no batch swirls again. *)
Theorem stopSwirl_restarts_burst_timer :
  forall (s : Powder.System) (dt : R),
    dt < Powder.plumeSpawnInterval ->
    let s1 := Powder.stopSwirl s in
    let r := Powder.update dt s1 in
    Forall2 (fun b b' => Powder.grains b' = Powder.grains b /\
                         Powder.visible b' = Powder.visible b /\
                         Powder.dissolveActive b' = Powder.dissolveActive b /\
                         Powder.dissolveElapsed b' = Powder.dissolveElapsed b /\
                         Powder.swirling b' = false)
            (Powder.batches s) (Powder.batches s1) /\
    onlyEnterWater (snd r) /\
    Forall (fun b => Powder.swirling b = false) (Powder.batches (fst r)) /\
    Powder.plumeSpawnAccum (fst r)
    = match Powder.diffusion s with Some _ => dt | None => 0 end.
Proof.
  intros s dt Hdt s1 r.
  assert (Hoff : Forall (fun b => Powder.swirling b = false) (Powder.batches s1)).
  { subst s1. unfold Powder.stopSwirl. cbn [Powder.batches].
    induction (Powder.batches s) as [| b rest IH]; cbn [map]; constructor;
      [reflexivity | exact IH]. }
  split; [| split; [| split]].
  - subst s1. unfold Powder.stopSwirl. cbn [Powder.batches].
    induction (Powder.batches s) as [| b rest IH]; cbn [map]; constructor;
      [repeat split | exact IH].
  - subst r. unfold onlyEnterWater, Powder.update.
    pose proof (updateBatches_enter_only dt (Powder.count s1) (Powder.batches s1)) as Hc1.
    pose proof (updateBatches_map dt (Powder.count s1) (Powder.batches s1)) as Hm.
    destruct (Powder.updateBatches dt (Powder.count s1) (Powder.batches s1)) as [bs c1].
    cbn [fst snd] in Hc1, Hm.
    unfold Powder.emitPhase. cbn [Powder.diffusion Powder.batches Powder.plumeSpawnAccum].
    destruct (Powder.diffusion s1); [| cbn [snd]; rewrite app_nil_r; exact Hc1].
    rewrite Hm, (existsb_swirling_none _ (updateBatches_stay_unswirled dt _ _ Hoff)).
    change (Powder.plumeSpawnAccum s1) with 0.
    cmp_case (Rgeb (0 + dt) Powder.plumeSpawnInterval); [lra |].
    cbn [snd]. rewrite app_nil_r. exact Hc1.
  - subst r. rewrite batches_update. apply updateBatches_stay_unswirled. exact Hoff.
  - subst r. unfold Powder.update.
    pose proof (updateBatches_map dt (Powder.count s1) (Powder.batches s1)) as Hm.
    destruct (Powder.updateBatches dt (Powder.count s1) (Powder.batches s1)) as [bs c1].
    cbn [fst] in Hm.
    unfold Powder.emitPhase. cbn [Powder.diffusion Powder.batches Powder.plumeSpawnAccum].
    change (Powder.diffusion s1) with (Powder.diffusion s).
    destruct (Powder.diffusion s); [| reflexivity].
    rewrite Hm, (existsb_swirling_none _ (updateBatches_stay_unswirled dt _ _ Hoff)).
    change (Powder.plumeSpawnAccum s1) with 0.
    cmp_case (Rgeb (0 + dt) Powder.plumeSpawnInterval); [lra |].
    cbn [fst Powder.plumeSpawnAccum]. lra.
Qed.

Lemma stopSwirl_restarts_burst_timer_witness :
  onlyEnterWater (snd (Powder.update 0.1 (Powder.stopSwirl stirredSystem))) /\
  Powder.plumeSpawnAccum (fst (Powder.update 0.1 (Powder.stopSwirl stirredSystem))) = 0.1.
Proof.
  assert (H : 0.1 < Powder.plumeSpawnInterval) by (unfold Powder.plumeSpawnInterval; lra).
  destruct (stopSwirl_restarts_burst_timer stirredSystem 0.1 H) as (_ & Hc & _ & Ha).
  split; [exact Hc | exact Ha].
Defined.

(** ** Clearing the powder *)

Lemma update_no_batches (dt : R) (s : Powder.System) :
  Powder.batches s = [] ->
  snd (Powder.update dt s) = [] /\
  Powder.batches (fst (Powder.update dt s)) = [] /\
  Powder.randomPos (fst (Powder.update dt s)) = Powder.randomPos s.
Proof.
  intros Hb. unfold Powder.update. rewrite Hb. cbn [Powder.updateBatches].
  unfold Powder.emitPhase. cbn [Powder.diffusion Powder.batches existsb Powder.emitLoop
                                Powder.plumeSpawnAccum Powder.randomPos Powder.count].
  destruct (Powder.diffusion s); [| repeat split].
  destruct (Rgeb _ _); cbn [fst snd Powder.batches Powder.randomPos app];
    repeat split; apply Nat.add_0_r.
Qed.

(** X29. A cleared powder is silent.  After [clear], whatever batches
    there were, [hasPowder] is false and any run of [update] frames,
    with any diffusion object set before each frame, makes no call at
    all (no water-entry callback, no plume source), draws no random
    number, and leaves the powder without batches. *)
Theorem clear_silences_the_powder :
  forall (frames : list (R * option Powder.Handle)) (s : Powder.System),
    Powder.hasPowder (Powder.clear s) = false /\
    snd (runUpdates frames (Powder.clear s)) = [] /\
    Powder.batches (fst (runUpdates frames (Powder.clear s))) = [] /\
    Powder.hasPowder (fst (runUpdates frames (Powder.clear s))) = false /\
    Powder.randomPos (fst (runUpdates frames (Powder.clear s))) = Powder.randomPos s.
Proof.
  intros frames s. split; [reflexivity |].
  assert (H : forall s0, Powder.batches s0 = [] ->
                         snd (runUpdates frames s0) = [] /\
                         Powder.batches (fst (runUpdates frames s0)) = [] /\
                         Powder.randomPos (fst (runUpdates frames s0))
                         = Powder.randomPos s0).
  { induction frames as [| [dt d] rest IH]; intros s0 Hb; cbn [runUpdates];
      [repeat split; exact Hb |].
    destruct (update_no_batches dt (Powder.setDiffusionManager d s0) Hb)
      as (Hc & Hb1 & Hp).
    destruct (Powder.update dt (Powder.setDiffusionManager d s0)) as [s1 c1].
    cbn [fst snd] in *. destruct (IH s1 Hb1) as (Hc2 & Hb2 & Hp2).
    destruct (runUpdates rest s1) as [s2 c2]. cbn [fst snd] in *.
    subst c1 c2. repeat split; [exact Hb2 | rewrite Hp2, Hp; reflexivity]. }
  destruct (H (Powder.clear s) eq_refl) as (Hc & Hb & Hp).
  split; [exact Hc | split; [exact Hb | split; [| exact Hp]]].
  unfold Powder.hasPowder. rewrite Hb. reflexivity.
Qed.

(** ** The powder driving the plume manager *)

Lemma fadeOutBottomPlumes_queue_lock (d : R) (m : Diffusion.Manager) :
  Diffusion.spawnQueue (Diffusion.fadeOutBottomPlumes d m) = Diffusion.spawnQueue m /\
  Diffusion._bottomPlumeDisabled (Diffusion.fadeOutBottomPlumes d m)
  = Diffusion._bottomPlumeDisabled m.
Proof.
  unfold Diffusion.fadeOutBottomPlumes.
  destruct (Diffusion.points m); split; reflexivity.
Qed.

(** X30. Stirring locks the bottom plumes of the manager until the next
    pour.  When the powder is wired to a plume manager, the calls that
    [startSwirl] makes on it remove every bottom request from the spawn
    queue, keeping the others in order, start the fade of the plume
    particles with a duration of at least 0.05 s, and lock the manager:
    [addBottomSource] then returns it unchanged.  The call that
    the next [spawnAt] makes lifts the lock without touching the queue,
    so that [addBottomSource] enqueues again. *)
Theorem stirring_locks_bottom_plumes_until_next_pour :
  forall (o : Powder.SwirlOpts) (s : Powder.System) (m : Diffusion.Manager)
         (defs : Powder.Defaults) (worldPos : Powder.Vec3) (so : Powder.SpawnOpts),
    Powder.diffusion s <> None ->
    let s1 := fst (Powder.startSwirl o managerMethods s) in
    let m1 := runControls (snd (Powder.startSwirl o managerMethods s)) m in
    let m2 := runControls (snd (Powder.spawnAt defs worldPos so managerMethods s1)) m1 in
    Diffusion.spawnQueue m1 = filter notBottom (Diffusion.spawnQueue m) /\
    Diffusion.pool m1
    = match Diffusion.points m with
      | Some _ => map (Diffusion.fadeParticle (Powder.effectiveFade o)) (Diffusion.pool m)
      | None => Diffusion.pool m
      end /\
    0.05 <= Powder.effectiveFade o /\
    (forall x z n bo, Diffusion.addBottomSource x z n bo m1 = m1) /\
    Diffusion.spawnQueue m2 = Diffusion.spawnQueue m1 /\
    Diffusion.pool m2 = Diffusion.pool m1 /\
    (forall x z n bo,
        length (Diffusion.spawnQueue (Diffusion.addBottomSource x z n bo m2))
        = S (length (Diffusion.spawnQueue m1))).
Proof.
  intros o s m defs worldPos so Hd s1 m1 m2.
  assert (Hm1 : m1 = Diffusion.fadeOutBottomPlumes (Powder.effectiveFade o)
                       (Diffusion.disableBottomPlumes true m)).
  { subst m1. unfold Powder.startSwirl. cbn [snd].
    destruct (Powder.diffusion s); [reflexivity | congruence]. }
  assert (Hm2 : m2 = Diffusion.enableBottomPlumes m1).
  { subst m2 s1. unfold Powder.spawnAt, Powder.startSwirl.
    cbn [fst snd Powder.diffusion].
    destruct (Powder.diffusion s); [reflexivity | congruence]. }
  clearbody m1 m2. clear s1.
  destruct (fadeOutBottomPlumes_queue_lock (Powder.effectiveFade o)
              (Diffusion.disableBottomPlumes true m)) as [Hq Hl].
  rewrite <- Hm1 in Hq, Hl.
  assert (Hq1 : Diffusion.spawnQueue m1 = filter notBottom (Diffusion.spawnQueue m)).
  { rewrite Hq. unfold Diffusion.disableBottomPlumes. msimpl. apply purgeBottom_filter. }
  assert (Hl1 : Diffusion._bottomPlumeDisabled m1 = true).
  { rewrite Hl. unfold Diffusion.disableBottomPlumes. msimpl. reflexivity. }
  split; [exact Hq1 | split; [| split; [| split; [| split; [| split]]]]].
  - rewrite Hm1. unfold Diffusion.fadeOutBottomPlumes, Diffusion.disableBottomPlumes.
    msimpl. destruct (Diffusion.points m); msimpl; reflexivity.
  - unfold Powder.effectiveFade.
    destruct (Powder.sw_bottomPlumeFadeSec o); apply Math_max_l.
  - intros x z n bo. unfold Diffusion.addBottomSource. rewrite Hl1. reflexivity.
  - rewrite Hm2. reflexivity.
  - rewrite Hm2. reflexivity.
  - intros x z n bo. rewrite Hm2.
    unfold Diffusion.addBottomSource, Diffusion.enableBottomPlumes, Diffusion.ensurePoints.
    msimpl. destruct (Diffusion.points m1) eqn:E; repeat (msimpl; rewrite ?E);
      rewrite length_app, Nat.add_comm; reflexivity.
Qed.

Lemma stirring_locks_bottom_plumes_until_next_pour_witness :
  let m1 := runControls (snd (Powder.startSwirl Powder.defaultSwirlOpts managerMethods
                                                scenarioCOn)) fiveBottomManager in
  Diffusion.spawnQueue m1 = filter notBottom (Diffusion.spawnQueue fiveBottomManager) /\
  Diffusion.addBottomSource 0 0 18 Diffusion.defaultBottomOpts m1 = m1.
Proof.
  assert (Hd : Powder.diffusion scenarioCOn <> None) by discriminate.
  destruct (stirring_locks_bottom_plumes_until_next_pour
              Powder.defaultSwirlOpts scenarioCOn fiveBottomManager standardDefaults
              (Powder.mkVec3 0 1 0) plainPour Hd)
    as (Hq & _ & _ & Hlock & _).
  split; [exact Hq | apply Hlock].
Defined.
